(** * Green Button feed parser and CSV exporter: a shallow embedding

    The development follows the two JavaScript classes of the repository,
    [GreenButtonParser] (parse, relate, flatten) and [CSVExporter]
    (encode, preview, validate, export, summarise), and the texts that
    [GreenButtonApp] computes for the result page.  The built-ins of the
    language that the classes call (truthiness, [parseInt],
    [String.prototype.trim], [Number.prototype.toFixed],
    [Date.prototype.toISOString], [Map], [querySelector]) are given in the
    modules [JS] and [Dom]; the clock, the download of the browser and
    [Date.parse] are parameters of the functions that use them.

    Numbers: a JavaScript number is modelled as [NaN] or an exact rational.
    Every number of the pipeline is an integer read by [parseInt], or such
    an integer scaled by a power of ten and divided by 100, so the rationals
    are exact where the doubles of the engine round; the model has no
    infinity and no negative zero.

    Exceptions: a function that can throw returns a [result].

    Strings: sequences of code units below 256. *)

From Stdlib Require Import ZArith QArith Qabs List String Ascii Bool Lia.
From Stdlib Require Import DecimalString.
Import ListNotations.

Local Open Scope string_scope.
Local Open Scope Z_scope.

(* ================================================================= *)
(** ** The JavaScript built-ins used by the two classes *)

Module JS.

(** A call either returns or throws; [Throw] carries the error message. *)
Inductive result (A : Type) : Type :=
| Ok (a : A)
| Throw (msg : string).
Arguments Ok {A} a.
Arguments Throw {A} msg.

Definition bind {A B} (r : result A) (k : A -> result B) : result B :=
  match r with
  | Ok a => k a
  | Throw m => Throw m
  end.

Fixpoint mapM {A B} (f : A -> result B) (l : list A) : result (list B) :=
  match l with
  | [] => Ok []
  | x :: xs =>
      bind (f x) (fun y => bind (mapM f xs) (fun ys => Ok (y :: ys)))
  end.

(** *** Strings *)

Definition chars (s : string) : list ascii := list_ascii_of_string s.

Definition str (l : list ascii) : string := string_of_list_ascii l.

Definition quote : ascii := ascii_of_nat 34.
Definition comma : ascii := ascii_of_nat 44.
Definition LF : ascii := ascii_of_nat 10.
Definition CR : ascii := ascii_of_nat 13.
Definition TAB : ascii := ascii_of_nat 9.
Definition space : ascii := ascii_of_nat 32.

Definition char1 (c : ascii) : string := String c EmptyString.

(** [s.startsWith(p)] *)
Definition startsWith (s p : string) : bool := String.prefix p s.

(** [s.includes(sub)] *)
Fixpoint includes (s sub : string) : bool :=
  String.prefix sub s ||
  match s with
  | EmptyString => false
  | String _ r => includes r sub
  end.

(** [s.endsWith(p)] *)
Definition endsWith (s p : string) : bool :=
  String.prefix (str (rev (chars p))) (str (rev (chars s))).

(** WhiteSpace and LineTerminator code units (below 256), the set removed
    by [trim] and skipped by [parseInt]. *)
Definition isWhiteSpace (c : ascii) : bool :=
  let n := nat_of_ascii c in
  (Nat.eqb n 9 || Nat.eqb n 10 || Nat.eqb n 11 || Nat.eqb n 12
   || Nat.eqb n 13 || Nat.eqb n 32 || Nat.eqb n 160)%bool.

Fixpoint trimStart (s : string) : string :=
  match s with
  | String c r => if isWhiteSpace c then trimStart r else s
  | EmptyString => EmptyString
  end.

Definition trimEnd (s : string) : string :=
  str (rev (chars (trimStart (str (rev (chars s)))))).

(** [s.trim()] *)
Definition trim (s : string) : string := trimEnd (trimStart s).

(** [l.join(sep)] on an array of strings *)
Definition join (sep : string) (l : list string) : string :=
  String.concat sep l.

(** The empty string is the only falsy string. *)
Definition truthyStr (s : string) : bool :=
  match s with
  | EmptyString => false
  | _ => true
  end.

(** Truthiness of a value that is a string or [null]. *)
Definition truthyOptStr (o : option string) : bool :=
  match o with
  | Some s => truthyStr s
  | None => false
  end.

(** [t || null] for [t] a string or [null] *)
Definition strOrNull (o : option string) : option string :=
  if truthyOptStr o then o else None.

(** *** Numbers *)

Inductive number : Type :=
| NaN
| Num (q : Q).

Definition ofZ (z : Z) : number := Num (inject_Z z).

(** [NaN] and zero are the falsy numbers. *)
Definition truthyNum (n : number) : bool :=
  match n with
  | NaN => false
  | Num q => negb (Qnum q =? 0)
  end.

(** Truthiness of a value that is a number, [null] or [undefined]. *)
Definition truthyOptNum (o : option number) : bool :=
  match o with
  | Some n => truthyNum n
  | None => false
  end.

(** [n || null] *)
Definition numOrNull (n : number) : option number :=
  if truthyNum n then Some n else None.

(** [n || 0] *)
Definition numOrZero (n : number) : number :=
  if truthyNum n then n else ofZ 0.

Definition pow10Q (e : Z) : Q :=
  if 0 <=? e then inject_Z (10 ^ e) else Qinv (inject_Z (10 ^ (- e))).

(** [Math.pow(10, e)]; the exponents of the source are integers read by
    [parseInt], or [NaN]. *)
Definition pow10 (e : number) : number :=
  match e with
  | NaN => NaN
  | Num q =>
      if (Zpos (Qden (Qred q)) =? 1)
      then Num (pow10Q (Qnum (Qred q)))
      else NaN
  end.

Definition mul (a b : number) : number :=
  match a, b with
  | Num x, Num y => Num (Qred (x * y))
  | _, _ => NaN
  end.

Definition add (a b : number) : number :=
  match a, b with
  | Num x, Num y => Num (Qred (x + y))
  | _, _ => NaN
  end.

(** [a / b]; the divisors of the source are 100 and a count of cells that
    is zero only when the divided count is, so a number other than zero is
    never divided by zero. *)
Definition div (a b : number) : number :=
  match a, b with
  | Num x, Num y => if Qnum y =? 0 then NaN else Num (Qred (x / y))
  | _, _ => NaN
  end.

(** *** parseInt *)

Definition digitValue (c : ascii) : option Z :=
  let n := Z.of_nat (nat_of_ascii c) in
  if (48 <=? n) && (n <=? 57) then Some (n - 48)
  else if (97 <=? n) && (n <=? 122) then Some (n - 87)
  else if (65 <=? n) && (n <=? 90) then Some (n - 55)
  else None.

(** The longest prefix of digits of the radix, read left to right;
    [None] when the prefix is empty. *)
Fixpoint readDigits (radix : Z) (s : string) (acc : option Z) : option Z :=
  match s with
  | EmptyString => acc
  | String c r =>
      match digitValue c with
      | Some d =>
          if d <? radix
          then readDigits radix r
                 (Some (match acc with Some a => a * radix + d | None => d end))
          else acc
      | None => acc
      end
  end.

Definition stripHexPrefix (s : string) : option string :=
  match s with
  | String z (String x r) =>
      if (Nat.eqb (nat_of_ascii z) 48)
         && (Nat.eqb (nat_of_ascii x) 120 || Nat.eqb (nat_of_ascii x) 88)
      then Some r else None
  | _ => None
  end.

(** [parseInt(s)] with no radix argument. *)
Definition parseIntStr (s : string) : number :=
  let t := trimStart s in
  let '(sign, u) :=
    match t with
    | String c r =>
        if Nat.eqb (nat_of_ascii c) 45 then (-1, r)
        else if Nat.eqb (nat_of_ascii c) 43 then (1, r)
        else (1, t)
    | EmptyString => (1, t)
    end in
  let digits :=
    match stripHexPrefix u with
    | Some r => readDigits 16 r None
    | None => readDigits 10 u None
    end in
  match digits with
  | Some v => ofZ (sign * v)
  | None => NaN
  end.

(** [parseInt(t)] for [t] a string or [null]: [null] is first converted to
    the string "null", which has no digits. *)
Definition parseInt (t : option string) : number :=
  match t with
  | Some s => parseIntStr s
  | None => NaN
  end.

(** *** Number to string *)

Definition ZtoString (z : Z) : string := NilZero.string_of_int (Z.to_int z).

Definition isInteger (q : Q) : bool := Zpos (Qden (Qred q)) =? 1.

Section NumberToString.

(** [Number::toString] on the values whose digits depend on the binary
    representation (non-integers, and magnitudes from 10^21 on, which print
    in exponent notation) is a parameter of the model. *)
Variable otherToString : Q -> string.

Definition numToString (n : number) : string :=
  match n with
  | NaN => "NaN"
  | Num q =>
      if isInteger q && (Z.abs (Qnum (Qred q)) <? 10 ^ 21)
      then ZtoString (Qnum (Qred q))
      else otherToString q
  end.

Fixpoint zeros (n : nat) : string :=
  match n with
  | O => ""
  | S k => "0" ++ zeros k
  end.

(** Left padding with zeros up to [width] characters. *)
Definition padZeros (width : nat) (s : string) : string :=
  zeros (width - String.length s) ++ s.

(** The integer [n] for which [n / 10^f - x] is closest to zero, the larger
    one of two; [x] is not negative. *)
Definition roundScaled (x : Q) (f : nat) : Z :=
  let p := 10 ^ Z.of_nat f in
  (2 * Qnum x * p + Zpos (Qden x)) / (2 * Zpos (Qden x)).

(** [x.toFixed(f)] *)
Definition toFixed (x : number) (f : nat) : string :=
  match x with
  | NaN => "NaN"
  | Num q =>
      if Qle_bool (inject_Z (10 ^ 21)) (Qabs q) then numToString x
      else
        let n := roundScaled (Qabs q) f in
        let p := 10 ^ Z.of_nat f in
        let sign := if Qnum q <? 0 then "-" else "" in
        let ip := ZtoString (n / p) in
        match f with
        | O => sign ++ ip
        | _ => sign ++ ip ++ "." ++ padZeros f (ZtoString (n mod p))
        end
  end.

End NumberToString.

(** *** Date *)

(** Year, month and day of a day number counted from 1970-01-01 in the
    proleptic Gregorian calendar. *)
Definition civilFromDays (days : Z) : Z * Z * Z :=
  let z := days + 719468 in
  let era := z / 146097 in
  let doe := z - era * 146097 in
  let yoe := (doe - doe / 1460 + doe / 36524 - doe / 146096) / 365 in
  let doy := doe - (365 * yoe + yoe / 4 - yoe / 100) in
  let mp := (5 * doy + 2) / 153 in
  let d := doy - (153 * mp + 2) / 5 + 1 in
  let m := if mp <? 10 then mp + 3 else mp - 9 in
  let y := yoe + era * 400 + (if m <=? 2 then 1 else 0) in
  (y, m, d).

Definition pad (width : nat) (z : Z) : string := padZeros width (ZtoString z).

Definition isoYear (y : Z) : string :=
  if (0 <=? y) && (y <=? 9999) then pad 4 y
  else (if y <? 0 then "-" else "+") ++ pad 6 (Z.abs y).

(** The ISO 8601 text of a time value in milliseconds. *)
Definition isoString (tv : Z) : string :=
  let day := tv / 86400000 in
  let t := tv mod 86400000 in
  let '(y, m, d) := civilFromDays day in
  isoYear y ++ "-" ++ pad 2 m ++ "-" ++ pad 2 d ++ "T"
  ++ pad 2 (t / 3600000) ++ ":" ++ pad 2 ((t / 60000) mod 60) ++ ":"
  ++ pad 2 ((t / 1000) mod 60) ++ "." ++ pad 3 (t mod 1000) ++ "Z".

Definition maxTime : Z := 8640000000000000.

(** The time value of [new Date(x)]: [None] is the invalid date. *)
Definition timeClip (x : number) : option Z :=
  match x with
  | NaN => None
  | Num q =>
      let t := Z.quot (Qnum q) (Zpos (Qden q)) in
      if Qle_bool (Qabs q) (inject_Z maxTime) then Some t else None
  end.

(** [new Date(x).toISOString()] *)
Definition dateToISOString (x : number) : result string :=
  match timeClip x with
  | Some tv => Ok (isoString tv)
  | None => Throw "Invalid time value"
  end.

(** *** Map, with keys that are strings or [null] *)

Definition key : Type := option string.

Definition key_eqb (a b : key) : bool :=
  match a, b with
  | Some x, Some y => String.eqb x y
  | None, None => true
  | _, _ => false
  end.

(** A [Map] as the list of its entries in insertion order. *)
Definition Map (V : Type) : Type := list (key * V).

Fixpoint get {V} (m : Map V) (k : key) : option V :=
  match m with
  | [] => None
  | (k', v) :: r => if key_eqb k k' then Some v else get r k
  end.

Definition has {V} (m : Map V) (k : key) : bool :=
  match get m k with
  | Some _ => true
  | None => false
  end.

(** [m.set(k, v)]: an existing key keeps its place, a new key goes last. *)
Fixpoint set {V} (m : Map V) (k : key) (v : V) : Map V :=
  match m with
  | [] => [(k, v)]
  | (k', v') :: r => if key_eqb k k' then (k', v) :: r else (k', v') :: set r k v
  end.

Definition keys {V} (m : Map V) : list key := map fst m.

End JS.

(* ================================================================= *)
(** ** The document tree and the selectors the parser uses *)

Module Dom.

(** An element carries its local name (a type selector compares local
    names), its attributes and its children; the other nodes that matter
    to [textContent] are text nodes. *)
#[warnings="-register-all"] Inductive node : Type :=
| Element (localName : string) (attributes : list (string * string))
          (childNodes : list node)
| Text (data : string).

(** The nodes below [n] in document order. *)
Fixpoint descendants (n : node) : list node :=
  match n with
  | Element _ _ kids =>
      (fix below (l : list node) : list node :=
         match l with
         | [] => []
         | k :: r => k :: (descendants k ++ below r)%list
         end) kids
  | Text _ => []
  end.

(** [n.textContent] *)
Fixpoint textContent (n : node) : string :=
  match n with
  | Element _ _ kids =>
      (fix cat (l : list node) : string :=
         match l with
         | [] => ""
         | k :: r => textContent k ++ cat r
         end) kids
  | Text d => d
  end.

(** [n.getAttribute(name)] *)
Definition getAttribute (n : node) (name : string) : option string :=
  match n with
  | Element _ attrs _ =>
      option_map snd (find (fun a => String.eqb (fst a) name) attrs)
  | Text _ => None
  end.

(** The two forms of simple selector in the source: a type selector [E]
    and an attribute selector on any element. *)
Inductive simple : Type :=
| Tag (name : string)
| AttrIs (attr value : string).

(** A selector list [a, b, ...]. *)
Definition selector : Type := list simple.

Definition matchesSimple (n : node) (s : simple) : bool :=
  match n, s with
  | Element nm _ _, Tag t => String.eqb nm t
  | Element _ _ _, AttrIs a v =>
      match getAttribute n a with
      | Some x => String.eqb x v
      | None => false
      end
  | Text _, _ => false
  end.

Definition matches (sel : selector) (n : node) : bool :=
  existsb (matchesSimple n) sel.

(** [element.querySelectorAll(sel)] *)
Definition querySelectorAll (root : node) (sel : selector) : list node :=
  filter (matches sel) (descendants root).

(** [element.querySelector(sel)] *)
Definition querySelector (root : node) (sel : selector) : option node :=
  find (matches sel) (descendants root).

(** A document is given by its root element, which its own queries see. *)
Definition docQuerySelectorAll (doc : node) (sel : selector) : list node :=
  filter (matches sel) (doc :: descendants doc).

Definition docQuerySelector (doc : node) (sel : selector) : option node :=
  find (matches sel) (doc :: descendants doc).

End Dom.

(* ================================================================= *)
(** ** GreenButtonParser *)

Module GreenButtonParser.

Import JS Dom.

(** The links of an entry: the object [{rel: [href, ...]}] as the list of
    its own properties.  Only the property [related] is ever read, so the
    order of the properties is immaterial. *)
Definition Links : Type := list (string * list string).

Definition prop {V} (o : list (string * V)) (name : string) : option V :=
  option_map snd (find (fun p => String.eqb (fst p) name) o).

(** A code with its label, the shape of [commodity] and [uom]. *)
Module Coded.
Record t : Type := { code : number; description : string }.
End Coded.

Module ServiceCategory.
Record t : Type := { kind : number; description : string }.
End ServiceCategory.

Module UsagePoint.
Record t : Type := {
  id : key;
  serviceCategory : option ServiceCategory.t;
  links : Links;
  description : option string
}.
End UsagePoint.

Module MeterReading.
Record t : Type := { id : key; links : Links }.
End MeterReading.

Module ReadingType.
Record t : Type := {
  id : key;
  accumulationBehaviour : option number;
  commodity : option Coded.t;
  currency : option number;
  dataQualifier : option number;
  flowDirection : option number;
  intervalLength : option number;
  kind : option number;
  phase : option number;
  powerOfTenMultiplier : number;
  timeAttribute : option number;
  uom : option Coded.t
}.
End ReadingType.

(** [{duration, start}], the shape of [interval], [timePeriod] and
    [billingPeriod]. *)
Module Period.
Record t : Type := { duration : option number; start : option number }.
End Period.

Module IntervalReading.
Record t : Type := {
  cost : option number;
  timePeriod : option Period.t;
  value : option number;
  qualityFlags : option string
}.
End IntervalReading.

Module IntervalBlock.
Record t : Type := {
  id : key;
  interval : option Period.t;
  intervalReadings : list IntervalReading.t;
  links : Links
}.
End IntervalBlock.

Module LocalTimeParameters.
Record t : Type := {
  id : key;
  dstEndRule : option string;
  dstOffset : option number;
  dstStartRule : option string;
  tzOffset : option number
}.
End LocalTimeParameters.

Module Consumption.
Record t : Type := {
  powerOfTenMultiplier : number;
  uom : option number;
  value : option number
}.
End Consumption.

Module UsageSummary.
Record t : Type := {
  id : key;
  billingPeriod : option Period.t;
  billLastPeriod : option number;
  billToDate : option number;
  overallConsumptionLastPeriod : option Consumption.t;
  currency : option number
}.
End UsageSummary.

Record Metadata : Type := {
  feedId : option string;
  feedTitle : option string;
  updated : option string;
  totalEntries : nat
}.

Record Relationships : Type := {
  usagePointToMeterReadings : Map (list key);
  meterReadingToIntervalBlocks : Map (list key);
  meterReadingToReadingTypes : Map (list key)
}.

Record ParsedData : Type := {
  metadata : Metadata;
  usagePoints : Map UsagePoint.t;
  meterReadings : Map MeterReading.t;
  intervalBlocks : Map IntervalBlock.t;
  readingTypes : Map ReadingType.t;
  localTimeParameters : Map LocalTimeParameters.t;
  usageSummaries : Map UsageSummary.t;
  relationships : Relationships
}.

(** *** The constant tables of the constructor *)

Definition COMMODITY_TYPES : list (Z * string) :=
  [ (0, "Unknown"); (1, "Electricity"); (2, "Gas"); (3, "Water");
    (4, "Time"); (5, "Heat"); (6, "Cooling"); (7, "Carbon");
    (8, "Carbon dioxide"); (9, "Nitrogen"); (10, "Hydrogen");
    (11, "Compressed air") ].

(** The code unit of the superscript three. *)
Definition cubed : string := char1 (ascii_of_nat 179).

Definition UOM_TYPES : list (Z * string) :=
  [ (5, "A"); (29, "V"); (31, "J"); (38, "W"); (42, "m" ++ cubed);
    (72, "Wh"); (73, "kWh"); (106, "Ah"); (119, "ft" ++ cubed);
    (122, "gal"); (132, "VAh"); (140, "W"); (159, "Wh"); (169, "VAR");
    (174, "VAh") ].

Definition SERVICE_CATEGORIES : list (Z * string) :=
  [ (0, "Electricity"); (1, "Gas"); (2, "Water"); (3, "Time");
    (4, "Heat"); (5, "Cooling") ].

(** [TABLE[n] || 'Unknown']: the property of the table named by the
    number; [NaN] names no property of a table. *)
Definition describe (table : list (Z * string)) (n : number) : string :=
  match n with
  | Num q =>
      if isInteger q then
        match find (fun e => fst e =? Qnum (Qred q)) table with
        | Some e => snd e
        | None => "Unknown"
        end
      else "Unknown"
  | NaN => "Unknown"
  end.

(** *** Reading the tree *)

(** The selector [T, espi\:T]. *)
Definition espi (tag : string) : selector := [Tag tag; Tag ("espi:" ++ tag)].

(** [getTextContent(parent, tagName)]: the three look-ups in the order of
    the source, the first hit wins. *)
Definition getTextContent (parent : node) (tagName : string) : option string :=
  let element :=
    match querySelector parent [Tag tagName] with
    | Some e => Some e
    | None =>
        match querySelector parent [Tag ("espi:" ++ tagName)] with
        | Some e => Some e
        | None => querySelector parent [AttrIs "localName" tagName]
        end
    end in
  match element with
  | Some e => Some (trim (textContent e))
  | None => None
  end.

(** [parseInt(getTextContent(e, tag)) || null] *)
Definition intOrNull (e : node) (tag : string) : option number :=
  numOrNull (parseInt (getTextContent e tag)).

(** The property names every object inherits; [links[rel]] finds the
    inherited member for them, which is truthy and has no [push]. *)
Definition inheritedNames : list string :=
  [ "constructor"; "hasOwnProperty"; "isPrototypeOf";
    "propertyIsEnumerable"; "toLocaleString"; "toString"; "valueOf";
    "__proto__"; "__defineGetter__"; "__defineSetter__";
    "__lookupGetter__"; "__lookupSetter__" ].

Definition isInherited (name : string) : bool :=
  existsb (String.eqb name) inheritedNames.

(** [links[rel].push(href)], after [links[rel] = []] when there was none. *)
Fixpoint pushLink (links : Links) (rel href : string) : Links :=
  match links with
  | [] => [(rel, [href])]
  | (r, hs) :: rest =>
      if String.eqb r rel then (r, (hs ++ [href])%list) :: rest
      else (r, hs) :: pushLink rest rel href
  end.

Fixpoint extractLinksFrom (linkElements : list node) (links : Links)
  : result Links :=
  match linkElements with
  | [] => Ok links
  | link :: rest =>
      let rel := getAttribute link "rel" in
      let href := getAttribute link "href" in
      match rel, href with
      | Some r, Some h =>
          if truthyStr r && truthyStr h then
            if isInherited r
            then Throw "links[rel].push is not a function"
            else extractLinksFrom rest (pushLink links r h)
          else extractLinksFrom rest links
      | _, _ => extractLinksFrom rest links
      end
  end.

Definition extractLinks (entry : node) : result Links :=
  extractLinksFrom (querySelectorAll entry [Tag "link"]) [].

Definition parseUsagePoint (element : node) (entryId : key) (links : Links)
  : UsagePoint.t :=
  let serviceCategory := querySelector element (espi "ServiceCategory") in
  let serviceCategoryKind :=
    match serviceCategory with
    | Some sc => getTextContent sc "kind"
    | None => None
    end in
  {| UsagePoint.id := entryId;
     UsagePoint.serviceCategory :=
       if truthyOptStr serviceCategoryKind then
         Some {| ServiceCategory.kind := parseInt serviceCategoryKind;
                 ServiceCategory.description :=
                   describe SERVICE_CATEGORIES (parseInt serviceCategoryKind) |}
       else None;
     UsagePoint.links := links;
     UsagePoint.description := strOrNull (getTextContent element "description")
  |}.

Definition parseMeterReading (element : node) (entryId : key) (links : Links)
  : MeterReading.t :=
  {| MeterReading.id := entryId; MeterReading.links := links |}.

Definition coded (table : list (Z * string)) (text : option string)
  : option Coded.t :=
  if truthyOptStr text then
    Some {| Coded.code := parseInt text;
            Coded.description := describe table (parseInt text) |}
  else None.

Definition parseReadingType (element : node) (entryId : key) : ReadingType.t :=
  let commodity := getTextContent element "commodity" in
  let uom := getTextContent element "uom" in
  let powerMultiplier := getTextContent element "powerOfTenMultiplier" in
  {| ReadingType.id := entryId;
     ReadingType.accumulationBehaviour := intOrNull element "accumulationBehaviour";
     ReadingType.commodity := coded COMMODITY_TYPES commodity;
     ReadingType.currency := intOrNull element "currency";
     ReadingType.dataQualifier := intOrNull element "dataQualifier";
     ReadingType.flowDirection := intOrNull element "flowDirection";
     ReadingType.intervalLength := intOrNull element "intervalLength";
     ReadingType.kind := intOrNull element "kind";
     ReadingType.phase := intOrNull element "phase";
     ReadingType.powerOfTenMultiplier :=
       if truthyOptStr powerMultiplier then parseInt powerMultiplier else ofZ 0;
     ReadingType.timeAttribute := intOrNull element "timeAttribute";
     ReadingType.uom := coded UOM_TYPES uom
  |}.

Definition parsePeriod (element : option node) : option Period.t :=
  match element with
  | Some e =>
      Some {| Period.duration := intOrNull e "duration";
              Period.start := intOrNull e "start" |}
  | None => None
  end.

Definition parseIntervalReading (reading : node) : IntervalReading.t :=
  let timePeriod := querySelector reading (espi "timePeriod") in
  let readingValue := getTextContent reading "value" in
  let cost := getTextContent reading "cost" in
  {| IntervalReading.cost :=
       if truthyOptStr cost then Some (parseInt cost) else None;
     IntervalReading.timePeriod := parsePeriod timePeriod;
     IntervalReading.value :=
       if truthyOptStr readingValue then Some (parseInt readingValue) else None;
     IntervalReading.qualityFlags :=
       strOrNull (getTextContent reading "qualityFlags")
  |}.

Definition parseIntervalBlock (element : node) (entryId : key) (links : Links)
  : IntervalBlock.t :=
  let intervalElement := querySelector element (espi "interval") in
  let intervalReadings := querySelectorAll element (espi "IntervalReading") in
  {| IntervalBlock.id := entryId;
     IntervalBlock.interval := parsePeriod intervalElement;
     IntervalBlock.intervalReadings := map parseIntervalReading intervalReadings;
     IntervalBlock.links := links
  |}.

Definition parseLocalTimeParameters (element : node) (entryId : key)
  : LocalTimeParameters.t :=
  {| LocalTimeParameters.id := entryId;
     LocalTimeParameters.dstEndRule := strOrNull (getTextContent element "dstEndRule");
     LocalTimeParameters.dstOffset := intOrNull element "dstOffset";
     LocalTimeParameters.dstStartRule := strOrNull (getTextContent element "dstStartRule");
     LocalTimeParameters.tzOffset := intOrNull element "tzOffset"
  |}.

Definition parseUsageSummary (element : node) (entryId : key) : UsageSummary.t :=
  let billingPeriod := querySelector element (espi "billingPeriod") in
  let overallConsumption :=
    querySelector element (espi "overallConsumptionLastPeriod") in
  {| UsageSummary.id := entryId;
     UsageSummary.billingPeriod := parsePeriod billingPeriod;
     UsageSummary.billLastPeriod := intOrNull element "billLastPeriod";
     UsageSummary.billToDate := intOrNull element "billToDate";
     UsageSummary.overallConsumptionLastPeriod :=
       match overallConsumption with
       | Some oc =>
           Some {| Consumption.powerOfTenMultiplier :=
                     numOrZero (parseInt (getTextContent oc "powerOfTenMultiplier"));
                   Consumption.uom := intOrNull oc "uom";
                   Consumption.value := intOrNull oc "value" |}
       | None => None
       end;
     UsageSummary.currency := intOrNull element "currency"
  |}.

(** *** parseEntry and parseXML *)

Definition withUsagePoints (pd : ParsedData) (m : Map UsagePoint.t) : ParsedData :=
  {| metadata := metadata pd; usagePoints := m;
     meterReadings := meterReadings pd; intervalBlocks := intervalBlocks pd;
     readingTypes := readingTypes pd;
     localTimeParameters := localTimeParameters pd;
     usageSummaries := usageSummaries pd; relationships := relationships pd |}.

Definition withMeterReadings (pd : ParsedData) (m : Map MeterReading.t) : ParsedData :=
  {| metadata := metadata pd; usagePoints := usagePoints pd;
     meterReadings := m; intervalBlocks := intervalBlocks pd;
     readingTypes := readingTypes pd;
     localTimeParameters := localTimeParameters pd;
     usageSummaries := usageSummaries pd; relationships := relationships pd |}.

Definition withIntervalBlocks (pd : ParsedData) (m : Map IntervalBlock.t) : ParsedData :=
  {| metadata := metadata pd; usagePoints := usagePoints pd;
     meterReadings := meterReadings pd; intervalBlocks := m;
     readingTypes := readingTypes pd;
     localTimeParameters := localTimeParameters pd;
     usageSummaries := usageSummaries pd; relationships := relationships pd |}.

Definition withReadingTypes (pd : ParsedData) (m : Map ReadingType.t) : ParsedData :=
  {| metadata := metadata pd; usagePoints := usagePoints pd;
     meterReadings := meterReadings pd; intervalBlocks := intervalBlocks pd;
     readingTypes := m;
     localTimeParameters := localTimeParameters pd;
     usageSummaries := usageSummaries pd; relationships := relationships pd |}.

Definition withLocalTimeParameters (pd : ParsedData)
  (m : Map LocalTimeParameters.t) : ParsedData :=
  {| metadata := metadata pd; usagePoints := usagePoints pd;
     meterReadings := meterReadings pd; intervalBlocks := intervalBlocks pd;
     readingTypes := readingTypes pd;
     localTimeParameters := m;
     usageSummaries := usageSummaries pd; relationships := relationships pd |}.

Definition withUsageSummaries (pd : ParsedData) (m : Map UsageSummary.t) : ParsedData :=
  {| metadata := metadata pd; usagePoints := usagePoints pd;
     meterReadings := meterReadings pd; intervalBlocks := intervalBlocks pd;
     readingTypes := readingTypes pd;
     localTimeParameters := localTimeParameters pd;
     usageSummaries := m; relationships := relationships pd |}.

Definition withRelationships (pd : ParsedData) (r : Relationships) : ParsedData :=
  {| metadata := metadata pd; usagePoints := usagePoints pd;
     meterReadings := meterReadings pd; intervalBlocks := intervalBlocks pd;
     readingTypes := readingTypes pd;
     localTimeParameters := localTimeParameters pd;
     usageSummaries := usageSummaries pd; relationships := r |}.

(** The selector of the last probe of [parseEntry]. *)
Definition usageSummarySelector : selector :=
  (espi "UsageSummary" ++ espi "ElectricPowerUsageSummary")%list.

(** [parseEntry(entry, parsedData)]: the updated [parsedData]. *)
Definition parseEntry (entry : node) (parsedData : ParsedData)
  : result ParsedData :=
  let entryId := getTextContent entry "id" in
  match querySelector entry [Tag "content"] with
  | None => Ok parsedData
  | Some content =>
      bind (extractLinks entry) (fun links =>
      let usagePoint := querySelector content (espi "UsagePoint") in
      let meterReading := querySelector content (espi "MeterReading") in
      let intervalBlock := querySelector content (espi "IntervalBlock") in
      let readingType := querySelector content (espi "ReadingType") in
      let localTimeParams := querySelector content (espi "LocalTimeParameters") in
      let usageSummary := querySelector content usageSummarySelector in
      match usagePoint, meterReading, intervalBlock,
            readingType, localTimeParams, usageSummary with
      | Some e, _, _, _, _, _ =>
          Ok (withUsagePoints parsedData
                (set (usagePoints parsedData) entryId
                   (parseUsagePoint e entryId links)))
      | None, Some e, _, _, _, _ =>
          Ok (withMeterReadings parsedData
                (set (meterReadings parsedData) entryId
                   (parseMeterReading e entryId links)))
      | None, None, Some e, _, _, _ =>
          Ok (withIntervalBlocks parsedData
                (set (intervalBlocks parsedData) entryId
                   (parseIntervalBlock e entryId links)))
      | None, None, None, Some e, _, _ =>
          Ok (withReadingTypes parsedData
                (set (readingTypes parsedData) entryId
                   (parseReadingType e entryId)))
      | None, None, None, None, Some e, _ =>
          Ok (withLocalTimeParameters parsedData
                (set (localTimeParameters parsedData) entryId
                   (parseLocalTimeParameters e entryId)))
      | None, None, None, None, None, Some e =>
          Ok (withUsageSummaries parsedData
                (set (usageSummaries parsedData) entryId
                   (parseUsageSummary e entryId)))
      | None, None, None, None, None, None => Ok parsedData
      end)
  end.

(** A [for ... of] loop whose body may throw, threading the state the body
    updates. *)
Fixpoint forOf {A S} (l : list A) (body : A -> S -> result S) (s : S)
  : result S :=
  match l with
  | [] => Ok s
  | x :: r => bind (body x s) (forOf r body)
  end.

(** [links.related || []] *)
Definition related (links : Links) : list string :=
  match prop links "related" with
  | Some l => l
  | None => []
  end.

(** [m.get(k).push(x)]; the key is present at every call. *)
Definition push (m : Map (list key)) (k x : key) : Map (list key) :=
  match get m k with
  | Some l => set m k (l ++ [x])%list
  | None => m
  end.

(** [buildRelationships(parsedData)]: the three loops of the source over
    the three maps of [parsedData.relationships]. *)
Definition buildRelationships (parsedData : ParsedData) : ParsedData :=
  let rel := relationships parsedData in
  let up2mr :=
    fold_left
      (fun m '(upId, usagePoint) =>
         let relatedLinks := related (UsagePoint.links usagePoint) in
         let meterReadingLinks :=
           filter (fun link => includes link "MeterReading") relatedLinks in
         if Nat.ltb 0 (List.length meterReadingLinks) then
           fold_left (fun m mrId => push m upId mrId)
             (keys (meterReadings parsedData)) (set m upId [])
         else m)
      (usagePoints parsedData) (usagePointToMeterReadings rel) in
  let mr2ib :=
    fold_left
      (fun m '(mrId, meterReading) =>
         let relatedLinks := related (MeterReading.links meterReading) in
         let intervalBlockLinks :=
           filter (fun link => includes link "IntervalBlock") relatedLinks in
         if Nat.ltb 0 (List.length intervalBlockLinks) then
           fold_left (fun m ibId => push m mrId ibId)
             (keys (intervalBlocks parsedData)) (set m mrId [])
         else m)
      (meterReadings parsedData) (meterReadingToIntervalBlocks rel) in
  let mr2rt :=
    fold_left
      (fun m '(mrId, meterReading) =>
         let relatedLinks := related (MeterReading.links meterReading) in
         let readingTypeLinks :=
           filter (fun link => includes link "ReadingType") relatedLinks in
         if Nat.ltb 0 (List.length readingTypeLinks) then
           fold_left
             (fun m rtId =>
                let m := if has m mrId then m else set m mrId [] in
                push m mrId rtId)
             (keys (readingTypes parsedData)) m
         else m)
      (meterReadings parsedData) (meterReadingToReadingTypes rel) in
  withRelationships parsedData
    {| usagePointToMeterReadings := up2mr;
       meterReadingToIntervalBlocks := mr2ib;
       meterReadingToReadingTypes := mr2rt |}.

Definition emptyRelationships : Relationships :=
  {| usagePointToMeterReadings := [];
     meterReadingToIntervalBlocks := [];
     meterReadingToReadingTypes := [] |}.

(** [parseXML], from the document the platform's XML parser returned for
    the text.  A text that is not well-formed yields a document with a
    [parsererror] element. *)
Definition parseXML (xmlDoc : node) : result ParsedData :=
  let attempt :=
    match docQuerySelector xmlDoc [Tag "parsererror"] with
    | Some parserError =>
        Throw ("XML parsing error: " ++ textContent parserError)
    | None =>
        match docQuerySelector xmlDoc [Tag "feed"] with
        | None => Throw "Invalid Green Button file: No feed element found"
        | Some feed =>
            let entries := docQuerySelectorAll xmlDoc [Tag "entry"] in
            let parsedData :=
              {| metadata :=
                   {| feedId := getTextContent feed "id";
                      feedTitle := getTextContent feed "title";
                      updated := getTextContent feed "updated";
                      totalEntries := List.length entries |};
                 usagePoints := []; meterReadings := [];
                 intervalBlocks := []; readingTypes := [];
                 localTimeParameters := []; usageSummaries := [];
                 relationships := emptyRelationships |} in
            bind (forOf entries parseEntry parsedData)
                 (fun pd => Ok (buildRelationships pd))
        end
    end in
  match attempt with
  | Ok pd => Ok pd
  | Throw message => Throw ("Failed to parse Green Button XML: " ++ message)
  end.

(** *** toFlatData *)

Record FlatRow : Type := {
  usage_point_id : key;
  meter_reading_id : key;
  interval_block_id : key;
  reading_type_id : key;
  service_category : option string;
  commodity : option string;
  uom : option string;
  power_multiplier : option number;
  start_time : option string;
  duration : option number;
  end_time : option string;
  value : option number;
  cost : option number;
  quality_flags : option string;
  interval_length : option number;
  calculated_value : option number;
  calculated_cost : option string
}.

(** [formatTimestamp(timestamp)]; [new Date(...).toISOString()] throws on a
    time outside the range of [Date]. *)
Definition formatTimestamp (timestamp : option number) : result (option string) :=
  match timestamp with
  | Some t =>
      if truthyNum t
      then bind (dateToISOString (mul t (ofZ 1000))) (fun s => Ok (Some s))
      else Ok None
  | None => Ok None
  end.

Section ToFlatData.

Variable otherToString : Q -> string.

(** [readingType ? readingType.powerOfTenMultiplier : 0] *)
Definition powerMultiplier (readingType : option ReadingType.t) : number :=
  match readingType with
  | Some rt => ReadingType.powerOfTenMultiplier rt
  | None => ofZ 0
  end.

(** [x ? x * Math.pow(10, powerMultiplier) : null], the expression of both
    [calculatedValue] and [calculatedCostWithMultiplier]. *)
Definition scaled (x : option number) (powerMultiplier : number) : option number :=
  match x with
  | Some n => if truthyNum n then Some (mul n (pow10 powerMultiplier)) else None
  | None => None
  end.

Definition calculatedValue (reading : IntervalReading.t)
  (readingType : option ReadingType.t) : option number :=
  scaled (IntervalReading.value reading) (powerMultiplier readingType).

Definition calculatedCostWithMultiplier (reading : IntervalReading.t)
  (readingType : option ReadingType.t) : option number :=
  scaled (IntervalReading.cost reading) (powerMultiplier readingType).

Definition calculatedCost (reading : IntervalReading.t)
  (readingType : option ReadingType.t) : option string :=
  match calculatedCostWithMultiplier reading readingType with
  | Some c =>
      if truthyNum c then Some (toFixed otherToString (div c (ofZ 100)) 2)
      else None
  | None => None
  end.

(** The object pushed for one interval reading. *)
Definition flatRow (upId : key) (usagePoint : UsagePoint.t) (mrId : key)
  (relatedReadingTypes : list key) (readingType : option ReadingType.t)
  (ibId : key) (reading : IntervalReading.t) : result FlatRow :=
  let timePeriod := IntervalReading.timePeriod reading in
  bind (formatTimestamp
          (match timePeriod with
           | Some tp => Period.start tp
           | None => None
           end)) (fun start_time_ =>
  bind (match timePeriod with
        | Some tp =>
            if truthyOptNum (Period.start tp) && truthyOptNum (Period.duration tp)
            then
              match Period.start tp, Period.duration tp with
              | Some s, Some d => formatTimestamp (Some (add s d))
              | _, _ => Ok None
              end
            else Ok None
        | None => Ok None
        end) (fun end_time_ =>
  Ok {| usage_point_id := upId;
        meter_reading_id := mrId;
        interval_block_id := ibId;
        reading_type_id :=
          match relatedReadingTypes with
          | k :: _ => strOrNull k
          | [] => None
          end;
        service_category :=
          option_map ServiceCategory.description
            (UsagePoint.serviceCategory usagePoint);
        commodity :=
          match readingType with
          | Some rt => option_map Coded.description (ReadingType.commodity rt)
          | None => None
          end;
        uom :=
          match readingType with
          | Some rt => option_map Coded.description (ReadingType.uom rt)
          | None => None
          end;
        power_multiplier := option_map ReadingType.powerOfTenMultiplier readingType;
        start_time := start_time_;
        duration :=
          match timePeriod with
          | Some tp => Period.duration tp
          | None => None
          end;
        end_time := end_time_;
        value := IntervalReading.value reading;
        cost := IntervalReading.cost reading;
        quality_flags := IntervalReading.qualityFlags reading;
        interval_length :=
          match readingType with
          | Some rt => ReadingType.intervalLength rt
          | None => None
          end;
        calculated_value := calculatedValue reading readingType;
        calculated_cost := calculatedCost reading readingType |})).

(** [m.get(k) || []] *)
Definition getOrEmpty (m : Map (list key)) (k : key) : list key :=
  match get m k with
  | Some l => l
  | None => []
  end.

(** [toFlatData(parsedData)]: the four nested loops; [flatData] is the
    array the rows are pushed to. *)
Definition toFlatData (parsedData : ParsedData) : result (list FlatRow) :=
  let rel := relationships parsedData in
  forOf (usagePoints parsedData)
    (fun '(upId, usagePoint) flatData =>
       let relatedMeterReadings :=
         getOrEmpty (usagePointToMeterReadings rel) upId in
       forOf relatedMeterReadings
         (fun mrId flatData =>
            match get (meterReadings parsedData) mrId with
            | None => Ok flatData
            | Some meterReading =>
                let relatedReadingTypes :=
                  getOrEmpty (meterReadingToReadingTypes rel) mrId in
                let readingType :=
                  match relatedReadingTypes with
                  | rtId :: _ => get (readingTypes parsedData) rtId
                  | [] => None
                  end in
                let relatedIntervalBlocks :=
                  getOrEmpty (meterReadingToIntervalBlocks rel) mrId in
                forOf relatedIntervalBlocks
                  (fun ibId flatData =>
                     match get (intervalBlocks parsedData) ibId with
                     | None => Ok flatData
                     | Some intervalBlock =>
                         forOf (IntervalBlock.intervalReadings intervalBlock)
                           (fun reading flatData =>
                              bind (flatRow upId usagePoint mrId
                                      relatedReadingTypes readingType ibId reading)
                                   (fun row => Ok (flatData ++ [row])%list))
                           flatData
                     end)
                  flatData
            end)
         flatData)
    [].

End ToFlatData.

End GreenButtonParser.

(* ================================================================= *)
(** ** CSVExporter *)

Module CSVExporter.

Import JS.

(** The values a cell of a row holds. *)
Inductive value : Type :=
| Null
| Undefined
| Bool (b : bool)
| Number (n : number)
| Str (s : string).

(** A row: a plain object as the list of its own properties, in the order
    of [Object.keys].  Property names are the column names of the table;
    none is a name that every object inherits. *)
Definition row : Type := list (string * value).

(** [Object.keys(row)] *)
Definition Object_keys (r : row) : list string := map fst r.

(** [row[header]] *)
Definition lookup (r : row) (header : string) : value :=
  match find (fun p => String.eqb (fst p) header) r with
  | Some p => snd p
  | None => Undefined
  end.

Definition truthy (v : value) : bool :=
  match v with
  | Null | Undefined => false
  | Bool b => b
  | Number n => truthyNum n
  | Str s => truthyStr s
  end.

Definition defaultHeaders : list string :=
  [ "usage_point_id"; "meter_reading_id"; "interval_block_id";
    "reading_type_id"; "service_category"; "commodity"; "uom";
    "power_multiplier"; "start_time"; "duration"; "end_time"; "value";
    "cost"; "quality_flags"; "interval_length"; "calculated_value";
    "calculated_cost" ].

(** [needsQuoting(value)] *)
Definition needsQuoting (value : string) : bool :=
  includes value "," ||
  includes value (char1 quote) ||
  includes value (char1 LF) ||
  includes value (char1 CR) ||
  startsWith value " " ||
  endsWith value " ".

(** [value.replace] of every double quote by two of them *)
Fixpoint doubleQuotes (s : string) : string :=
  match s with
  | EmptyString => EmptyString
  | String c r =>
      if Ascii.eqb c quote
      then String quote (String quote (doubleQuotes r))
      else String c (doubleQuotes r)
  end.

(** The text of a field whose string form is [s]: the quoting step that
    [convertToCSV] and [formatCSVRow] both apply. *)
Definition quoted (s : string) : string :=
  if needsQuoting s
  then String quote (doubleQuotes s ++ char1 quote)
  else s.

(** [n > m] on numbers; a comparison with [NaN] is false. *)
Definition gt (n m : number) : bool :=
  match n, m with
  | Num x, Num y => negb (Qle_bool x y)
  | _, _ => false
  end.

Section WithNumberToString.

Variable otherToString : Q -> string.

(** [String(value)] *)
Definition String_ (v : value) : string :=
  match v with
  | Null => "null"
  | Undefined => "undefined"
  | Bool true => "true"
  | Bool false => "false"
  | Number n => numToString otherToString n
  | Str s => s
  end.

(** The field of one value, as in both [convertToCSV] and [formatCSVRow]:
    [null] and [undefined] give the empty field. *)
Definition field (v : value) : string :=
  match v with
  | Null | Undefined => ""
  | _ => quoted (String_ v)
  end.

(** [formatCSVRow(values)] on an array of strings *)
Definition formatCSVRow (values : list string) : string :=
  join "," (map (fun v => field (Str v)) values).

(** [convertToCSV(data, headers)]; [data] is [null] or an array of rows,
    [headers] is [null] or an array of column names. *)
Definition convertToCSV (data : option (list row)) (headers : option (list string))
  : result string :=
  match data with
  | None | Some [] => Throw "No data provided for CSV conversion"
  | Some ((first :: _) as rows) =>
      (* an array is truthy, also when it is empty: [this.defaultHeaders]
         is never reached *)
      let csvHeaders :=
        match headers with
        | Some h => h
        | None => Object_keys first
        end in
      let csvRows :=
        formatCSVRow csvHeaders
        :: map (fun r =>
                  join "," (map (fun header => field (lookup r header)) csvHeaders))
             rows in
      Ok (join (char1 LF) csvRows)
  end.

(** *** generatePreview *)

(** The arrays of rows that exist, by address; [data] and the array that
    [slice] returns are such arrays. *)
Definition heap : Type := list (list row).

Definition deref (h : heap) (a : nat) : list row := nth a h [].

(** A new array. *)
Definition alloc (h : heap) (l : list row) : heap * nat :=
  ((h ++ [l])%list, List.length h).

(** [a.slice(0, e)] for an integer [e]: a negative [e] counts from the
    end. *)
Definition slice0 (l : list row) (e : Z) : list row :=
  let len := Z.of_nat (List.length l) in
  let final := if e <? 0 then Z.max (len + e) 0 else Z.min e len in
  firstn (Z.to_nat final) l.

Record Preview : Type := {
  headers : list string;
  rows : nat;
  totalRows : nat;
  isPreview : bool
}.

(** [generatePreview(data, maxRows)]; [data] is [null] or the address of an
    array of rows, [rows] of the result is the address of a new array. *)
Definition generatePreview (h : heap) (data : option nat) (maxRows : Z)
  : heap * Preview :=
  let empty :=
    let '(h', a) := alloc h [] in
    (h', {| headers := []; rows := a; totalRows := 0; isPreview := false |}) in
  match data with
  | None => empty
  | Some d =>
      match deref h d with
      | [] => empty
      | first :: _ =>
          let headers := Object_keys first in
          let '(h', previewRows) := alloc h (slice0 (deref h d) maxRows) in
          (h', {| headers := headers;
                  rows := previewRows;
                  totalRows := List.length (deref h d);
                  isPreview := Z.of_nat (List.length (deref h d)) >? maxRows |})
      end
  end.

(** *** validateData *)

(** An element of the array under validation: an object, or a value that
    is not one ([typeof row !== 'object' || row === null]). *)
Inductive item : Type :=
| NotObject (v : value)
| Object (r : row).

(** The argument of [validateData]: a primitive value, an array, or an
    object that is not an array. *)
Inductive input : Type :=
| Primitive (v : value)
| Array (items : list item)
| NonArray (r : row).

Record Stats : Type := {
  stats_totalRows : nat;
  totalColumns : nat;
  emptyValues : nat;
  nullValues : nat
}.

Record Validation : Type := {
  isValid : bool;
  errors : list string;
  warnings : list string;
  stats : Stats
}.

Definition zeroStats : Stats :=
  {| stats_totalRows := 0; totalColumns := 0; emptyValues := 0; nullValues := 0 |}.

Definition natToString (n : nat) : string := ZtoString (Z.of_nat n).

(** The state of the scanning loop. *)
Record Scan : Type := {
  scan_warnings : list string;
  emptyCount : nat;
  nullCount : nat
}.

(** One header of one row: the two counters. *)
Definition countValue (r : row) (s : Scan) (header : string) : Scan :=
  match lookup r header with
  | Null | Undefined =>
      {| scan_warnings := scan_warnings s; emptyCount := emptyCount s;
         nullCount := S (nullCount s) |}
  | v =>
      if String.eqb (trim (String_ v)) ""
      then {| scan_warnings := scan_warnings s; emptyCount := S (emptyCount s);
              nullCount := nullCount s |}
      else s
  end.

(** The body of the loop for the row of index [i]. *)
Definition scanRow (headers : list string) (s : Scan) (i : nat) (it : item) : Scan :=
  match it with
  | NotObject _ =>
      {| scan_warnings :=
           (scan_warnings s
            ++ [("Row " ++ natToString (i + 1) ++ " is not an object")%string])%list;
         emptyCount := emptyCount s; nullCount := nullCount s |}
  | Object r =>
      let rowHeaders := Object_keys r in
      let s1 :=
        if negb (Nat.eqb (List.length rowHeaders) (List.length headers)) then
          {| scan_warnings :=
               (scan_warnings s
                ++ [("Row " ++ natToString (i + 1) ++ " has "
                     ++ natToString (List.length rowHeaders)
                     ++ " columns, expected "
                     ++ natToString (List.length headers))%string])%list;
             emptyCount := emptyCount s; nullCount := nullCount s |}
        else s in
      fold_left (countValue r) headers s1
  end.

Fixpoint scanFrom (headers : list string) (i : nat) (items : list item) (s : Scan)
  : Scan :=
  match items with
  | [] => s
  | it :: rest => scanFrom headers (S i) rest (scanRow headers s i it)
  end.

(** [(count / totalValues) * 100] *)
Definition percentage (count totalValues : nat) : number :=
  mul (div (ofZ (Z.of_nat count)) (ofZ (Z.of_nat totalValues))) (ofZ 100).

Definition invalid (message : string) (st : Stats) : Validation :=
  {| isValid := false; errors := [message]; warnings := []; stats := st |}.

(** [validateData(data)] *)
Definition validateData (data : input) : Validation :=
  match data with
  | Primitive v =>
      if truthy v then invalid "Data must be an array" zeroStats
      else invalid "No data provided" zeroStats
  | NonArray _ => invalid "Data must be an array" zeroStats
  | Array [] => invalid "Data array is empty" zeroStats
  | Array ((firstRow :: _) as items) =>
      let totalRows := List.length items in
      match firstRow with
      | NotObject _ =>
          invalid "Data rows must be objects"
            {| stats_totalRows := totalRows; totalColumns := 0;
               emptyValues := 0; nullValues := 0 |}
      | Object first =>
          let headers := Object_keys first in
          let totalColumns := List.length headers in
          let s := scanFrom headers 0 items
                     {| scan_warnings := []; emptyCount := 0; nullCount := 0 |} in
          let totalValues := (totalRows * totalColumns)%nat in
          let emptyPercentage := percentage (emptyCount s) totalValues in
          let nullPercentage := percentage (nullCount s) totalValues in
          let w1 :=
            if gt emptyPercentage (ofZ 10)
            then (scan_warnings s
                  ++ [(toFixed otherToString emptyPercentage 1
                       ++ "% of values are empty")%string])%list
            else scan_warnings s in
          let w2 :=
            if gt nullPercentage (ofZ 10)
            then (w1 ++ [(toFixed otherToString nullPercentage 1
                          ++ "% of values are null")%string])%list
            else w1 in
          {| isValid := true; errors := []; warnings := w2;
             stats := {| stats_totalRows := totalRows;
                         totalColumns := totalColumns;
                         emptyValues := emptyCount s;
                         nullValues := nullCount s |} |}
      end
  end.

End WithNumberToString.

End CSVExporter.

(* ================================================================= *)
(** ** The statements of the specification, as definitions *)

Module FeedSpec.

Import JS Dom GreenButtonParser.

(** The six resource types in the priority order of [parseEntry]. *)
Inductive Resource : Type :=
| RUsagePoint
| RMeterReading
| RIntervalBlock
| RReadingType
| RLocalTimeParameters
| RUsageSummary.

Definition priority : list Resource :=
  [ RUsagePoint; RMeterReading; RIntervalBlock; RReadingType;
    RLocalTimeParameters; RUsageSummary ].

Definition selectorOf (t : Resource) : selector :=
  match t with
  | RUsagePoint => espi "UsagePoint"
  | RMeterReading => espi "MeterReading"
  | RIntervalBlock => espi "IntervalBlock"
  | RReadingType => espi "ReadingType"
  | RLocalTimeParameters => espi "LocalTimeParameters"
  | RUsageSummary => usageSummarySelector
  end.

Definition found (content : node) (t : Resource) : bool :=
  match querySelector content (selectorOf t) with
  | Some _ => true
  | None => false
  end.

(** The specification's classification: the first type, in priority order,
    whose element is found in the content. *)
Definition classify (content : node) : option Resource :=
  find (found content) priority.

(** The collection of type [t] is the same in [a] and [b]. *)
Definition sameCollection (t : Resource) (a b : ParsedData) : Prop :=
  match t with
  | RUsagePoint => usagePoints a = usagePoints b
  | RMeterReading => meterReadings a = meterReadings b
  | RIntervalBlock => intervalBlocks a = intervalBlocks b
  | RReadingType => readingTypes a = readingTypes b
  | RLocalTimeParameters => localTimeParameters a = localTimeParameters b
  | RUsageSummary => usageSummaries a = usageSummaries b
  end.

(** [after] is [before] with the entry stored in the collection of type
    [t], under its identifier, as parsed from the first element of that
    type in the content. *)
Definition storedUnder (t : Resource) (content : node) (entryId : key)
  (links : Links) (before after : ParsedData) : Prop :=
  exists e, querySelector content (selectorOf t) = Some e /\
  match t with
  | RUsagePoint =>
      usagePoints after =
      set (usagePoints before) entryId (parseUsagePoint e entryId links)
  | RMeterReading =>
      meterReadings after =
      set (meterReadings before) entryId (parseMeterReading e entryId links)
  | RIntervalBlock =>
      intervalBlocks after =
      set (intervalBlocks before) entryId (parseIntervalBlock e entryId links)
  | RReadingType =>
      readingTypes after =
      set (readingTypes before) entryId (parseReadingType e entryId)
  | RLocalTimeParameters =>
      localTimeParameters after =
      set (localTimeParameters before) entryId (parseLocalTimeParameters e entryId)
  | RUsageSummary =>
      usageSummaries after =
      set (usageSummaries before) entryId (parseUsageSummary e entryId)
  end.

(** An entity has a link of relation [related] whose URI contains the
    text [kind]. *)
Definition hasLinkTo (links : Links) (kind : string) : bool :=
  existsb (fun link => includes link kind) (related links).

(** The mapping associates the source with the target. *)
Definition associates (m : Map (list key)) (source target : key) : Prop :=
  exists l, get m source = Some l /\ In target l.

(** One interval reading reached by the traversal, with what the row is
    built from. *)
Record Reached : Type := {
  r_upId : key;
  r_usagePoint : UsagePoint.t;
  r_mrId : key;
  r_relatedReadingTypes : list key;
  r_readingType : option ReadingType.t;
  r_ibId : key;
  r_reading : IntervalReading.t
}.

(** The specification's traversal: every usage point, every related meter
    reading that is in the collection, the first related reading type
    only, every related interval block that is in the collection, every
    interval reading of the block, in this order. *)
Definition reachedReadings (pd : ParsedData) : list Reached :=
  let rel := relationships pd in
  flat_map
    (fun up : key * UsagePoint.t =>
       flat_map
         (fun mrId =>
            match get (meterReadings pd) mrId with
            | None => []
            | Some _ =>
                let rts := getOrEmpty (meterReadingToReadingTypes rel) mrId in
                let rt :=
                  match rts with
                  | rtId :: _ => get (readingTypes pd) rtId
                  | [] => None
                  end in
                flat_map
                  (fun ibId =>
                     match get (intervalBlocks pd) ibId with
                     | None => []
                     | Some ib =>
                         map (fun reading =>
                                {| r_upId := fst up; r_usagePoint := snd up;
                                   r_mrId := mrId;
                                   r_relatedReadingTypes := rts;
                                   r_readingType := rt;
                                   r_ibId := ibId; r_reading := reading |})
                           (IntervalBlock.intervalReadings ib)
                     end)
                  (getOrEmpty (meterReadingToIntervalBlocks rel) mrId)
            end)
         (getOrEmpty (usagePointToMeterReadings rel) (fst up)))
    (usagePoints pd).

(** The row pushed for a reached reading. *)
Definition rowOf (otherToString : Q -> string) (it : Reached) : result FlatRow :=
  flatRow otherToString (r_upId it) (r_usagePoint it) (r_mrId it)
    (r_relatedReadingTypes it) (r_readingType it) (r_ibId it) (r_reading it).

(** The multiplier a row was derived with: its [power_multiplier], or 0
    when the column is [null]. *)
Definition appliedMultiplier (r : FlatRow) : number :=
  match power_multiplier r with
  | Some m => m
  | None => ofZ 0
  end.

(** A time in seconds that [Date] can hold. *)
Definition inDateRange (t : number) : bool :=
  match timeClip (mul t (ofZ 1000)) with
  | Some _ => true
  | None => false
  end.

(** Both times of the reading that are formatted are in the range of
    [Date]. *)
Definition datable (reading : IntervalReading.t) : bool :=
  match IntervalReading.timePeriod reading with
  | None => true
  | Some tp =>
      match Period.start tp with
      | None => true
      | Some s =>
          inDateRange s &&
          match Period.duration tp with
          | Some d => inDateRange (add s d)
          | None => true
          end
      end
  end.

(** Every reading of every interval block of the document is datable. *)
Definition allDatable (pd : ParsedData) : bool :=
  forallb (fun ib => forallb datable (IntervalBlock.intervalReadings (snd ib)))
    (intervalBlocks pd).

(** The sentence on [calculated_cost], read for every row: the cost of the
    row, scaled by ten to the multiplier and then divided by 100, in
    [toFixed(2)] form. *)
Definition costAsSpecified (otherToString : Q -> string) (r : FlatRow) : Prop :=
  exists c m x,
    cost r = Some (Num c) /\ appliedMultiplier r = ofZ m /\
    (x == c * pow10Q m / inject_Z 100)%Q /\
    calculated_cost r = Some (toFixed otherToString (Num x) 2).

Definition calculated_cost_as_stated : Prop :=
  forall otherToString pd rows r,
    toFlatData otherToString pd = Ok rows -> In r rows ->
    costAsSpecified otherToString r.

(** The sentence on the rows of a meter reading without reading type, read
    for every such row. *)
Definition no_reading_type_as_stated : Prop :=
  forall otherToString pd it r,
    In it (reachedReadings pd) -> r_relatedReadingTypes it = [] ->
    rowOf otherToString it = Ok r ->
    reading_type_id r = None /\ commodity r = None /\ uom r = None /\
    interval_length r = None /\ power_multiplier r = None /\
    calculated_value r = value r /\
    exists c x,
      cost r = Some (Num c) /\ (x == c / inject_Z 100)%Q /\
      calculated_cost r = Some (toFixed otherToString (Num x) 2).

Definition isDigit (c : ascii) : bool :=
  let n := nat_of_ascii c in Nat.leb 48 n && Nat.leb n 57.

(** Digits, at least one, then a point, then exactly two digits; a minus
    sign may come first. *)
Definition twoDecimals (s : string) : bool :=
  let body :=
    match s with
    | String c r => if Nat.eqb (nat_of_ascii c) 45 then r else s
    | EmptyString => s
    end in
  match rev (chars body) with
  | d2 :: d1 :: p :: (i :: _) as ip =>
      isDigit d2 && isDigit d1 && Nat.eqb (nat_of_ascii p) 46
      && forallb isDigit ip
  | _ => false
  end.

(** The text of [n] hundredths, with a minus sign when asked. *)
Definition hundredthsText (negative : bool) (n : Z) : string :=
  (if negative then "-" else "") ++ ZtoString (n / 100) ++ "."
  ++ padZeros 2 (ZtoString (n mod 100)).

(** [n] is the integer nearest to the magnitude of [x] in hundredths, the
    larger one when two are as near. *)
Definition nearestHundredths (x : Q) (n : Z) : Prop :=
  (2 * n - 1) * Zpos (Qden x) <= 2 * Z.abs (Qnum x) * 100
  /\ 2 * Z.abs (Qnum x) * 100 < (2 * n + 1) * Zpos (Qden x).

(** The text of a number below 100, padded to two characters, is two
    digits. *)
Definition twoDigitCheck (k : nat) : bool :=
  match chars (padZeros 2 (ZtoString (Z.of_nat k))) with
  | [a; b] => isDigit a && isDigit b
  | _ => false
  end.

(** *** Small feeds *)

Definition emptyData : ParsedData :=
  {| metadata :=
       {| feedId := None; feedTitle := None; updated := None; totalEntries := 0 |};
     usagePoints := []; meterReadings := []; intervalBlocks := [];
     readingTypes := []; localTimeParameters := []; usageSummaries := [];
     relationships := emptyRelationships |}.

(** The document [parseXML] returns for a feed that it accepts. *)
Definition parsed (doc : node) : ParsedData :=
  match parseXML doc with
  | Ok pd => pd
  | Throw _ => emptyData
  end.

Definition el (name : string) (kids : list node) : node := Element name [] kids.

Definition leaf (name text : string) : node := Element name [] [Text text].

Definition link (rel href : string) : node :=
  Element "link" [("rel", rel); ("href", href)] [].

Definition intervalReading (value cost start duration : string) : node :=
  el "IntervalReading"
    [ leaf "cost" cost;
      el "timePeriod" [leaf "duration" duration; leaf "start" start];
      leaf "value" value ].

(** A feed of one usage point, one meter reading, one reading type with
    the given multiplier and one interval block with the given readings. *)
Definition feedOf (multiplier : string) (readings : list node) : node :=
  el "feed"
    [ leaf "id" "urn:feed"; leaf "title" "Green Button";
      el "entry"
        [ leaf "id" "up"; link "related" "/UsagePoint/1/MeterReading";
          el "content"
            [el "UsagePoint" [el "ServiceCategory" [leaf "kind" "0"]]] ];
      el "entry"
        [ leaf "id" "mr";
          link "related" "/UsagePoint/1/MeterReading/1/IntervalBlock";
          link "related" "/ReadingType/1";
          el "content" [el "MeterReading" []] ];
      el "entry"
        [ leaf "id" "rt";
          el "content"
            [el "ReadingType"
               [ leaf "commodity" "1"; leaf "uom" "72";
                 leaf "powerOfTenMultiplier" multiplier ]] ];
      el "entry"
        [ leaf "id" "ib"; el "content" [el "IntervalBlock" readings] ] ].

(** A reading of value 0. *)
Definition zeroValueFeed : node :=
  feedOf "0" [intervalReading "0" "256347" "1609459200" "900"].

(** A reading that ends at the epoch. *)
Definition epochEndFeed : node :=
  feedOf "0" [intervalReading "5" "7" "-900" "900"].

(** A feed without reading type, with a reading without cost and a reading
    of value 0 and cost 0. *)
Definition noReadingTypeFeed : node :=
  el "feed"
    [ el "entry"
        [ leaf "id" "up"; link "related" "/UsagePoint/1/MeterReading";
          el "content" [el "UsagePoint" []] ];
      el "entry"
        [ leaf "id" "mr";
          link "related" "/UsagePoint/1/MeterReading/1/IntervalBlock";
          el "content" [el "MeterReading" []] ];
      el "entry"
        [ leaf "id" "ib";
          el "content"
            [el "IntervalBlock"
               [ el "IntervalReading" [leaf "value" "5"];
                 el "IntervalReading" [leaf "cost" "0"; leaf "value" "0"] ]] ] ].

(** An entry that holds a usage point, and its content. *)
Definition usagePointContent : node :=
  el "content" [el "UsagePoint" [el "ServiceCategory" [leaf "kind" "0"]]].

Definition usagePointEntry : node :=
  el "entry"
    [ leaf "id" "up"; link "related" "/UsagePoint/1/MeterReading";
      usagePointContent ].

(** An instance of the parameter of [toFixed] for the examples. *)
Definition noExponentText (_ : Q) : string := "".

Definition blankRow : FlatRow :=
  {| usage_point_id := None; meter_reading_id := None;
     interval_block_id := None; reading_type_id := None;
     service_category := None; commodity := None; uom := None;
     power_multiplier := None; start_time := None; duration := None;
     end_time := None; value := None; cost := None; quality_flags := None;
     interval_length := None; calculated_value := None;
     calculated_cost := None |}.

(** The rows of a feed, and the first of them. *)
Definition rowsOf (doc : node) : list FlatRow :=
  match toFlatData noExponentText (parsed doc) with
  | Ok rows => rows
  | Throw _ => []
  end.

Definition firstRow (doc : node) : FlatRow := hd blankRow (rowsOf doc).

Definition blankReached : Reached :=
  {| r_upId := None;
     r_usagePoint :=
       {| UsagePoint.id := None; UsagePoint.serviceCategory := None;
          UsagePoint.links := []; UsagePoint.description := None |};
     r_mrId := None; r_relatedReadingTypes := []; r_readingType := None;
     r_ibId := None;
     r_reading :=
       {| IntervalReading.cost := None; IntervalReading.timePeriod := None;
          IntervalReading.value := None; IntervalReading.qualityFlags := None |}
  |}.

(** The first reading the traversal of a feed reaches. *)
Definition firstReached (doc : node) : Reached :=
  hd blankReached (reachedReadings (parsed doc)).

(** The collections of a feed, before the relationships are built. *)
Definition collected (doc : node) : ParsedData :=
  withRelationships (parsed doc) emptyRelationships.

End FeedSpec.

Module CsvSpec.

Import JS CSVExporter.

(** The field of the string form [s] is wrapped in double quotes, its own
    double quotes doubled. *)
Definition wrapped (s : string) : Prop :=
  quoted s = String quote (doubleQuotes s ++ char1 quote).

Definition contains (s : string) (c : ascii) : Prop := In c (chars s).

(** The first or the last character of [s] satisfies [p]. *)
Definition atAnEnd (p : ascii -> bool) (s : string) : Prop :=
  (exists c r, s = String c r /\ p c = true) \/
  (exists r c, s = r ++ char1 c /\ p c = true).

Definition special (s : string) : Prop :=
  contains s comma \/ contains s quote \/ contains s CR \/ contains s LF.

(** The quoting policy with white space at an end of the field. *)
Definition quoting_as_stated : Prop :=
  forall s, wrapped s <-> special s \/ atAnEnd isWhiteSpace s.

(** The space character, the only white space [needsQuoting] looks for. *)
Definition isSpace (c : ascii) : bool := Ascii.eqb c space.

(** *** Reading a field back, after RFC 4180

    [field = (escaped / non-escaped)]: an escaped field is enclosed in
    double quotes and holds a double quote as two of them; a non-escaped
    field holds no double quote and ends before the next comma or line
    break.  The reader returns the field and the text after it. *)

Definition isDelimiter (c : ascii) : bool :=
  Ascii.eqb c comma || Ascii.eqb c CR || Ascii.eqb c LF.

Definition consField (c : ascii) (p : option (string * string))
  : option (string * string) :=
  match p with
  | Some (f, rest) => Some (String c f, rest)
  | None => None
  end.

(** After the opening double quote. *)
Fixpoint readEscaped (s : string) : option (string * string) :=
  match s with
  | EmptyString => None
  | String c r =>
      if Ascii.eqb c quote then
        match r with
        | EmptyString => Some (EmptyString, EmptyString)
        | String c' r' =>
            if Ascii.eqb c' quote then consField quote (readEscaped r')
            else if isDelimiter c' then Some (EmptyString, r)
            else None
        end
      else consField c (readEscaped r)
  end.

Fixpoint readPlain (s : string) : option (string * string) :=
  match s with
  | EmptyString => Some (EmptyString, EmptyString)
  | String c r =>
      if isDelimiter c then Some (EmptyString, s)
      else if Ascii.eqb c quote then None
      else consField c (readPlain r)
  end.

Definition readField (s : string) : option (string * string) :=
  match s with
  | String c r => if Ascii.eqb c quote then readEscaped r else readPlain s
  | EmptyString => Some (EmptyString, EmptyString)
  end.

(** The fields of one record: a field, then more fields after each comma.
    [fuel] bounds the number of fields read. *)
Fixpoint readFields (fuel : nat) (s : string) : option (list string) :=
  match fuel with
  | O => None
  | S n =>
      match readField s with
      | Some (f, EmptyString) => Some [f]
      | Some (f, String c r) =>
          if Ascii.eqb c comma
          then
            match readFields n r with
            | Some fs => Some (f :: fs)
            | None => None
            end
          else None
      | None => None
      end
  end.

(** The text after a field: nothing, or a comma or a line break first. *)
Definition afterField (rest : string) : Prop :=
  rest = EmptyString \/ exists c r, rest = String c r /\ isDelimiter c = true.

(** An array of three rows, at the address 0. *)
Definition sampleHeap : heap :=
  [ [ [("uom", Str "Wh")]; [("uom", Str "kWh")]; [("uom", Str "W")] ] ].

(** The bound on the rows of a preview, read for every [maxRows]. *)
Definition preview_bound_as_stated : Prop :=
  forall h d maxRows,
    deref h d <> [] ->
    Z.of_nat
      (List.length
         (deref (fst (generatePreview h (Some d) maxRows))
            (rows (snd (generatePreview h (Some d) maxRows))))) <= maxRows.

(** The field of the example. *)
Definition exampleField : string := "a,b" ++ char1 quote ++ "c".

Definition exampleEncoded : string :=
  char1 quote ++ "a,b" ++ char1 quote ++ char1 quote ++ "c" ++ char1 quote.

End CsvSpec.

(* ================================================================= *)
(** ** Facts about documents, as definitions *)

Module FeedFacts.

Import JS Dom GreenButtonParser FeedSpec.

(** The relation and the URI of a link element that [extractLinks]
    records: both attributes are present and neither is empty. *)
Definition recorded (link : node) : option (string * string) :=
  match getAttribute link "rel", getAttribute link "href" with
  | Some r, Some h => if truthyStr r && truthyStr h then Some (r, h) else None
  | _, _ => None
  end.

(** The URIs of the recorded links of relation [rel], in document order. *)
Definition hrefsOf (rel : string) (linkElements : list node) : list string :=
  flat_map
    (fun l =>
       match recorded l with
       | Some (r, h) => if String.eqb r rel then [h] else []
       | None => []
       end)
    linkElements.

(** [links[rel] || []] *)
Definition linksOf (links : Links) (rel : string) : list string :=
  match prop links rel with
  | Some l => l
  | None => []
  end.

(** The links object holds each relation once, with at least one URI. *)
Definition linksShape (links : Links) : Prop :=
  NoDup (map fst links) /\ Forall (fun p => snd p <> []) links.

(** The entries of a document, as [parseXML] selects them. *)
Definition entriesOf (xmlDoc : node) : list node :=
  docQuerySelectorAll xmlDoc [Tag "entry"].

(** The number of entities of the six collections. *)
Definition entities (pd : ParsedData) : nat :=
  (List.length (usagePoints pd) + List.length (meterReadings pd)
   + List.length (intervalBlocks pd) + List.length (readingTypes pd)
   + List.length (localTimeParameters pd) + List.length (usageSummaries pd))%nat.

(** The identifiers of the six collections. *)
Definition identifiers (pd : ParsedData) : list key :=
  (keys (usagePoints pd) ++ keys (meterReadings pd)
   ++ keys (intervalBlocks pd) ++ keys (readingTypes pd)
   ++ keys (localTimeParameters pd) ++ keys (usageSummaries pd))%list.

(** A number read by [parseInt]: an integer or [NaN]. *)
Definition integral (n : number) : Prop := n = NaN \/ exists z, n = ofZ z.

(** A number kept by [parseInt(...) || null]: an integer other than 0. *)
Definition nonzeroIntegral (n : number) : Prop := exists z, z <> 0 /\ n = ofZ z.

Definition optionally {A} (P : A -> Prop) (o : option A) : Prop :=
  match o with
  | Some a => P a
  | None => True
  end.

(** The numbers of a period, of an interval reading and of a reading type,
    as [parseInt] leaves them. *)
Definition periodRead (p : Period.t) : Prop :=
  optionally nonzeroIntegral (Period.duration p) /\
  optionally nonzeroIntegral (Period.start p).

Definition readingRead (r : IntervalReading.t) : Prop :=
  optionally integral (IntervalReading.cost r) /\
  optionally integral (IntervalReading.value r) /\
  optionally periodRead (IntervalReading.timePeriod r).

Definition readingTypeRead (rt : ReadingType.t) : Prop :=
  integral (ReadingType.powerOfTenMultiplier rt) /\
  optionally nonzeroIntegral (ReadingType.intervalLength rt).

(** The numbers of the interval blocks and of the reading types of a
    document are as [parseInt] leaves them. *)
Definition numbersRead (pd : ParsedData) : Prop :=
  (forall k ib, In (k, ib) (intervalBlocks pd) ->
     forall reading, In reading (IntervalBlock.intervalReadings ib) ->
       readingRead reading) /\
  (forall k rt, In (k, rt) (readingTypes pd) -> readingTypeRead rt).

(** A time text of a row: [null], or the ISO text of a whole number of
    seconds other than 0. *)
Definition wholeSeconds (t : option string) : Prop :=
  t = None \/ exists z, z <> 0 /\ t = Some (isoString (z * 1000)).

(** The usage points with a link to meter readings, the meter readings
    with a link to interval blocks, and the interval readings of all
    blocks. *)
Definition linkedUsagePoints (pd : ParsedData) : nat :=
  List.length
    (filter (fun up => hasLinkTo (UsagePoint.links (snd up)) "MeterReading")
       (usagePoints pd)).

Definition linkedMeterReadings (pd : ParsedData) : nat :=
  List.length
    (filter (fun mr => hasLinkTo (MeterReading.links (snd mr)) "IntervalBlock")
       (meterReadings pd)).

Definition totalReadings (pd : ParsedData) : nat :=
  list_sum
    (map (fun ib => List.length (IntervalBlock.intervalReadings (snd ib)))
       (intervalBlocks pd)).

(** A time in seconds whose milliseconds [Date] cannot hold. *)
Definition outOfRange (seconds : Z) : Prop := maxTime < Z.abs seconds * 1000.

(** The reading has a start, or an end, whose milliseconds [Date] cannot
    hold. *)
Definition undatable (reading : IntervalReading.t) : Prop :=
  exists tp s,
    IntervalReading.timePeriod reading = Some tp /\
    Period.start tp = Some (ofZ s) /\
    (outOfRange s \/
     exists d, Period.duration tp = Some (ofZ d) /\ outOfRange (s + d)).

(** A description that [describe] gives from a table: a label of the
    table, or Unknown. *)
Definition labelOf (table : list (Z * string)) (d : string) : Prop :=
  d = "Unknown" \/ In d (map snd table).

(** The identifier of the first reading type of the document, as a row
    shows it. *)
Definition firstReadingType (pd : ParsedData) : option string :=
  match keys (readingTypes pd) with
  | k :: _ => strOrNull k
  | [] => None
  end.

(** The reading type the first identifier is stored under. *)
Definition firstReadingTypeEntity (pd : ParsedData) : option ReadingType.t :=
  match keys (readingTypes pd) with
  | k :: _ => get (readingTypes pd) k
  | [] => None
  end.

End FeedFacts.

(* ================================================================= *)
(** ** CSVExporter: the export and the summary *)

Module CSVExport.

Import JS GreenButtonParser CSVExporter.

(** *** The rows of toFlatData as the exporter sees them *)

Definition ofString (o : option string) : value :=
  match o with
  | Some s => Str s
  | None => Null
  end.

Definition ofNumber (o : option number) : value :=
  match o with
  | Some n => Number n
  | None => Null
  end.

(** The object literal that [toFlatData] pushes, as the list of its
    properties in the order of the literal. *)
Definition toObject (r : FlatRow) : row :=
  [ ("usage_point_id", ofString (usage_point_id r));
    ("meter_reading_id", ofString (meter_reading_id r));
    ("interval_block_id", ofString (interval_block_id r));
    ("reading_type_id", ofString (reading_type_id r));
    ("service_category", ofString (service_category r));
    ("commodity", ofString (commodity r));
    ("uom", ofString (uom r));
    ("power_multiplier", ofNumber (power_multiplier r));
    ("start_time", ofString (start_time r));
    ("duration", ofNumber (duration r));
    ("end_time", ofString (end_time r));
    ("value", ofNumber (GreenButtonParser.value r));
    ("cost", ofNumber (cost r));
    ("quality_flags", ofString (quality_flags r));
    ("interval_length", ofNumber (interval_length r));
    ("calculated_value", ofNumber (calculated_value r));
    ("calculated_cost", ofString (calculated_cost r)) ].

(** *** exportGreenButtonData *)

(** The options object; [None] is a property that is not given. *)
Module Options.
Record t : Type := {
  filename : option string;
  downloadFile : option bool;
  includeMetadata : option bool
}.
End Options.

Module ExportStats.
Record t : Type := { totalRows : nat; totalColumns : nat; fileSize : nat }.
End ExportStats.

(** The object the promise of [exportGreenButtonData] resolves to; [error]
    is a property of the failure only. *)
Module ExportResult.
Record t : Type := {
  success : bool;
  error : option string;
  csvContent : option string;
  filename : option string;
  stats : option ExportStats.t;
  validation : option Validation
}.
End ExportResult.

(** [new Blob([s]).size]: the length of the UTF-8 encoding, one byte for a
    code unit below 128 and two for the others below 256. *)
Definition blobSize (s : string) : nat :=
  list_sum (map (fun c => if Nat.ltb (nat_of_ascii c) 128 then 1%nat else 2%nat)
              (chars s)).

(** [t || 'N/A'] *)
Definition orNA (t : option string) : string :=
  match t with
  | Some s => if truthyStr s then s else "N/A"
  | None => "N/A"
  end.

Definition failure (message : string) : ExportResult.t :=
  {| ExportResult.success := false;
     ExportResult.error := Some message;
     ExportResult.csvContent := None;
     ExportResult.filename := None;
     ExportResult.stats := None;
     ExportResult.validation := None |}.

Section WithPlatform.

Variable otherToString : Q -> string.

(** The time value of [new Date()], the clock of the platform. *)
Variable now : Z.

(** What the body of [downloadCSV] does with the content and the file
    name: the Blob, the object URL and the click on the anchor element
    belong to the platform, and may throw. *)
Variable browserDownload : string -> string -> result unit.

(** [downloadCSV(csvContent, filename)]; [None] is a file name that is
    not given. *)
Definition downloadCSV (csvContent : string) (filename : option string)
  : result unit :=
  let filename :=
    match filename with
    | Some f => f
    | None => "green_button_data.csv"
    end in
  match browserDownload csvContent filename with
  | Ok u => Ok u
  | Throw message => Throw ("Failed to download CSV file: " ++ message)
  end.

(** The comment lines of the export with metadata. *)
Definition metadataComments (metadata : Metadata) (dataRows : nat) : list string :=
  [ "# Green Button Data Export";
    "# Generated: " ++ isoString now;
    "# Feed ID: " ++ orNA (feedId metadata);
    "# Feed Title: " ++ orNA (feedTitle metadata);
    "# Total Entries: "
      ++ natToString (if Nat.eqb (totalEntries metadata) 0 then 0%nat
                      else totalEntries metadata);
    "# Data Rows: " ++ natToString dataRows;
    "#" ].

(** [exportGreenButtonData(parsedData, options)]: the object the promise
    resolves to.  [parsedData.metadata] is an object, hence truthy. *)
Definition exportGreenButtonData (parsedData : ParsedData) (options : Options.t)
  : ExportResult.t :=
  let filename :=
    match Options.filename options with
    | Some f => f
    | None => "green_button_data.csv"
    end in
  let downloadFile :=
    match Options.downloadFile options with
    | Some b => b
    | None => true
    end in
  let includeMetadata :=
    match Options.includeMetadata options with
    | Some b => b
    | None => false
    end in
  let attempt : result ExportResult.t :=
    bind (toFlatData otherToString parsedData) (fun rows =>
    let flatData := map toObject rows in
    let validation := validateData otherToString (Array (map Object flatData)) in
    bind (if negb (isValid validation)
          then Throw ("Data validation failed: " ++ join ", " (errors validation))
          else Ok tt) (fun _ =>
    bind (convertToCSV otherToString (Some flatData) None) (fun csvContent =>
    let finalCsvContent :=
      if includeMetadata
      then join (char1 LF) (metadataComments (metadata parsedData)
                              (List.length flatData))
           ++ char1 LF ++ csvContent
      else csvContent in
    bind (if downloadFile then downloadCSV finalCsvContent (Some filename)
          else Ok tt)
      (fun _ =>
    Ok {| ExportResult.success := true;
          ExportResult.error := None;
          ExportResult.csvContent := Some finalCsvContent;
          ExportResult.filename := Some filename;
          ExportResult.stats :=
            Some {| ExportStats.totalRows := List.length flatData;
                    ExportStats.totalColumns :=
                      match flatData with
                      | first :: _ => List.length (Object_keys first)
                      | [] => 0%nat
                      end;
                    ExportStats.fileSize := blobSize finalCsvContent |};
          ExportResult.validation := Some validation |})))) in
  match attempt with
  | Ok r => r
  | Throw message => failure message
  end.

End WithPlatform.

(** *** generateSummaryStats *)

(** The equality of [Set]: SameValueZero. *)
Definition sameValueZero (a b : value) : bool :=
  match a, b with
  | Null, Null => true
  | Undefined, Undefined => true
  | Bool x, Bool y => Bool.eqb x y
  | Number NaN, Number NaN => true
  | Number (Num x), Number (Num y) => Qeq_bool x y
  | Str x, Str y => String.eqb x y
  | _, _ => false
  end.

(** A [Set] as the list of its members in insertion order. *)
Definition Set_has (s : list value) (v : value) : bool :=
  existsb (sameValueZero v) s.

Definition Set_add (s : list value) (v : value) : list value :=
  if Set_has s v then s else (s ++ [v])%list.

(** A [Date]: its time value, [None] for the invalid date. *)
Definition Date : Type := option Z.

(** [a < b] on dates: the time values are compared, and a comparison with
    the invalid date is false. *)
Definition Date_lt (a b : Date) : bool :=
  match a, b with
  | Some x, Some y => x <? y
  | _, _ => false
  end.

(** [d.toISOString()] *)
Definition Date_toISOString (d : Date) : result string :=
  match d with
  | Some tv => Ok (isoString tv)
  | None => Throw "Invalid time value"
  end.

Module DateRange.
Record t : Type := { min : string; max : string }.
End DateRange.

Module Summary.
Record t : Type := {
  totalIntervals : nat;
  usagePoints : nat;
  meterReadings : nat;
  totalEnergyValue : number;
  totalCost : number;
  dateRange : option DateRange.t;
  commodities : list value
}.
End Summary.

(** The object [stats] of the loop; [rangeMin] and [rangeMax] are
    [stats.dateRange.min] and [stats.dateRange.max], [None] for [null]. *)
Record Totals : Type := {
  usagePointSet : list value;
  meterReadingSet : list value;
  energy : number;
  spent : number;
  rangeMin : option Date;
  rangeMax : option Date;
  commoditySet : list value
}.

Definition noTotals : Totals :=
  {| usagePointSet := []; meterReadingSet := []; energy := ofZ 0;
     spent := ofZ 0; rangeMin := None; rangeMax := None; commoditySet := [] |}.

Section WithDateParse.

(** [Date.parse] on a string: a time value, or [None] for [NaN]. *)
Variable Date_parse : string -> option Z.

(** [new Date(v)] for one argument. *)
Definition newDate (v : value) : Date :=
  match v with
  | Str s => Date_parse s
  | Number n => timeClip n
  | Bool b => Some (if b then 1 else 0)
  | Null => Some 0
  | Undefined => None
  end.

(** [typeof v === 'number' ? total + v : total] *)
Definition plusNumber (total : number) (v : value) : number :=
  match v with
  | Number n => add total n
  | _ => total
  end.

(** [if (v) set.add(v)] *)
Definition addTruthy (s : list value) (v : value) : list value :=
  if truthy v then Set_add s v else s.

(** The body of the loop for one row. *)
Definition tally (stats : Totals) (r : row) : Totals :=
  let start_time := lookup r "start_time" in
  let date := newDate start_time in
  let min1 :=
    if truthy start_time then
      match rangeMin stats with
      | None => Some date
      | Some m => if Date_lt date m then Some date else Some m
      end
    else rangeMin stats in
  let max1 :=
    if truthy start_time then
      match rangeMax stats with
      | None => Some date
      | Some m => if Date_lt m date then Some date else Some m
      end
    else rangeMax stats in
  {| usagePointSet := addTruthy (usagePointSet stats) (lookup r "usage_point_id");
     meterReadingSet := addTruthy (meterReadingSet stats) (lookup r "meter_reading_id");
     energy := plusNumber (energy stats) (lookup r "value");
     spent := plusNumber (spent stats) (lookup r "cost");
     rangeMin := min1;
     rangeMax := max1;
     commoditySet := addTruthy (commoditySet stats) (lookup r "commodity") |}.

(** [generateSummaryStats(data)]; [data] is [null] or an array of rows.
    [toISOString] throws on the invalid date. *)
Definition generateSummaryStats (data : option (list row)) : result Summary.t :=
  match data with
  | None | Some [] =>
      Ok {| Summary.totalIntervals := 0; Summary.usagePoints := 0;
            Summary.meterReadings := 0; Summary.totalEnergyValue := ofZ 0;
            Summary.totalCost := ofZ 0; Summary.dateRange := None;
            Summary.commodities := [] |}
  | Some rows =>
      let stats := fold_left tally rows noTotals in
      bind (match rangeMin stats with
            | None => Ok None
            | Some dmin =>
                bind (Date_toISOString dmin) (fun smin =>
                match rangeMax stats with
                | Some dmax =>
                    bind (Date_toISOString dmax) (fun smax =>
                    Ok (Some {| DateRange.min := smin; DateRange.max := smax |}))
                | None =>
                    (* [max] is set whenever [min] is *)
                    Throw "Cannot read properties of null (reading 'toISOString')"
                end)
            end) (fun range =>
      Ok {| Summary.totalIntervals := List.length rows;
            Summary.usagePoints := List.length (usagePointSet stats);
            Summary.meterReadings := List.length (meterReadingSet stats);
            Summary.totalEnergyValue := energy stats;
            Summary.totalCost := spent stats;
            Summary.dateRange := range;
            Summary.commodities := commoditySet stats |})
  end.

End WithDateParse.

End CSVExport.

(* ================================================================= *)
(** ** GreenButtonApp: the texts of the result page *)

Module GreenButtonApp.

Import JS CSVExporter.

(** [s.substring(0, e)] for an integer [e]: a negative [e] counts as 0. *)
Definition substring0 (s : string) (e : Z) : string :=
  String.substring 0 (Z.to_nat e) s.

(** [truncateText(text, maxLength)]; [text] is a string or [null]. *)
Definition truncateText (text : option string) (maxLength : Z) : string :=
  match text with
  | Some t =>
      if truthyStr t then
        if Z.of_nat (String.length t) <=? maxLength then t
        else substring0 t maxLength ++ "..."
      else "N/A"
  | None => "N/A"
  end.

Section WithNumberToString.

Variable otherToString : Q -> string.

(** [formatCellValue(value)] *)
Definition formatCellValue (v : value) : string :=
  match v with
  | Null | Undefined => ""
  | Str s =>
      if Z.of_nat (String.length s) >? 50 then substring0 s 50 ++ "..."
      else String_ otherToString v
  | _ => String_ otherToString v
  end.

End WithNumberToString.

(** The class [\w] of a regular expression without the unicode flag. *)
Definition isWordChar (c : ascii) : bool :=
  let n := nat_of_ascii c in
  (Nat.leb 48 n && Nat.leb n 57) || (Nat.leb 65 n && Nat.leb n 90)
  || (Nat.leb 97 n && Nat.leb n 122) || Nat.eqb n 95.

(** [c.toUpperCase()] for a character of [\w]. *)
Definition toUpperCase (c : ascii) : ascii :=
  let n := nat_of_ascii c in
  if Nat.leb 97 n && Nat.leb n 122 then ascii_of_nat (n - 32) else c.

(** [s.replace(/_/g, ' ')] *)
Fixpoint underscoresToSpaces (s : string) : string :=
  match s with
  | EmptyString => EmptyString
  | String c r =>
      String (if Nat.eqb (nat_of_ascii c) 95 then space else c)
        (underscoresToSpaces r)
  end.

(** [s.replace(/\b\w/g, l => l.toUpperCase())]: a match is a character of
    [\w] that the start of the text or a character outside [\w] precedes;
    [inWord] tells whether the character before is of [\w]. *)
Fixpoint capitalizeWords (inWord : bool) (s : string) : string :=
  match s with
  | EmptyString => EmptyString
  | String c r =>
      String (if isWordChar c && negb inWord then toUpperCase c else c)
        (capitalizeWords (isWordChar c) r)
  end.

(** [formatHeaderName(header)] *)
Definition formatHeaderName (header : string) : string :=
  capitalizeWords false (underscoresToSpaces header).

(** The text of the notice row of [updatePreviewTable], when it adds
    one: [updatePreviewTable] returns before anything else for a preview
    without headers, and adds the notice for a preview that is flagged;
    [shown] is [preview.rows.length].  The two elements of the table are
    taken to be in the page. *)
Definition previewNotice (headers : list string) (isPreview : bool)
  (totalRows shown : nat) : option string :=
  match headers with
  | [] => None
  | _ :: _ =>
      if isPreview
      then Some ("... and " ++ ZtoString (Z.of_nat totalRows - Z.of_nat shown)
                 ++ " more rows")
      else None
  end.

(** [s.replace(/:/g, '-')] *)
Fixpoint colonsToHyphens (s : string) : string :=
  match s with
  | EmptyString => EmptyString
  | String c r =>
      String (if Nat.eqb (nat_of_ascii c) 58 then ascii_of_nat 45 else c)
        (colonsToHyphens r)
  end.

(** The file name [handleExport] builds from the time value of the
    clock. *)
Definition exportFilename (now : Z) : string :=
  "green_button_data_"
  ++ colonsToHyphens (substring0 (isoString now) 19) ++ ".csv".

(** *** The data of the application and the actions on it *)

(** [this.currentData] and [this.currentFlatData]; [None] is [null]. *)
Record App : Type := {
  currentData : option GreenButtonParser.ParsedData;
  currentFlatData : option (list GreenButtonParser.FlatRow)
}.

(** The data the constructor leaves. *)
Definition initial : App := {| currentData := None; currentFlatData := None |}.

(** [handleReset()], on the data. *)
Definition handleReset (app : App) : App :=
  {| currentData := None; currentFlatData := None |}.

(** [c.toLowerCase()] for a code unit below 256. *)
Definition toLowerCaseChar (c : ascii) : ascii :=
  let n := nat_of_ascii c in
  if (Nat.leb 65 n && Nat.leb n 90) || (Nat.leb 192 n && Nat.leb n 214)
     || (Nat.leb 216 n && Nat.leb n 222)
  then ascii_of_nat (n + 32) else c.

Fixpoint toLowerCase (s : string) : string :=
  match s with
  | EmptyString => EmptyString
  | String c r => String (toLowerCaseChar c) (toLowerCase r)
  end.

(** A file: its name, and the document the XML parser of the platform
    gives for its text; [None] when the reader cannot read the file. *)
Record File : Type := {
  name : string;
  document : option Dom.node
}.

Section WithPlatform.

Variable otherToString : Q -> string.
Variable now : Z.
Variable browserDownload : string -> string -> result unit.
Variable Date_parse : string -> option Z.

(** [processFile(file)]: the data it leaves, and the statistics it hands
    to [showResults] or the message it hands to [showError]. *)
Definition processFile (app : App) (file : File)
  : App * result CSVExport.Summary.t :=
  if negb (endsWith (toLowerCase (name file)) ".xml")
  then (app, Throw "Please select an XML file")
  else
    match document file with
    | None => (app, Throw "Failed to read file")
    | Some xmlDoc =>
        match GreenButtonParser.parseXML xmlDoc with
        | Throw message => (app, Throw message)
        | Ok parsedData =>
            let app1 :=
              {| currentData := Some parsedData;
                 currentFlatData := currentFlatData app |} in
            match GreenButtonParser.toFlatData otherToString parsedData with
            | Throw message => (app1, Throw message)
            | Ok flatData =>
                let app2 :=
                  {| currentData := Some parsedData;
                     currentFlatData := Some flatData |} in
                (app2,
                 CSVExport.generateSummaryStats Date_parse
                   (Some (map CSVExport.toObject flatData)))
            end
        end
    end.

(** [handleExport()]: the message it hands to [showError], [None] when the
    export is done. *)
Definition handleExport (app : App) : option string :=
  match currentData app, currentFlatData app with
  | Some parsedData, Some _ =>
      let result :=
        CSVExport.exportGreenButtonData otherToString now browserDownload
          parsedData
          {| CSVExport.Options.filename := Some (exportFilename now);
             CSVExport.Options.downloadFile := Some true;
             CSVExport.Options.includeMetadata := Some false |} in
      if CSVExport.ExportResult.success result then None
      else
        match CSVExport.ExportResult.error result with
        | Some message => Some ("Export failed: " ++ message)
        | None => Some "Export failed: "
        end
  | _, _ => Some "No data available to export"
  end.

End WithPlatform.

End GreenButtonApp.

Module PageSpec.

Import JS GreenButtonApp.

(** The text holds no underscore, and no colon. *)
Definition noUnderscore (s : string) : bool :=
  forallb (fun c => negb (Nat.eqb (nat_of_ascii c) 95)) (chars s).

Definition noColon (s : string) : bool :=
  forallb (fun c => negb (Nat.eqb (nat_of_ascii c) 58)) (chars s).

(** The first [n] characters of [s] are those of [t]. *)
Definition sameStart (n : nat) (s t : string) : Prop :=
  String.substring 0 n s = String.substring 0 n t.

(** The rows the application holds are the rows of the document it
    holds. *)
Definition consistent (otherToString : Q -> string) (app : App) : Prop :=
  match currentData app, currentFlatData app with
  | Some pd, Some rows => GreenButtonParser.toFlatData otherToString pd = Ok rows
  | None, None => True
  | _, _ => False
  end.

End PageSpec.

(* ================================================================= *)
(** ** The table of a CSV text *)

Module TableSpec.

Import JS CSVExporter CsvSpec.

Definition nullish (v : value) : bool :=
  match v with
  | Null | Undefined => true
  | _ => false
  end.

(** The column names [convertToCSV] uses. *)
Definition csvHeaders (headers : option (list string)) (first : row)
  : list string :=
  match headers with
  | Some h => h
  | None => Object_keys first
  end.

Section Cells.

Variable otherToString : Q -> string.

(** The text of a cell before quoting: [null] and [undefined] give the
    empty text. *)
Definition cellText (v : value) : string :=
  if nullish v then "" else String_ otherToString v.

(** A cell that holds a value whose text is empty or white space. *)
Definition blank (v : value) : bool :=
  negb (nullish v) && String.eqb (trim (String_ otherToString v)) "".

(** The cells of an element of the array, under the given headers, that
    are [null] or [undefined], and those that are blank; an element that
    is not an object has no cell. *)
Definition nullCells (headers : list string) (it : item) : nat :=
  match it with
  | Object r => List.length (filter (fun h => nullish (lookup r h)) headers)
  | NotObject _ => 0%nat
  end.

Definition blankCells (headers : list string) (it : item) : nat :=
  match it with
  | Object r => List.length (filter (fun h => blank (lookup r h)) headers)
  | NotObject _ => 0%nat
  end.

(** The warning of the element of index [i], when it has one: it is not
    an object, or it has not as many keys as there are headers. *)
Definition rowWarning (headers : list string) (i : nat) (it : item)
  : list string :=
  match it with
  | NotObject _ => ["Row " ++ natToString (i + 1) ++ " is not an object"]
  | Object r =>
      if Nat.eqb (List.length (Object_keys r)) (List.length headers) then []
      else ["Row " ++ natToString (i + 1) ++ " has "
            ++ natToString (List.length (Object_keys r))
            ++ " columns, expected " ++ natToString (List.length headers)]
  end.

Fixpoint rowWarnings (headers : list string) (i : nat) (items : list item)
  : list string :=
  match items with
  | [] => []
  | it :: rest => (rowWarning headers i it ++ rowWarnings headers (S i) rest)%list
  end.

(** The warning on the share of [count] cells among [cells], when it is
    more than a tenth. *)
Definition shareWarning (what : string) (count cells : nat) : list string :=
  if Nat.ltb cells (10 * count)
  then [toFixed otherToString (percentage count cells) 1
        ++ "% of values are " ++ what]
  else [].

(** The header record and the records of the rows. *)
Definition tableOf (hs : list string) (rows : list row) : list (list string) :=
  hs :: map (fun r => map (fun h => cellText (lookup r h)) hs) rows.

End Cells.

(** The records of a text, after RFC 4180 with the line feed as the line
    break: the fields of a record are separated by commas, the records by
    line breaks.  [fuel] bounds the number of fields read. *)
Fixpoint readRecords (fuel : nat) (s : string) : option (list (list string)) :=
  match fuel with
  | O => None
  | S n =>
      match readField s with
      | Some (f, EmptyString) => Some [[f]]
      | Some (f, String c r) =>
          if Ascii.eqb c comma then
            match readRecords n r with
            | Some (fs :: recs) => Some ((f :: fs) :: recs)
            | _ => None
            end
          else if Ascii.eqb c LF then
            match readRecords n r with
            | Some recs => Some ([f] :: recs)
            | None => None
            end
          else None
      | None => None
      end
  end.

(** The number of fields of a table. *)
Definition fieldCount (table : list (list string)) : nat :=
  list_sum (map (@List.length string) table).

End TableSpec.

(* ================================================================= *)
(** ** The summary, in terms of the columns *)

Module SummarySpec.

Import JS CSVExporter CSVExport.

(** The cells of a column, row by row. *)
Definition column (name : string) (rows : list row) : list value :=
  map (fun r => lookup r name) rows.

(** No two members are the same value. *)
Fixpoint distinct (l : list value) : bool :=
  match l with
  | [] => true
  | x :: r => negb (existsb (sameValueZero x) r) && distinct r
  end.

(** [set] holds the truthy cells of the column, each once. *)
Definition isSetOf (cells set : list value) : Prop :=
  (forall v, In v set -> truthy v = true /\ In v cells) /\
  (forall v, In v cells -> truthy v = true -> Set_has set v = true) /\
  distinct set = true.

(** The numbers of a column: the cells of type number. *)
Definition numbersOf (cells : list value) : list number :=
  flat_map (fun v => match v with Number n => [n] | _ => [] end) cells.

(** The dates of the truthy cells of a column. *)
Definition datesOf (Date_parse : string -> option Z) (cells : list value)
  : list Date :=
  map (newDate Date_parse) (filter truthy cells).

(** The time values of the valid dates. *)
Definition validTimes (dates : list Date) : list Z :=
  flat_map (fun d => match d with Some t => [t] | None => [] end) dates.

(** One date of the loop on [stats.dateRange.min], and on
    [stats.dateRange.max]. *)
Definition minStep (cur : option Date) (d : Date) : option Date :=
  match cur with
  | None => Some d
  | Some m => if Date_lt d m then Some d else Some m
  end.

Definition maxStep (cur : option Date) (d : Date) : option Date :=
  match cur with
  | None => Some d
  | Some m => if Date_lt m d then Some d else Some m
  end.

(** The sum of integers. *)
Definition sumZ (zs : list Z) : Z := fold_right Z.add 0 zs.

(** The summary of no data. *)
Definition emptySummary : Summary.t :=
  {| Summary.totalIntervals := 0; Summary.usagePoints := 0;
     Summary.meterReadings := 0; Summary.totalEnergyValue := ofZ 0;
     Summary.totalCost := ofZ 0; Summary.dateRange := None;
     Summary.commodities := [] |}.

End SummarySpec.

(* ================================================================= *)
(** ** Small inputs for the instances *)

Module Samples.

Import JS Dom GreenButtonParser CSVExporter FeedSpec CSVExport SummarySpec.
Import GreenButtonApp.

(** A reading that starts after the last time [Date] can hold. *)
Definition farFutureFeed : node :=
  feedOf "0" [intervalReading "5" "7" "9000000000000" "900"].

Definition farFuturePeriod : Period.t :=
  {| Period.duration := Some (ofZ 900);
     Period.start := Some (ofZ 9000000000000) |}.

(** A download that does nothing, and an export that asks for none. *)
Definition noDownload (_ _ : string) : result unit := Ok tt.

Definition quietOptions : Options.t :=
  {| Options.filename := None;
     Options.downloadFile := Some false;
     Options.includeMetadata := None |}.

(** The first row of the feed with a reading of value 0, as an object. *)
Definition sampleObject : row := toObject (firstRow zeroValueFeed).

(** [Date.parse] on the one time text of the sample. *)
Definition sampleParse (s : string) : option Z :=
  if String.eqb s "2021-01-01T00:00:00.000Z" then Some 1609459200000 else None.

Definition sampleSummary : Summary.t :=
  match generateSummaryStats sampleParse (Some [sampleObject]) with
  | Ok s => s
  | Throw _ => emptySummary
  end.

(** A file of the feed with a reading of value 0, and what [processFile]
    leaves and hands over for it. *)
Definition sampleFile : File :=
  {| name := "Usage.XML"; document := Some zeroValueFeed |}.

Definition sampleProcessed : App :=
  fst (processFile noExponentText sampleParse initial sampleFile).

Definition sampleStatistics : Summary.t :=
  match snd (processFile noExponentText sampleParse initial sampleFile) with
  | Ok s => s
  | Throw _ => emptySummary
  end.

End Samples.

(* ================================================================= *)
(** ** The built-ins on known values *)

Section BuiltIns.

Import JS.

Example parseInt_reads_the_leading_integer :
  parseIntStr "  -12abc" = ofZ (-12) /\ parseIntStr "0x1F" = ofZ 31 /\
  parseIntStr "12.5" = ofZ 12 /\ parseIntStr "+7" = ofZ 7 /\
  parseIntStr "abc" = NaN /\ parseIntStr "" = NaN /\ parseInt None = NaN.
Proof. repeat split. Qed.

Example zero_and_NaN_are_falsy :
  truthyNum (ofZ 0) = false /\ truthyNum NaN = false /\
  truthyNum (ofZ (-900)) = true /\ numOrNull (parseIntStr "0") = None.
Proof. repeat split. Qed.

Example toISOString_of_known_times :
  isoString 0 = "1970-01-01T00:00:00.000Z" /\
  isoString (-1) = "1969-12-31T23:59:59.999Z" /\
  isoString 951782400000 = "2000-02-29T00:00:00.000Z" /\
  isoString 1609459200000 = "2021-01-01T00:00:00.000Z" /\
  isoString maxTime = "+275760-09-13T00:00:00.000Z" /\
  isoString (- maxTime) = "-271821-04-20T00:00:00.000Z".
Proof. vm_compute. repeat split. Qed.

Example toISOString_throws_out_of_range :
  dateToISOString (ofZ (maxTime + 1)) = Throw "Invalid time value" /\
  dateToISOString NaN = Throw "Invalid time value" /\
  dateToISOString (ofZ maxTime) = Ok "+275760-09-13T00:00:00.000Z".
Proof. vm_compute. repeat split. Qed.

Example toFixed_of_known_numbers (otherToString : Q -> string) :
  toFixed otherToString (Num (256347 # 100)) 2 = "2563.47" /\
  toFixed otherToString (Num (5 # 1000)) 2 = "0.01" /\
  toFixed otherToString (Num (-1 # 1000)) 2 = "-0.00" /\
  toFixed otherToString (Num (50 # 3)) 1 = "16.7" /\
  toFixed otherToString (Num (12345 # 10)) 0 = "1235" /\
  toFixed otherToString NaN 2 = "NaN".
Proof. vm_compute. repeat split. Qed.

Example trim_and_includes :
  trim "  a b  " = "a b" /\ trim (String TAB (String LF "x")) = "x" /\
  includes "/UsagePoint/1/MeterReading" "MeterReading" = true /\
  includes "/ReadingType/1" "MeterReading" = false /\
  endsWith "kWh " " " = true /\ startsWith "kWh " " " = false.
Proof. vm_compute. repeat split. Qed.

Example set_keeps_the_place_of_a_key :
  set [(Some "a", 1); (Some "b", 2)] (Some "a") 3 = [(Some "a", 3); (Some "b", 2)] /\
  set [(Some "a", 1); (Some "b", 2)] None 3
  = [(Some "a", 1); (Some "b", 2); (None, 3)].
Proof. repeat split. Qed.

End BuiltIns.

(* ================================================================= *)
(** ** Properties of the parser *)

Section ParserProperties.

Import JS Dom GreenButtonParser FeedSpec.

Variable otherToString : Q -> string.

Local Abbreviation toFlatData := (GreenButtonParser.toFlatData otherToString).
Local Abbreviation flatRow := (GreenButtonParser.flatRow otherToString).
Local Abbreviation rowOf := (FeedSpec.rowOf otherToString).

(** *** Maps *)

Lemma key_eqb_eq (a b : key) : key_eqb a b = true <-> a = b.
Proof.
  destruct a as [x|], b as [y|]; simpl; split; intro H;
    try discriminate; try reflexivity.
  - apply String.eqb_eq in H. now subst.
  - injection H as ->. apply String.eqb_refl.
Qed.

Lemma key_eqb_refl (a : key) : key_eqb a a = true.
Proof. now apply key_eqb_eq. Qed.

Lemma key_eqb_neq (a b : key) : a <> b -> key_eqb a b = false.
Proof.
  intro H. destruct (key_eqb a b) eqn:E; [|reflexivity].
  apply key_eqb_eq in E. contradiction.
Qed.

Lemma get_set_same {V} (m : Map V) (k : key) (v : V) :
  get (set m k v) k = Some v.
Proof.
  induction m as [|[k' v'] m IH]; simpl.
  - now rewrite key_eqb_refl.
  - destruct (key_eqb k k') eqn:E; simpl; rewrite E; [reflexivity|exact IH].
Qed.

Lemma get_set_other {V} (m : Map V) (k k' : key) (v : V) :
  k' <> k -> get (set m k v) k' = get m k'.
Proof.
  intro Hne. induction m as [|[k0 v0] m IH]; simpl.
  - now rewrite (key_eqb_neq k' k).
  - destruct (key_eqb k k0) eqn:E; simpl.
    + apply key_eqb_eq in E. subst k0. now rewrite (key_eqb_neq k' k).
    + now rewrite IH.
Qed.

Lemma get_In {V} (m : Map V) (k : key) (v : V) :
  NoDup (keys m) -> In (k, v) m -> get m k = Some v.
Proof.
  induction m as [|[k0 v0] m IH]; simpl; intros Hnd Hin; [contradiction|].
  inversion Hnd as [|? ? Hnotin Hnd']; subst.
  destruct Hin as [Heq|Hin].
  - injection Heq as -> ->. now rewrite key_eqb_refl.
  - destruct (key_eqb k k0) eqn:E.
    + apply key_eqb_eq in E. subst k0. exfalso. apply Hnotin.
      unfold keys. change k with (fst (k, v)). now apply in_map.
    + now apply IH.
Qed.

(** *** Loops *)

Lemma bind_assoc {A B C} (r : result A) (f : A -> result B) (g : B -> result C) :
  bind (bind r f) g = bind r (fun a => bind (f a) g).
Proof. now destruct r. Qed.

Lemma mapM_app {A B} (f : A -> result B) (l1 l2 : list A) :
  mapM f (l1 ++ l2) =
  bind (mapM f l1) (fun a => bind (mapM f l2) (fun b => Ok (a ++ b)%list)).
Proof.
  induction l1 as [|x l1 IH]; simpl.
  - now destruct (mapM f l2).
  - destruct (f x) as [y|]; simpl; [|reflexivity].
    rewrite IH. destruct (mapM f l1); simpl; [|reflexivity].
    now destruct (mapM f l2).
Qed.

(** A loop whose body appends the rows of [h x] is the loop over the
    concatenation of the [h x]. *)
Lemma forOf_flat_map {A B C} (f : B -> result C) (h : A -> list B)
  (body : A -> list C -> result (list C)) :
  (forall x acc,
     body x acc = bind (mapM f (h x)) (fun rows => Ok (acc ++ rows)%list)) ->
  forall l acc,
    forOf l body acc =
    bind (mapM f (flat_map h l)) (fun rows => Ok (acc ++ rows)%list).
Proof.
  intros Hbody l. induction l as [|x l IH]; intro acc; simpl.
  - now rewrite app_nil_r.
  - rewrite Hbody, mapM_app.
    destruct (mapM f (h x)) as [rows|]; simpl; [|reflexivity].
    rewrite IH. destruct (mapM f (flat_map h l)); simpl; [|reflexivity].
    now rewrite app_assoc.
Qed.

Lemma flat_map_single {A B} (g : A -> B) (l : list A) :
  flat_map (fun x => [g x]) l = map g l.
Proof. induction l; simpl; congruence. Qed.

Lemma mapM_nil_bind {C} (acc : list C) :
  @Ok (list C) acc = bind (Ok []) (fun rows => Ok (acc ++ rows)%list).
Proof. simpl. now rewrite app_nil_r. Qed.

Lemma forOf_flat_map_nil {A B C} (f : B -> result C) (h : A -> list B)
  (body : A -> list C -> result (list C)) (l : list A) :
  (forall x acc,
     body x acc = bind (mapM f (h x)) (fun rows => Ok (acc ++ rows)%list)) ->
  forOf l body [] = mapM f (flat_map h l).
Proof.
  intro Hbody. rewrite (forOf_flat_map f h body Hbody).
  now destruct (mapM f (flat_map h l)).
Qed.

(** [toFlatData] is the row construction mapped over the traversal of the
    specification. *)
Lemma toFlatData_traversal (pd : ParsedData) :
  toFlatData pd = mapM rowOf (reachedReadings pd).
Proof.
  unfold GreenButtonParser.toFlatData, reachedReadings.
  apply forOf_flat_map_nil.
  intros [upId usagePoint] acc. cbn [fst snd].
  apply forOf_flat_map. intros mrId acc1.
  destruct (get (meterReadings pd) mrId); [|apply mapM_nil_bind].
  apply forOf_flat_map. intros ibId acc2.
  destruct (get (intervalBlocks pd) ibId) as [ib|]; [|apply mapM_nil_bind].
  rewrite <- flat_map_single.
  apply forOf_flat_map. intros reading acc3. unfold FeedSpec.rowOf. simpl.
  now destruct (GreenButtonParser.flatRow _ _ _ _ _ _ _ _).
Qed.


Lemma mapM_Forall2 {A B} (f : A -> result B) (l : list A) (ys : list B) :
  mapM f l = Ok ys -> Forall2 (fun x y => f x = Ok y) l ys.
Proof.
  revert ys. induction l as [|x l IH]; simpl; intros ys H.
  - injection H as <-. constructor.
  - destruct (f x) as [y|] eqn:Ex; simpl in H; [|discriminate].
    destruct (mapM f l) as [ys'|]; simpl in H; [|discriminate].
    injection H as <-. constructor; auto.
Qed.

Lemma mapM_total {A B} (f : A -> result B) (l : list A) :
  Forall (fun x => exists y, f x = Ok y) l ->
  exists ys, mapM f l = Ok ys /\ List.length ys = List.length l.
Proof.
  induction 1 as [|x l [y Hy] _ [ys [Hys Hlen]]]; simpl.
  - now exists [].
  - rewrite Hy, Hys. simpl. exists (y :: ys). simpl. now rewrite Hlen.
Qed.

Lemma Forall2_In_r {A B} (R : A -> B -> Prop) (l : list A) (l' : list B) (y : B) :
  Forall2 R l l' -> In y l' -> exists x, In x l /\ R x y.
Proof.
  induction 1 as [|a b l l' Hab _ IH]; simpl; [contradiction|].
  intros [->|Hin].
  - exists a. auto.
  - destruct (IH Hin) as [x [Hx HR]]. exists x. auto.
Qed.

(** Every row of the result is the row of a reached reading. *)
Lemma row_of_reached (pd : ParsedData) (rows : list FlatRow) (r : FlatRow) :
  toFlatData pd = Ok rows -> In r rows ->
  exists it, In it (reachedReadings pd) /\ rowOf it = Ok r.
Proof.
  rewrite toFlatData_traversal. intros H Hin.
  exact (Forall2_In_r _ _ _ _ (mapM_Forall2 _ _ _ H) Hin).
Qed.

(** *** The fields of a row *)

Lemma flatRow_fields upId usagePoint mrId rts rt ibId reading r :
  flatRow upId usagePoint mrId rts rt ibId reading = Ok r ->
  usage_point_id r = upId /\ meter_reading_id r = mrId /\
  interval_block_id r = ibId /\
  reading_type_id r = match rts with k :: _ => strOrNull k | [] => None end /\
  commodity r =
    match rt with
    | Some t => option_map Coded.description (ReadingType.commodity t)
    | None => None
    end /\
  uom r =
    match rt with
    | Some t => option_map Coded.description (ReadingType.uom t)
    | None => None
    end /\
  interval_length r =
    match rt with Some t => ReadingType.intervalLength t | None => None end /\
  power_multiplier r = option_map ReadingType.powerOfTenMultiplier rt /\
  value r = IntervalReading.value reading /\
  cost r = IntervalReading.cost reading /\
  calculated_value r = calculatedValue reading rt /\
  calculated_cost r = calculatedCost otherToString reading rt.
Proof.
  unfold GreenButtonParser.flatRow. intro H.
  destruct (formatTimestamp _) as [st|]; simpl in H; [|discriminate].
  match type of H with bind ?e _ = _ => destruct e as [et|] end;
    simpl in H; [|discriminate].
  injection H as <-. simpl. repeat split; reflexivity.
Qed.

Lemma powerMultiplier_applied upId usagePoint mrId rts rt ibId reading r :
  flatRow upId usagePoint mrId rts rt ibId reading = Ok r ->
  powerMultiplier rt = appliedMultiplier r.
Proof.
  intro H. apply flatRow_fields in H.
  destruct H as (_ & _ & _ & _ & _ & _ & _ & Hpm & _).
  unfold appliedMultiplier. rewrite Hpm. now destruct rt.
Qed.

(** The derived fields of a row are functions of its own columns. *)
Lemma derived_from_columns (pd : ParsedData) (rows : list FlatRow) (r : FlatRow) :
  toFlatData pd = Ok rows -> In r rows ->
  calculated_value r = scaled (value r) (appliedMultiplier r) /\
  calculated_cost r =
    match scaled (cost r) (appliedMultiplier r) with
    | Some c =>
        if truthyNum c then Some (toFixed otherToString (div c (ofZ 100)) 2)
        else None
    | None => None
    end.
Proof.
  intros H Hin. destruct (row_of_reached _ _ _ H Hin) as [it [_ Hrow]].
  unfold FeedSpec.rowOf in Hrow.
  pose proof (powerMultiplier_applied _ _ _ _ _ _ _ _ Hrow) as Hpm.
  apply flatRow_fields in Hrow.
  destruct Hrow as (_ & _ & _ & _ & _ & _ & _ & _ & Hv & Hc & Hcv & Hcc).
  rewrite Hcv, Hcc, Hv, Hc.
  unfold calculatedValue, calculatedCost, calculatedCostWithMultiplier.
  now rewrite Hpm.
Qed.

(** *** Arithmetic of the model *)

Lemma Qred_inject_Z (m : Z) : Qred (inject_Z m) = inject_Z m.
Proof.
  pose proof (Qred_correct (inject_Z m)) as H.
  pose proof (gcd_Qred (inject_Z m)) as G.
  destruct (Qred (inject_Z m)) as [n d]. unfold Qeq in H. simpl in *.
  rewrite Z.mul_1_r in H. subst n.
  rewrite Z.gcd_comm, Z.mul_comm, Z.gcd_mul_diag_l in G by lia.
  injection G as ->. now rewrite Z.mul_1_r.
Qed.

Lemma pow10_ofZ (m : Z) : pow10 (ofZ m) = Num (pow10Q m).
Proof. unfold pow10, ofZ. now rewrite Qred_inject_Z. Qed.

Lemma truthyNum_nonzero (c : Q) : truthyNum (Num c) = true <-> ~ (c == 0)%Q.
Proof.
  unfold truthyNum, Qeq. simpl. rewrite Z.mul_1_r, negb_true_iff, Z.eqb_neq.
  reflexivity.
Qed.

Lemma truthyNum_zero (c : Q) : (c == 0)%Q -> truthyNum (Num c) = false.
Proof.
  intro H. destruct (truthyNum (Num c)) eqn:E; [|reflexivity].
  apply truthyNum_nonzero in E. contradiction.
Qed.

Lemma scaled_nonzero (c : Q) (m : Z) :
  ~ (c == 0)%Q ->
  scaled (Some (Num c)) (ofZ m) = Some (Num (Qred (c * pow10Q m))).
Proof.
  intro H. unfold scaled. apply truthyNum_nonzero in H. rewrite H.
  now rewrite pow10_ofZ.
Qed.

Lemma pow10Q_nonzero (m : Z) : ~ (pow10Q m == 0)%Q.
Proof.
  unfold pow10Q. destruct (0 <=? m) eqn:E.
  - unfold Qeq. simpl. rewrite Z.mul_1_r. apply Z.pow_nonzero; lia.
  - apply Z.leb_gt in E. intro H.
    assert (Hp : 0 < 10 ^ (- m)) by (apply Z.pow_pos_nonneg; lia).
    destruct (10 ^ (- m)) as [|p|p] eqn:Ep; try lia.
    unfold Qeq, Qinv, inject_Z in H. simpl in H. lia.
Qed.


(** *** The text of [toFixed(2)] *)

Lemma digits_of_uint (d : Decimal.uint) :
  forallb isDigit (chars (NilEmpty.string_of_uint d)) = true.
Proof. induction d; simpl; auto. Qed.

Lemma ZtoString_digits (z : Z) :
  0 <= z ->
  forallb isDigit (chars (ZtoString z)) = true /\ ZtoString z <> EmptyString.
Proof.
  intro Hz. unfold ZtoString. destruct z as [|p|p]; try lia.
  - split; [reflexivity|discriminate].
  - simpl. destruct (Pos.to_uint p) eqn:E; simpl;
      (split; [try reflexivity; apply (digits_of_uint _)|discriminate]).
Qed.

Lemma two_digits (k : Z) :
  0 <= k < 100 ->
  exists a b, chars (padZeros 2 (ZtoString k)) = [a; b] /\
              isDigit a = true /\ isDigit b = true.
Proof.
  intro Hk.
  assert (Hall : forallb twoDigitCheck (seq 0 100) = true) by (vm_compute; reflexivity).
  rewrite forallb_forall in Hall.
  specialize (Hall (Z.to_nat k)).
  assert (Hin : In (Z.to_nat k) (seq 0 100)) by (apply in_seq; lia).
  specialize (Hall Hin). unfold twoDigitCheck in Hall.
  rewrite Z2Nat.id in Hall by lia.
  destruct (chars (padZeros 2 (ZtoString k))) as [|a [|b [|c l]]]; try discriminate.
  apply andb_true_iff in Hall. exists a, b. tauto.
Qed.

Lemma chars_app (s t : string) : chars (s ++ t) = (chars s ++ chars t)%list.
Proof. unfold chars. induction s; simpl; congruence. Qed.

Lemma roundScaled_nonneg (x : Q) (f : nat) : 0 <= Qnum x -> 0 <= roundScaled x f.
Proof.
  intro H. unfold roundScaled. apply Z.div_pos; [|lia].
  assert (0 <= 10 ^ Z.of_nat f) by (apply Z.pow_nonneg; lia). nia.
Qed.

Lemma Qnum_Qabs (x : Q) : Qnum (Qabs x) = Z.abs (Qnum x).
Proof. now destruct x. Qed.

(** Below 10^21, [toFixed(2)] gives digits, a point and two digits. *)
Lemma toFixed_two_decimals (x : Q) :
  (Qabs x < inject_Z (10 ^ 21))%Q ->
  twoDecimals (toFixed otherToString (Num x) 2) = true.
Proof.
  intro Hlt. unfold toFixed.
  destruct (Qle_bool (inject_Z (10 ^ 21)) (Qabs x)) eqn:E.
  { apply Qle_bool_iff in E. exfalso. exact (Qlt_not_le _ _ Hlt E). }
  set (n := roundScaled (Qabs x) 2).
  assert (Hn : 0 <= n).
  { apply roundScaled_nonneg. rewrite Qnum_Qabs. lia. }
  change (10 ^ Z.of_nat 2) with 100.
  destruct (ZtoString_digits (n / 100)) as [Hd Hne].
  { apply Z.div_pos; lia. }
  destruct (two_digits (n mod 100)) as (a & b & Hab & Ha & Hb).
  { apply Z.mod_pos_bound. lia. }
  assert (Hbody : forall ip : string,
            forallb isDigit (chars ip) = true -> ip <> EmptyString ->
            match rev (chars (ip ++ "." ++ padZeros 2 (ZtoString (n mod 100)))) with
            | d2 :: d1 :: p :: (i :: _) as l =>
                isDigit d2 && isDigit d1 && Nat.eqb (nat_of_ascii p) 46
                && forallb isDigit l
            | _ => false
            end = true).
  { intros ip Hip Hnz. rewrite !chars_app, Hab.
    change (chars ".") with ["."%char].
    rewrite !rev_app_distr. simpl.
    assert (Hrev : forallb isDigit (rev (chars ip)) = true).
    { rewrite forallb_forall in Hip |- *. intros c Hc.
      apply Hip. now apply in_rev. }
    destruct (rev (chars ip)) as [|i l] eqn:Er.
    - exfalso. apply Hnz. destruct ip; [reflexivity|].
      apply (f_equal (@List.length ascii)) in Er. rewrite length_rev in Er.
      discriminate.
    - rewrite Ha, Hb. simpl in Hrev |- *. exact Hrev. }
  unfold twoDecimals.
  destruct (Qnum x <? 0).
  - change ("-" ++ ZtoString (n / 100) ++ "." ++ padZeros 2 (ZtoString (n mod 100)))
      with (String "-" (ZtoString (n / 100) ++ "." ++ padZeros 2 (ZtoString (n mod 100)))).
    cbn [nat_of_ascii]. simpl Nat.eqb. cbv iota. now apply Hbody.
  - change ("" ++ ZtoString (n / 100) ++ "." ++ padZeros 2 (ZtoString (n mod 100)))
      with (ZtoString (n / 100) ++ "." ++ padZeros 2 (ZtoString (n mod 100))).
    destruct (ZtoString (n / 100)) as [|c r] eqn:Es; [contradiction|].
    assert (Hc : isDigit c = true).
    { change (chars (String c r)) with (c :: chars r) in Hd.
      cbn [forallb] in Hd. apply andb_true_iff in Hd. exact (proj1 Hd). }
    change (String c r ++ "." ++ padZeros 2 (ZtoString (n mod 100)))
      with (String c (r ++ "." ++ padZeros 2 (ZtoString (n mod 100)))).
    cbv beta iota.
    assert (Hnm : Nat.eqb (nat_of_ascii c) 45 = false).
    { unfold isDigit in Hc. apply andb_true_iff in Hc. destruct Hc as [Hc _].
      apply Nat.leb_le in Hc. apply Nat.eqb_neq. lia. }
    rewrite Hnm.
    change (String c (r ++ "." ++ padZeros 2 (ZtoString (n mod 100))))
      with (String c r ++ "." ++ padZeros 2 (ZtoString (n mod 100))).
    now apply Hbody.
Qed.


Lemma roundScaled_nearest (x : Q) (f : nat) :
  let n := roundScaled x f in
  let p := 10 ^ Z.of_nat f in
  (2 * n - 1) * Zpos (Qden x) <= 2 * Qnum x * p < (2 * n + 1) * Zpos (Qden x).
Proof.
  unfold roundScaled. cbv zeta.
  set (p := 10 ^ Z.of_nat f). set (d := Zpos (Qden x)).
  assert (Hd : 0 < 2 * d) by (unfold d; lia).
  pose proof (Z.div_mod (2 * Qnum x * p + d) (2 * d) ltac:(lia)) as Hdm.
  pose proof (Z.mod_pos_bound (2 * Qnum x * p + d) (2 * d) Hd) as Hb.
  nia.
Qed.

(** *** Values and costs *)

(** A row whose raw value is a number other than zero carries that value
    times ten to the multiplier; a row without raw value carries none. *)
Lemma calculated_value_nonzero (pd : ParsedData) (rows : list FlatRow) (r : FlatRow) :
  toFlatData pd = Ok rows -> In r rows ->
  (value r = None -> calculated_value r = None) /\
  (forall v m, value r = Some (Num v) -> ~ (v == 0)%Q ->
     appliedMultiplier r = ofZ m ->
     exists x, (x == v * pow10Q m)%Q /\ calculated_value r = Some (Num x)).
Proof.
  intros H Hin. destruct (derived_from_columns _ _ _ H Hin) as [Hcv _].
  split.
  - intro Hv. now rewrite Hcv, Hv.
  - intros v m Hv Hnz Hm. rewrite Hcv, Hv, Hm, scaled_nonzero by assumption.
    eexists. split; [|reflexivity]. apply Qred_correct.
Qed.

(** A row whose raw value is zero has no calculated value, whatever the
    multiplier. *)
Lemma calculated_value_zero (pd : ParsedData) (rows : list FlatRow) (r : FlatRow) (v : Q) :
  toFlatData pd = Ok rows -> In r rows ->
  value r = Some (Num v) -> (v == 0)%Q -> calculated_value r = None.
Proof.
  intros H Hin Hv Hz. destruct (derived_from_columns _ _ _ H Hin) as [Hcv _].
  rewrite Hcv, Hv. unfold scaled. now rewrite truthyNum_zero.
Qed.

(** C1, at the reading of value 0 of [zeroValueFeed] (multiplier 0): the
    row keeps the raw value 0 and the multiplier 0, and its
    [calculated_value] is [null], where the sentence asks for
    0 x 10^0 = 0.  The same holds for a reading of value 0 under every
    reading type, so for every multiplier. *)
Theorem C1_zero_value_has_no_calculated_value :
  (exists r,
     bind (parseXML zeroValueFeed) toFlatData = Ok [r] /\
     value r = Some (ofZ 0) /\ power_multiplier r = Some (ofZ 0) /\
     calculated_value r = None) /\
  (forall cost timePeriod qualityFlags readingType,
     calculatedValue
       {| IntervalReading.cost := cost;
          IntervalReading.timePeriod := timePeriod;
          IntervalReading.value := Some (ofZ 0);
          IntervalReading.qualityFlags := qualityFlags |} readingType
     = None).
Proof.
  split.
  - eexists. split; [vm_compute; reflexivity|]. repeat split.
  - reflexivity.
Qed.

Lemma scaled_cost_truthy (c : Q) (m : Z) :
  ~ (c == 0)%Q -> truthyNum (Num (Qred (c * pow10Q m))) = true.
Proof.
  intro Hc. apply truthyNum_nonzero. rewrite Qred_correct. intro H.
  apply Qmult_integral in H. destruct H as [H|H]; [exact (Hc H)|].
  exact (pow10Q_nonzero m H).
Qed.

(** Below 10^21, [toFixed(2)] gives the text of the nearest number of
    hundredths. *)
Lemma toFixed_rounds (x : Q) :
  (Qabs x < inject_Z (10 ^ 21))%Q ->
  exists n,
    nearestHundredths x n /\
    toFixed otherToString (Num x) 2 = hundredthsText (Qnum x <? 0) n.
Proof.
  intro Hlt. exists (roundScaled (Qabs x) 2). split.
  - pose proof (roundScaled_nearest (Qabs x) 2) as H. cbv zeta in H.
    rewrite Qnum_Qabs in H. change (10 ^ Z.of_nat 2) with 100 in H.
    replace (Qden (Qabs x)) with (Qden x) in H by now destruct x.
    exact H.
  - unfold toFixed, hundredthsText.
    destruct (Qle_bool (inject_Z (10 ^ 21)) (Qabs x)) eqn:E; [|reflexivity].
    apply Qle_bool_iff in E. exfalso. exact (Qlt_not_le _ _ Hlt E).
Qed.


(** *** Times *)

Lemma add_ofZ (a b : Z) : add (ofZ a) (ofZ b) = ofZ (a + b).
Proof.
  unfold add, ofZ. f_equal. rewrite <- (Qred_inject_Z (a + b)).
  apply Qred_complete. unfold Qeq, inject_Z. simpl. lia.
Qed.

Lemma mul_ofZ (a b : Z) : mul (ofZ a) (ofZ b) = ofZ (a * b).
Proof.
  unfold mul, ofZ. f_equal. rewrite <- (Qred_inject_Z (a * b)).
  apply Qred_complete. unfold Qeq, inject_Z. simpl. lia.
Qed.

Lemma truthyNum_ofZ (z : Z) : truthyNum (ofZ z) = negb (z =? 0).
Proof. reflexivity. Qed.

Lemma formatTimestamp_ofZ (t : Z) (o : option string) :
  t <> 0 -> formatTimestamp (Some (ofZ t)) = Ok o ->
  o = Some (isoString (t * 1000)).
Proof.
  intros Ht. unfold formatTimestamp. rewrite truthyNum_ofZ.
  apply Z.eqb_neq in Ht. rewrite Ht. simpl negb. cbv iota.
  rewrite mul_ofZ. unfold dateToISOString, timeClip, ofZ.
  destruct (Qle_bool _ _); simpl; [|discriminate].
  intro H. injection H as <-. now rewrite Z.quot_1_r.
Qed.

(** The end time of a row whose reading has both a start and a duration,
    neither zero, that do not add up to zero; and of a row whose reading
    lacks one of them. *)
Lemma end_time_of_row upId usagePoint mrId rts rt ibId reading r :
  flatRow upId usagePoint mrId rts rt ibId reading = Ok r ->
  (forall tp s d,
     IntervalReading.timePeriod reading = Some tp ->
     Period.start tp = Some (ofZ s) -> Period.duration tp = Some (ofZ d) ->
     s <> 0 -> d <> 0 -> s + d <> 0 ->
     end_time r = Some (isoString ((s + d) * 1000))) /\
  ((IntervalReading.timePeriod reading = None \/
    exists tp, IntervalReading.timePeriod reading = Some tp /\
               (Period.start tp = None \/ Period.duration tp = None)) ->
   end_time r = None).
Proof.
  unfold GreenButtonParser.flatRow. intro H.
  destruct (formatTimestamp _) as [st|]; simpl in H; [|discriminate].
  match type of H with bind ?e _ = _ => destruct e as [et|] eqn:Eet end;
    simpl in H; [|discriminate].
  injection H as <-. simpl. split.
  - intros tp s d Htp Hs Hd Hs0 Hd0 Hsd. rewrite Htp, Hs, Hd in Eet.
    cbn [truthyOptNum] in Eet. rewrite !truthyNum_ofZ in Eet.
    apply Z.eqb_neq in Hs0, Hd0. rewrite Hs0, Hd0 in Eet.
    cbn [negb andb] in Eet.
    rewrite add_ofZ in Eet. now apply formatTimestamp_ofZ in Eet.
  - intros [Htp|[tp [Htp [Hn|Hn]]]]; rewrite Htp in Eet.
    + now injection Eet as <-.
    + rewrite Hn in Eet. simpl in Eet. now injection Eet as <-.
    + rewrite Hn in Eet. simpl in Eet. rewrite andb_false_r in Eet.
      now injection Eet as <-.
Qed.

(** The example of the specification: start 1609459200 and duration 900
    end at the text of the second 1609460100. *)
Lemma end_time_example :
  isoString ((1609459200 + 900) * 1000) = "2021-01-01T00:15:00.000Z".
Proof. vm_compute. reflexivity. Qed.

(** C4, at the reading of [epochEndFeed], whose start -900 and duration
    900 are both present: the row has a start time and a duration, and its
    [end_time] is [null], where the sentence asks for the text of the epoch
    second 0.  [formatTimestamp] gives [null] for every start and duration
    that add up to zero. *)
Theorem C4_end_at_epoch_is_null :
  (exists r,
     bind (parseXML epochEndFeed) toFlatData = Ok [r] /\
     start_time r = Some "1969-12-31T23:45:00.000Z" /\
     duration r = Some (ofZ 900) /\ end_time r = None) /\
  (forall s, formatTimestamp (Some (add (ofZ s) (ofZ (- s)))) = Ok None).
Proof.
  split.
  - eexists. split; [vm_compute; reflexivity|]. repeat split.
  - intro s. rewrite add_ofZ. now replace (s + - s) with 0 by lia.
Qed.

(** *** The traversal *)

Lemma get_Some_In {V} (m : Map V) (k : key) (v : V) :
  get m k = Some v -> exists k', In (k', v) m.
Proof.
  induction m as [|[k0 v0] m IH]; simpl; [discriminate|].
  destruct (key_eqb k k0).
  - intro H. injection H as ->. exists k0. now left.
  - intro H. destruct (IH H) as [k' Hk']. exists k'. now right.
Qed.

(** What a reached reading is made of. *)
Lemma reached_inv (pd : ParsedData) (it : Reached) :
  In it (reachedReadings pd) ->
  In (r_upId it, r_usagePoint it) (usagePoints pd) /\
  In (r_mrId it)
     (getOrEmpty (usagePointToMeterReadings (relationships pd)) (r_upId it)) /\
  (exists mr, get (meterReadings pd) (r_mrId it) = Some mr) /\
  r_relatedReadingTypes it =
    getOrEmpty (meterReadingToReadingTypes (relationships pd)) (r_mrId it) /\
  r_readingType it =
    match r_relatedReadingTypes it with
    | rtId :: _ => get (readingTypes pd) rtId
    | [] => None
    end /\
  In (r_ibId it)
     (getOrEmpty (meterReadingToIntervalBlocks (relationships pd)) (r_mrId it)) /\
  exists ib, get (intervalBlocks pd) (r_ibId it) = Some ib /\
             In (r_reading it) (IntervalBlock.intervalReadings ib).
Proof.
  unfold reachedReadings. intro H.
  apply in_flat_map in H. destruct H as [[upId up] [Hup H]]. cbn [fst snd] in H.
  apply in_flat_map in H. destruct H as [mrId [Hmr H]].
  destruct (get (meterReadings pd) mrId) as [mr|] eqn:Emr; [|contradiction].
  apply in_flat_map in H. destruct H as [ibId [Hib H]].
  destruct (get (intervalBlocks pd) ibId) as [ib|] eqn:Eib; [|contradiction].
  apply in_map_iff in H. destruct H as [reading [<- Hr]]. simpl.
  repeat split; eauto.
Qed.

Lemma flatRow_total upId usagePoint mrId rts rt ibId reading :
  datable reading = true ->
  exists r, flatRow upId usagePoint mrId rts rt ibId reading = Ok r.
Proof.
  unfold datable, GreenButtonParser.flatRow, formatTimestamp, inDateRange,
    dateToISOString.
  destruct (IntervalReading.timePeriod reading) as [tp|]; [|eexists; reflexivity].
  destruct (Period.start tp) as [s|]; [|eexists; reflexivity].
  intro H. apply andb_true_iff in H. destruct H as [Hs Hd].
  destruct (timeClip (mul s (ofZ 1000))) as [ts|]; [|discriminate].
  simpl truthyOptNum.
  destruct (truthyNum s); simpl.
  - destruct (Period.duration tp) as [d|]; [|eexists; reflexivity].
    simpl. destruct (truthyNum d); [|eexists; reflexivity].
    destruct (timeClip (mul (add s d) (ofZ 1000))); [|discriminate].
    destruct (truthyNum (add s d)); eexists; reflexivity.
  - eexists; reflexivity.
Qed.


(** *** A meter reading without reading type *)

Lemma Qmult_pow10Q_0 (v : Q) : (v * pow10Q 0 == v)%Q.
Proof. unfold pow10Q. simpl. change (inject_Z 1) with 1%Q. ring. Qed.


(** *** parseEntry *)

(** An entry without content is skipped. *)
Lemma entry_without_content (entry : node) (pd : ParsedData) :
  querySelector entry [Tag "content"] = None -> parseEntry entry pd = Ok pd.
Proof. unfold parseEntry. now intros ->. Qed.


(** *** buildRelationships *)

Lemma fold_push_get (targets : list key) (m : Map (list key)) (k : key)
  (l : list key) :
  get m k = Some l ->
  get (fold_left (fun m t => push m k t) targets m) k = Some (l ++ targets)%list.
Proof.
  revert m l. induction targets as [|t targets IH]; simpl; intros m l H.
  - now rewrite app_nil_r.
  - rewrite (IH _ (l ++ [t])%list).
    + now rewrite <- app_assoc.
    + unfold push. rewrite H. apply get_set_same.
Qed.

Lemma push_other (m : Map (list key)) (k k' x : key) :
  k' <> k -> get (push m k x) k' = get m k'.
Proof.
  intro H. unfold push. destruct (get m k); [|reflexivity].
  now apply get_set_other.
Qed.

Lemma fold_push_other (targets : list key) (m : Map (list key)) (k k' : key) :
  k' <> k ->
  get (fold_left (fun m t => push m k t) targets m) k' = get m k'.
Proof.
  intro Hne. revert m. induction targets as [|t targets IH]; simpl; intro m.
  - reflexivity.
  - rewrite IH. now apply push_other.
Qed.

(** The inner loop of the third loop of [buildRelationships]. *)
Local Abbreviation pushOrCreate k :=
  (fun (m : Map (list key)) (rtId : key) =>
     let m := if has m k then m else set m k [] in push m k rtId).

Lemma fold_pushOrCreate_present (targets : list key) (m : Map (list key))
  (k : key) (l : list key) :
  get m k = Some l ->
  get (fold_left (pushOrCreate k) targets m) k = Some (l ++ targets)%list.
Proof.
  revert m l. induction targets as [|t targets IH]; simpl; intros m l H.
  - now rewrite app_nil_r.
  - rewrite (IH _ (l ++ [t])%list).
    + now rewrite <- app_assoc.
    + unfold has, push. rewrite H. rewrite H. apply get_set_same.
Qed.

Lemma fold_pushOrCreate_get (targets : list key) (m : Map (list key)) (k : key) :
  get (fold_left (pushOrCreate k) targets m) k =
  match targets with
  | [] => get m k
  | _ => Some (getOrEmpty m k ++ targets)%list
  end.
Proof.
  destruct targets as [|t targets]; [reflexivity|]. cbn [fold_left].
  rewrite (fold_pushOrCreate_present _ _ _ (getOrEmpty m k ++ [t])%list).
  - now rewrite <- app_assoc.
  - unfold has, getOrEmpty, push. destruct (get m k) as [l|] eqn:E.
    + rewrite E. apply get_set_same.
    + rewrite get_set_same. apply get_set_same.
Qed.

Lemma fold_pushOrCreate_other (targets : list key) (m : Map (list key))
  (k k' : key) :
  k' <> k -> get (fold_left (pushOrCreate k) targets m) k' = get m k'.
Proof.
  intro Hne. revert m. induction targets as [|t targets IH]; simpl; intro m.
  - reflexivity.
  - rewrite IH, push_other by assumption.
    destruct (has m k); [reflexivity|]. now apply get_set_other.
Qed.

(** A loop over the entries of a map whose body, at an entry, changes the
    list of the key of the entry only, and from the list of that key
    only. *)
Lemma loop_over_entries {V} (body : Map (list key) -> key * V -> Map (list key))
  (entries : list (key * V)) :
  (forall m e k, k <> fst e -> get (body m e) k = get m k) ->
  (forall m m' e, get m (fst e) = get m' (fst e) ->
                  get (body m e) (fst e) = get (body m' e) (fst e)) ->
  NoDup (keys entries) ->
  forall m0 k v, In (k, v) entries ->
    get (fold_left body entries m0) k = get (body m0 (k, v)) k.
Proof.
  intros Hother Hown. induction entries as [|e entries IH]; intros Hnd m0 k v Hin.
  - contradiction.
  - inversion Hnd as [|? ? Hnotin Hnd']; subst. cbn [fold_left].
    destruct Hin as [->|Hin].
    + clear IH. cbn [fst] in Hnotin.
      assert (Hrest : forall es m, ~ In k (keys es) ->
                get (fold_left body es m) k = get m k).
      { induction es as [|e' es IHes]; intros m Hn; [reflexivity|].
        cbn [fold_left]. rewrite IHes.
        - apply Hother. intro Hk. apply Hn. left. now symmetry.
        - intro Hk. apply Hn. now right. }
      now rewrite Hrest.
    + rewrite (IH Hnd' _ k v Hin).
      apply (Hown (body m0 e) m0 (k, v)). cbn [fst].
      apply Hother. intro Hk. apply Hnotin. rewrite <- Hk.
      change k with (fst (k, v)). now apply in_map.
Qed.

Lemma filter_nonempty {A} (f : A -> bool) (l : list A) :
  Nat.ltb 0 (List.length (filter f l)) = existsb f l.
Proof.
  induction l as [|x l IH]; [reflexivity|]. simpl.
  destruct (f x); [reflexivity|exact IH].
Qed.

(** The list of key [k] after a loop of [buildRelationships], reduced to
    the body of the loop at the entry of [k]. *)
Ltac at_entry k v Hin Hnd :=
  match goal with
  | |- context [get (fold_left ?b ?es ?m0) k] =>
      let Hloop := fresh "Hloop" in
      let M := fresh "M" in
      assert (Hloop : get (fold_left b es m0) k = get (b m0 (k, v)) k);
      [ refine (loop_over_entries b es _ _ Hnd m0 k v Hin)
      | revert Hloop; generalize (fold_left b es m0); intros M Hloop;
        cbv beta iota in Hloop; rewrite filter_nonempty in Hloop ]
  end.

(** C2: after [buildRelationships] on the maps as [parseXML] leaves them
    (no relationship yet), a usage point with a link of relation [related]
    whose URI contains MeterReading is mapped to the identifiers of all
    meter readings of the document, in their order, and a usage point
    without such a link has no entry; likewise a meter reading and the
    interval blocks (IntervalBlock) and the reading types (ReadingType). *)
Theorem C2_presence_implies_all (pd : ParsedData) :
  relationships pd = emptyRelationships ->
  NoDup (keys (usagePoints pd)) -> NoDup (keys (meterReadings pd)) ->
  let rel := relationships (buildRelationships pd) in
  (forall upId up, In (upId, up) (usagePoints pd) ->
     if hasLinkTo (UsagePoint.links up) "MeterReading"
     then get (usagePointToMeterReadings rel) upId = Some (keys (meterReadings pd))
          /\ forall mrId, In mrId (keys (meterReadings pd)) ->
               associates (usagePointToMeterReadings rel) upId mrId
     else get (usagePointToMeterReadings rel) upId = None) /\
  (forall mrId mr, In (mrId, mr) (meterReadings pd) ->
     if hasLinkTo (MeterReading.links mr) "IntervalBlock"
     then get (meterReadingToIntervalBlocks rel) mrId = Some (keys (intervalBlocks pd))
          /\ forall ibId, In ibId (keys (intervalBlocks pd)) ->
               associates (meterReadingToIntervalBlocks rel) mrId ibId
     else get (meterReadingToIntervalBlocks rel) mrId = None) /\
  (forall mrId mr, In (mrId, mr) (meterReadings pd) ->
     if hasLinkTo (MeterReading.links mr) "ReadingType"
     then (keys (readingTypes pd) <> [] ->
           get (meterReadingToReadingTypes rel) mrId = Some (keys (readingTypes pd)))
          /\ forall rtId, In rtId (keys (readingTypes pd)) ->
               associates (meterReadingToReadingTypes rel) mrId rtId
     else get (meterReadingToReadingTypes rel) mrId = None).
Proof.
  intros Hrel Hup Hmr. unfold buildRelationships. rewrite Hrel.
  cbv zeta.
  cbn [relationships withRelationships usagePointToMeterReadings
       meterReadingToIntervalBlocks meterReadingToReadingTypes
       emptyRelationships usagePoints meterReadings intervalBlocks readingTypes].
  split; [|split].
  - intros upId up Hin. at_entry upId up Hin Hup.
    + intros m [k0 v0] k Hk. cbn [fst] in Hk. cbv beta iota.
      destruct (Nat.ltb _ _); [|reflexivity].
      rewrite fold_push_other by assumption. now apply get_set_other.
    + intros m m' [k0 v0] Hm. cbn [fst] in *. cbv beta iota.
      destruct (Nat.ltb _ _); [|exact Hm].
      rewrite !(fold_push_get _ _ _ []); try reflexivity; apply get_set_same.
    + fold (hasLinkTo (UsagePoint.links up) "MeterReading") in Hloop.
      destruct (hasLinkTo _ _); [|exact Hloop].
      rewrite (fold_push_get _ _ _ []) in Hloop by apply get_set_same.
      split; [exact Hloop|]. intros mrId Hm. eexists. split; [exact Hloop|exact Hm].
  - intros mrId mr Hin. at_entry mrId mr Hin Hmr.
    + intros m [k0 v0] k Hk. cbn [fst] in Hk. cbv beta iota.
      destruct (Nat.ltb _ _); [|reflexivity].
      rewrite fold_push_other by assumption. now apply get_set_other.
    + intros m m' [k0 v0] Hm. cbn [fst] in *. cbv beta iota.
      destruct (Nat.ltb _ _); [|exact Hm].
      rewrite !(fold_push_get _ _ _ []); try reflexivity; apply get_set_same.
    + fold (hasLinkTo (MeterReading.links mr) "IntervalBlock") in Hloop.
      destruct (hasLinkTo _ _); [|exact Hloop].
      rewrite (fold_push_get _ _ _ []) in Hloop by apply get_set_same.
      split; [exact Hloop|]. intros ibId Hm. eexists. split; [exact Hloop|exact Hm].
  - intros mrId mr Hin. at_entry mrId mr Hin Hmr.
    + intros m [k0 v0] k Hk. cbn [fst] in Hk. cbv beta iota.
      destruct (Nat.ltb _ _); [|reflexivity].
      now rewrite fold_pushOrCreate_other.
    + intros m m' [k0 v0] Hm. cbn [fst] in *. cbv beta iota.
      destruct (Nat.ltb _ _); [|exact Hm].
      rewrite !fold_pushOrCreate_get. unfold getOrEmpty. now rewrite Hm.
    + fold (hasLinkTo (MeterReading.links mr) "ReadingType") in Hloop.
      destruct (hasLinkTo _ _); [|exact Hloop].
      rewrite fold_pushOrCreate_get in Hloop.
      destruct (keys (readingTypes pd)) as [|rt0 rts] eqn:Ek.
      * split; [intro H; now contradiction H|intros ? []].
      * split; [intros _; exact Hloop|].
        intros rtId Hm. eexists. split; [exact Hloop|exact Hm].
Qed.

(** *** The document of parseXML *)

Lemma In_keys_set {V} (m : Map V) (k x : key) (v : V) :
  In x (keys (set m k v)) -> x = k \/ In x (keys m).
Proof.
  induction m as [|[k0 v0] m IH]; simpl.
  - intros [H|[]]. now left.
  - destruct (key_eqb k k0); simpl; intros [H|H]; auto.
    destruct (IH H); auto.
Qed.

Lemma NoDup_set {V} (m : Map V) (k : key) (v : V) :
  NoDup (keys m) -> NoDup (keys (set m k v)).
Proof.
  induction m as [|[k0 v0] m IH]; simpl; intro H.
  - constructor; [intros []|constructor].
  - inversion H as [|? ? Hnotin Hnd]; subst.
    destruct (key_eqb k k0) eqn:E; simpl.
    + now constructor.
    + constructor; [|now apply IH].
      intro Hin. apply In_keys_set in Hin. destruct Hin as [->|Hin].
      * now rewrite key_eqb_refl in E.
      * contradiction.
Qed.

(** What [buildRelationships] asks of the collections: no relationship
    yet, and each identifier once in a collection. *)
Local Abbreviation collectedOk pd :=
  (relationships pd = emptyRelationships /\
   NoDup (keys (usagePoints pd)) /\ NoDup (keys (meterReadings pd))).

Lemma parseEntry_collected (entry : node) (pd pd' : ParsedData) :
  collectedOk pd -> parseEntry entry pd = Ok pd' -> collectedOk pd'.
Proof.
  intros (Hr & Hu & Hm). unfold parseEntry.
  destruct (querySelector entry [Tag "content"]) as [content|];
    [|intro H; injection H as <-; auto].
  destruct (extractLinks entry) as [links|]; [|discriminate]. cbn [bind].
  destruct (querySelector content (espi "UsagePoint"));
    [intro H; injection H as <-; simpl; auto using NoDup_set|].
  destruct (querySelector content (espi "MeterReading"));
    [intro H; injection H as <-; simpl; auto using NoDup_set|].
  destruct (querySelector content (espi "IntervalBlock"));
    [intro H; injection H as <-; simpl; auto|].
  destruct (querySelector content (espi "ReadingType"));
    [intro H; injection H as <-; simpl; auto|].
  destruct (querySelector content (espi "LocalTimeParameters"));
    [intro H; injection H as <-; simpl; auto|].
  destruct (querySelector content usageSummarySelector);
    intro H; injection H as <-; simpl; auto.
Qed.

Lemma forOf_parseEntry_collected (entries : list node) (pd pd' : ParsedData) :
  collectedOk pd -> forOf entries parseEntry pd = Ok pd' -> collectedOk pd'.
Proof.
  revert pd. induction entries as [|e entries IH]; simpl; intros pd Hok H.
  - now injection H as <-.
  - destruct (parseEntry e pd) as [pd1|] eqn:E; [|discriminate].
    simpl in H. apply (IH pd1); [|exact H].
    exact (parseEntry_collected _ _ _ Hok E).
Qed.

(** The document [parseXML] returns is [buildRelationships] of collections
    that have no relationship yet and hold each identifier once. *)
Lemma parseXML_collected (xmlDoc : node) (pd : ParsedData) :
  parseXML xmlDoc = Ok pd ->
  exists pd0, pd = buildRelationships pd0 /\ collectedOk pd0.
Proof.
  unfold parseXML.
  destruct (docQuerySelector xmlDoc [Tag "parsererror"]); [discriminate|].
  destruct (docQuerySelector xmlDoc [Tag "feed"]) as [feed|]; [|discriminate].
  match goal with
  | |- context [forOf ?es parseEntry ?p0] =>
      destruct (forOf es parseEntry p0) as [pd0|] eqn:E
  end; [|discriminate].
  simpl. intro H. injection H as <-. exists pd0. split; [reflexivity|].
  eapply forOf_parseEntry_collected; [|exact E].
  simpl. split; [reflexivity|split; constructor].
Qed.

End ParserProperties.

(* ================================================================= *)
(** ** Properties of the exporter *)

Section ExporterProperties.

Import JS CSVExporter CsvSpec.

Variable otherToString : Q -> string.

Local Abbreviation convertToCSV := (CSVExporter.convertToCSV otherToString).
Local Abbreviation validateData := (CSVExporter.validateData otherToString).
Local Abbreviation formatCSVRow := (CSVExporter.formatCSVRow otherToString).

(** *** Strings *)

Lemma prefix_empty (s : string) : String.prefix EmptyString s = true.
Proof. now destruct s. Qed.

Lemma prefix_char (c : ascii) (s : string) :
  String.prefix (char1 c) s = true <-> exists r, s = String c r.
Proof.
  destruct s as [|a r]; simpl.
  - split; [discriminate|intros [r H]; discriminate].
  - destruct (ascii_dec c a) as [->|Hne].
    + rewrite prefix_empty. split; eauto.
    + split; [discriminate|]. intros [r' H]. injection H as -> _. contradiction.
Qed.

Lemma includes_char (s : string) (c : ascii) :
  includes s (char1 c) = true <-> In c (chars s).
Proof.
  induction s as [|a r IH].
  - simpl. split; [discriminate|contradiction].
  - cbn [includes]. rewrite orb_true_iff, IH, prefix_char.
    change (chars (String a r)) with (a :: chars r). simpl. split.
    + intros [[r' H]|H]; [left; now injection H|now right].
    + intros [->|H]; [left; eauto|now right].
Qed.

Lemma includes_char_false (s : string) (c : ascii) :
  includes s (char1 c) = false -> ~ In c (chars s).
Proof.
  intros H Hin. apply includes_char in Hin. congruence.
Qed.

Lemma str_chars (s : string) : str (chars s) = s.
Proof. apply string_of_list_ascii_of_string. Qed.

Lemma chars_str (l : list ascii) : chars (str l) = l.
Proof. apply list_ascii_of_string_of_list_ascii. Qed.

Lemma chars_append (s t : string) : chars (s ++ t) = (chars s ++ chars t)%list.
Proof. unfold chars. induction s; simpl; congruence. Qed.

Lemma str_app (l1 l2 : list ascii) : str (l1 ++ l2) = str l1 ++ str l2.
Proof. unfold str. induction l1; simpl; congruence. Qed.

Lemma startsWith_char (s : string) (c : ascii) :
  startsWith s (char1 c) = true <-> exists r, s = String c r.
Proof. apply prefix_char. Qed.

Lemma endsWith_char (s : string) (c : ascii) :
  endsWith s (char1 c) = true <-> exists r, s = r ++ char1 c.
Proof.
  unfold endsWith. change (str (rev (chars (char1 c)))) with (char1 c).
  rewrite prefix_char. split.
  - intros [r H]. exists (str (rev (chars r))).
    apply (f_equal chars) in H. rewrite chars_str in H.
    change (chars (String c r)) with (c :: chars r) in H.
    apply (f_equal (@rev ascii)) in H. rewrite rev_involutive in H. simpl in H.
    rewrite <- (str_chars s), H, str_app. reflexivity.
  - intros [r ->]. exists (str (rev (chars r))).
    rewrite chars_append, rev_app_distr. reflexivity.
Qed.

Lemma append_assoc (a b c : string) : (a ++ b) ++ c = a ++ b ++ c.
Proof. induction a as [|x a IH]; simpl; [reflexivity|now rewrite IH]. Qed.

Lemma length_append (s t : string) :
  String.length (s ++ t) = (String.length s + String.length t)%nat.
Proof. induction s; simpl; congruence. Qed.

Lemma length_doubleQuotes (s : string) :
  (String.length s <= String.length (doubleQuotes s))%nat.
Proof.
  induction s as [|c r IH]; simpl; [lia|].
  destruct (Ascii.eqb c quote); simpl; lia.
Qed.

(** *** The quoting policy *)

Lemma needsQuoting_iff (s : string) :
  needsQuoting s = true <-> special s \/ atAnEnd isSpace s.
Proof.
  unfold needsQuoting, special, atAnEnd, contains, isSpace.
  rewrite !orb_true_iff.
  change "," with (char1 comma). change " " with (char1 space).
  rewrite !includes_char, startsWith_char, endsWith_char. split.
  - intros [[[[[H|H]|H]|H]|[r H]]|[r H]]; try tauto.
    + right. left. exists space, r. split; [assumption|reflexivity].
    + right. right. exists r, space. split; [assumption|reflexivity].
  - intros [[H|[H|[H|H]]]|[(c & r & H & Hc)|(r & c & H & Hc)]]; try tauto.
    + apply Ascii.eqb_eq in Hc. subst c. left. right. eauto.
    + apply Ascii.eqb_eq in Hc. subst c. right. eauto.
Qed.

Lemma wrapped_iff (s : string) : wrapped s <-> needsQuoting s = true.
Proof.
  unfold wrapped, quoted. destruct (needsQuoting s).
  - split; reflexivity.
  - split; [|discriminate].
    intro H. apply (f_equal String.length) in H. simpl in H.
    rewrite length_append in H. pose proof (length_doubleQuotes s).
    simpl in H. lia.
Qed.

(** *** Reading a field back *)

Lemma isDelimiter_quote : isDelimiter quote = false.
Proof. reflexivity. Qed.

Lemma readEscaped_doubled (s rest : string) :
  afterField rest ->
  readEscaped (doubleQuotes s ++ char1 quote ++ rest) = Some (s, rest).
Proof.
  intro Hrest. induction s as [|c r IH].
  - simpl. destruct Hrest as [->|(c & r & -> & Hc)]; [reflexivity|].
    destruct (Ascii.eqb c quote) eqn:E.
    + apply Ascii.eqb_eq in E. subst c. discriminate.
    + now rewrite Hc.
  - cbn [doubleQuotes]. destruct (Ascii.eqb c quote) eqn:E.
    + apply Ascii.eqb_eq in E. subst c.
      change (String quote (String quote (doubleQuotes r)) ++ char1 quote ++ rest)
        with (String quote (String quote (doubleQuotes r ++ char1 quote ++ rest))).
      cbn [readEscaped]. rewrite Ascii.eqb_refl, IH. reflexivity.
    + change (String c (doubleQuotes r) ++ char1 quote ++ rest)
        with (String c (doubleQuotes r ++ char1 quote ++ rest)).
      cbn [readEscaped]. rewrite E, IH. reflexivity.
Qed.

Lemma readPlain_plain (s rest : string) :
  ~ In comma (chars s) -> ~ In quote (chars s) ->
  ~ In CR (chars s) -> ~ In LF (chars s) ->
  afterField rest ->
  readPlain (s ++ rest) = Some (s, rest).
Proof.
  intros Hc Hq Hr Hl Hrest. induction s as [|c r IH].
  - simpl. destruct Hrest as [->|(c & r & -> & Hd)]; [reflexivity|].
    simpl. now rewrite Hd.
  - change (chars (String c r)) with (c :: chars r) in *.
    change (String c r ++ rest) with (String c (r ++ rest)). cbn [readPlain].
    assert (Hd : isDelimiter c = false).
    { unfold isDelimiter. rewrite !orb_false_iff. repeat split;
        apply Ascii.eqb_neq; intro; subst; simpl in *; tauto. }
    assert (Hnq : Ascii.eqb c quote = false).
    { apply Ascii.eqb_neq. intro; subst; simpl in *; tauto. }
    rewrite Hd, Hnq, IH; simpl in *; tauto.
Qed.

(** Reading the field of [s] gives [s] back, and the text that follows
    the field. *)
Lemma readField_quoted (s rest : string) :
  afterField rest -> readField (quoted s ++ rest) = Some (s, rest).
Proof.
  intro Hrest. unfold quoted. destruct (needsQuoting s) eqn:E.
  - change (String quote (doubleQuotes s ++ char1 quote) ++ rest)
      with (String quote ((doubleQuotes s ++ char1 quote) ++ rest)).
    cbn [readField]. rewrite Ascii.eqb_refl.
    replace ((doubleQuotes s ++ char1 quote) ++ rest)
      with (doubleQuotes s ++ char1 quote ++ rest).
    + now apply readEscaped_doubled.
    + symmetry. apply append_assoc.
  - unfold needsQuoting in E. rewrite !orb_false_iff in E.
    destruct E as [[[[[Hc Hq] Hl] Hr] _] _].
    change "," with (char1 comma) in Hc.
    apply includes_char_false in Hc, Hq, Hl, Hr.
    assert (Hplain : readPlain (s ++ rest) = Some (s, rest))
      by now apply readPlain_plain.
    destruct s as [|c r].
    + simpl. destruct Hrest as [->|(c & r & -> & Hd)]; [reflexivity|].
      cbn [readField]. destruct (Ascii.eqb c quote) eqn:Eq.
      * apply Ascii.eqb_eq in Eq. subst c. discriminate.
      * exact Hplain.
    + change (String c r ++ rest) with (String c (r ++ rest)) in *.
      cbn [readField]. destruct (Ascii.eqb c quote) eqn:Eq.
      * apply Ascii.eqb_eq in Eq. subst c. exfalso. apply Hq. now left.
      * exact Hplain.
Qed.

Lemma append_empty_r (s : string) : s ++ EmptyString = s.
Proof. induction s; simpl; congruence. Qed.

(** A record of [formatCSVRow] splits into the strings it was made
    from. *)
Lemma readFields_formatCSVRow (values : list string) :
  values <> [] ->
  readFields (List.length values) (formatCSVRow values) = Some values.
Proof.
  unfold CSVExporter.formatCSVRow, join, field. cbn [String_].
  induction values as [|v values IH]; [intro H; now contradiction H|].
  intros _. destruct values as [|w values].
  - cbn [map String.concat List.length readFields].
    rewrite <- (append_empty_r (quoted v)), readField_quoted by now left.
    reflexivity.
  - change (String.concat "," (map (fun x => quoted x) (v :: w :: values)))
      with (quoted v ++ String comma
              (String.concat "," (map (fun x => quoted x) (w :: values)))).
    change (List.length (v :: w :: values))
      with (S (List.length (w :: values))).
    cbn [readFields]. rewrite readField_quoted.
    + rewrite Ascii.eqb_refl, IH by discriminate. reflexivity.
    + right. exists comma. eexists. split; reflexivity.
Qed.

(** C7, as amended: a field is wrapped in double quotes, its double quotes
    doubled, exactly when it holds a comma, a double quote, a carriage
    return or a line feed, or begins or ends with a space character; every
    other field is emitted as it is, also one that begins or ends with
    other white space; [convertToCSV] emits the header and the cell of a
    one-cell table in this form; the field of the example is encoded as in
    the example; a reader after RFC 4180 recovers every field from its
    encoding, and the fields of a record from the record. *)
Theorem C7_quoting_policy :
  (forall s, wrapped s <-> special s \/ atAnEnd isSpace s) /\
  (forall s, ~ wrapped s -> quoted s = s) /\
  (forall header s,
     convertToCSV (Some [[(header, Str s)]]) None
     = Ok (quoted header ++ char1 LF ++ quoted s)) /\
  quoted exampleField = exampleEncoded /\
  (forall s, readField (quoted s) = Some (s, EmptyString)) /\
  (forall values,
     values <> [] ->
     readFields (List.length values) (formatCSVRow values) = Some values).
Proof.
  split; [|split; [|split; [|split; [|split]]]].
  - intro s. rewrite wrapped_iff. apply needsQuoting_iff.
  - intros s H. rewrite wrapped_iff in H. unfold quoted.
    now destruct (needsQuoting s).
  - intros header s.
    unfold CSVExporter.convertToCSV, CSVExporter.formatCSVRow, join, lookup.
    simpl. rewrite String.eqb_refl. reflexivity.
  - vm_compute. reflexivity.
  - intro s. rewrite <- (append_empty_r (quoted s)).
    apply readField_quoted. now left.
  - apply readFields_formatCSVRow.
Qed.

(** The field with a tab first is emitted without quotes, though it
    begins with white space. *)
Lemma C7_leading_tab_not_quoted :
  quoted (String TAB "x") = String TAB "x" /\ ~ quoting_as_stated.
Proof.
  split; [reflexivity|]. intro H.
  destruct (H (String TAB "x")) as [_ Hw].
  assert (W : wrapped (String TAB "x")).
  { apply Hw. right. left. exists TAB, "x". split; reflexivity. }
  discriminate W.
Qed.

(** *** Empty input *)

(** C8: [convertToCSV] on an array without rows throws the error of the
    empty input, and returns text for an array with a first row only;
    [validateData] on [null] and on the empty array returns a result that
    is not valid, with one error and all statistics zero. *)
Theorem C8_empty_input :
  (forall headers,
     convertToCSV (Some []) headers = Throw "No data provided for CSV conversion") /\
  (forall data headers text,
     convertToCSV data headers = Ok text ->
     exists first rest, data = Some (first :: rest)) /\
  (isValid (validateData (Primitive Null)) = false /\
   errors (validateData (Primitive Null)) = ["No data provided"] /\
   stats (validateData (Primitive Null)) = zeroStats) /\
  (isValid (validateData (Array [])) = false /\
   errors (validateData (Array [])) = ["Data array is empty"] /\
   stats (validateData (Array [])) = zeroStats).
Proof.
  split; [reflexivity|]. split; [|split; repeat split].
  intros [[|first rest]|] headers text H; try discriminate. eauto.
Qed.

(** *** generatePreview *)

Lemma deref_alloc_old (h : heap) (l : list row) (a : nat) :
  (a < List.length h)%nat -> deref (h ++ [l])%list a = deref h a.
Proof. intro H. unfold deref. now apply app_nth1. Qed.

Lemma deref_alloc_new (h : heap) (l : list row) :
  deref (h ++ [l])%list (List.length h) = l.
Proof.
  unfold deref. rewrite app_nth2 by lia. now rewrite Nat.sub_diag.
Qed.

Lemma slice0_length (l : list row) (e : Z) :
  0 <= e -> Z.of_nat (List.length (slice0 l e)) <= e.
Proof.
  intro He. unfold slice0. apply Z.ltb_ge in He. rewrite He.
  rewrite length_firstn. lia.
Qed.


End ExporterProperties.

(* ================================================================= *)
(** ** The sentences that fail as they are stated, and instances *)

Section Instances.

Import JS Dom GreenButtonParser FeedSpec.



Lemma C2_instance :
  relationships (collected zeroValueFeed) = emptyRelationships /\
  NoDup (keys (usagePoints (collected zeroValueFeed))) /\
  NoDup (keys (meterReadings (collected zeroValueFeed))) /\
  get (usagePointToMeterReadings
         (relationships (buildRelationships (collected zeroValueFeed))))
      (Some "up") = Some [Some "mr"].
Proof.
  assert (H1 : relationships (collected zeroValueFeed) = emptyRelationships)
    by reflexivity.
  assert (H2 : NoDup (keys (usagePoints (collected zeroValueFeed)))).
  { vm_compute. constructor; [intros []|constructor]. }
  assert (H3 : NoDup (keys (meterReadings (collected zeroValueFeed)))).
  { vm_compute. constructor; [intros []|constructor]. }
  split; [exact H1|]. split; [exact H2|]. split; [exact H3|].
  destruct (C2_presence_implies_all (collected zeroValueFeed) H1 H2 H3)
    as [Hup _].
  destruct (usagePoints (collected zeroValueFeed)) as [|[k up] l] eqn:E;
    [vm_compute in E; discriminate|].
  specialize (Hup k up (or_introl eq_refl)).
  vm_compute in E. injection E as Hk Hu _. subst k up.
  exact (proj1 Hup).
Defined.





End Instances.

Section ExporterInstances.

Import JS CSVExporter CsvSpec.

Lemma C7_instance :
  ~ wrapped "kWh" /\ quoted "kWh" = "kWh".
Proof.
  assert (H : ~ wrapped "kWh") by (intro W; discriminate W).
  split; [exact H|].
  exact (proj1 (proj2 (C7_quoting_policy FeedSpec.noExponentText)) "kWh" H).
Defined.

Lemma C8_instance :
  convertToCSV FeedSpec.noExponentText (Some [[("uom", Str "Wh")]]) None
  = Ok ("uom" ++ char1 LF ++ "Wh") /\
  exists first rest, Some [[("uom", Str "Wh")]] = Some (first :: rest).
Proof.
  assert (H : convertToCSV FeedSpec.noExponentText (Some [[("uom", Str "Wh")]]) None
              = Ok ("uom" ++ char1 LF ++ "Wh")) by (vm_compute; reflexivity).
  split; [exact H|].
  exact (proj1 (proj2 (C8_empty_input FeedSpec.noExponentText)) _ _ _ H).
Defined.



End ExporterInstances.

(* ================================================================= *)
(** ** More on the parser *)

Section ParserDocuments.

Import JS Dom GreenButtonParser FeedSpec FeedFacts.

Variable otherToString : Q -> string.

Local Abbreviation toFlatData := (GreenButtonParser.toFlatData otherToString).
Local Abbreviation flatRow := (GreenButtonParser.flatRow otherToString).
Local Abbreviation rowOf := (FeedSpec.rowOf otherToString).

(** *** The errors of parseXML *)

Lemma parseEntry_metadata (entry : node) (pd pd' : ParsedData) :
  parseEntry entry pd = Ok pd' ->
  metadata pd' = metadata pd /\ relationships pd' = relationships pd.
Proof.
  unfold parseEntry.
  destruct (querySelector entry [Tag "content"]) as [content|];
    [|intro H; injection H as <-; auto].
  destruct (extractLinks entry) as [links|]; [|discriminate]. cbn [bind].
  repeat match goal with
         | |- context [match querySelector ?c ?s with _ => _ end] =>
             destruct (querySelector c s)
         end;
    intro H; injection H as <-; auto.
Qed.

Lemma forOf_parseEntry_metadata (entries : list node) (pd pd' : ParsedData) :
  forOf entries parseEntry pd = Ok pd' -> metadata pd' = metadata pd.
Proof.
  revert pd. induction entries as [|e entries IH]; simpl; intros pd H.
  - now injection H as <-.
  - destruct (parseEntry e pd) as [pd1|] eqn:E; [|discriminate].
    simpl in H. rewrite (IH _ H). now apply parseEntry_metadata in E.
Qed.

(** The only error of [parseEntry] is the one of [extractLinks]. *)
Lemma parseEntry_throws (entry : node) (pd : ParsedData) (m : string) :
  parseEntry entry pd = Throw m ->
  (exists content, querySelector entry [Tag "content"] = Some content) /\
  extractLinks entry = Throw m.
Proof.
  unfold parseEntry.
  destruct (querySelector entry [Tag "content"]) as [content|]; [|discriminate].
  destruct (extractLinks entry) as [links|m'].
  - cbn [bind].
    repeat match goal with
           | |- context [match querySelector ?c ?s with _ => _ end] =>
               destruct (querySelector c s)
           end; discriminate.
  - cbn [bind]. intro H. injection H as <-. split; [now exists content|reflexivity].
Qed.

Lemma forOf_parseEntry_throws (entries : list node) (pd : ParsedData) (m : string) :
  forOf entries parseEntry pd = Throw m ->
  exists entry, In entry entries /\
    (exists content, querySelector entry [Tag "content"] = Some content) /\
    extractLinks entry = Throw m.
Proof.
  revert pd. induction entries as [|e entries IH]; simpl; intros pd H.
  - discriminate.
  - destruct (parseEntry e pd) as [pd1|m1] eqn:E; simpl in H.
    + destruct (IH _ H) as (x & Hin & Hx). exists x. auto.
    + injection H as <-. exists e. split; [now left|].
      exact (parseEntry_throws _ _ _ E).
Qed.

Lemma forOf_parseEntry_ok (entries : list node) (pd : ParsedData) :
  (forall entry, In entry entries ->
     querySelector entry [Tag "content"] <> None ->
     exists links, extractLinks entry = Ok links) ->
  exists pd', forOf entries parseEntry pd = Ok pd'.
Proof.
  revert pd. induction entries as [|e entries IH]; simpl; intros pd H.
  - now exists pd.
  - destruct (parseEntry e pd) as [pd1|m1] eqn:E; simpl.
    + apply IH. intros x Hx. apply H. now right.
    + exfalso. apply parseEntry_throws in E. destruct E as ((c & Hc) & Hl).
      destruct (H e (or_introl eq_refl)) as (links & Hlinks).
      * now rewrite Hc.
      * congruence.
Qed.

(** Every message of [parseXML] comes behind the same prefix. *)
Lemma parseXML_throws_prefix (xmlDoc : node) (m : string) :
  parseXML xmlDoc = Throw m ->
  startsWith m "Failed to parse Green Button XML: " = true.
Proof.
  assert (Hp : forall msg,
            startsWith ("Failed to parse Green Button XML: " ++ msg)
              "Failed to parse Green Button XML: " = true).
  { intro msg. unfold startsWith.
    generalize "Failed to parse Green Button XML: ".
    induction s as [|c s IH]; simpl.
    - now destruct msg.
    - destruct (ascii_dec c c); [exact IH|contradiction]. }
  unfold parseXML.
  destruct (docQuerySelector xmlDoc [Tag "parsererror"]).
  - intro H. apply (f_equal (fun r => match r with
                                      | Throw x => x
                                      | Ok _ => EmptyString
                                      end)) in H.
    subst m. apply Hp.
  - destruct (docQuerySelector xmlDoc [Tag "feed"]).
    + destruct (bind _ _); [discriminate|].
      intro H. apply (f_equal (fun r => match r with
                                        | Throw x => x
                                        | Ok _ => EmptyString
                                        end)) in H.
      subst m. apply Hp.
    + intro H. apply (f_equal (fun r => match r with
                                        | Throw x => x
                                        | Ok _ => EmptyString
                                        end)) in H.
      subst m. apply Hp.
Qed.

(** X1: [parseXML] fails in three ways only, each message behind the same
    prefix: a [parsererror] element anywhere in the document (before
    anything else is looked at), no [feed] element, or an entry with
    content whose links cannot be extracted.  Otherwise it returns, with
    the metadata read from the first [feed] element and the count of all
    [entry] elements. *)
Theorem parseXML_outcomes (xmlDoc : node) :
  (forall e,
     docQuerySelector xmlDoc [Tag "parsererror"] = Some e ->
     parseXML xmlDoc
     = Throw ("Failed to parse Green Button XML: XML parsing error: "
              ++ textContent e)) /\
  (docQuerySelector xmlDoc [Tag "parsererror"] = None ->
   docQuerySelector xmlDoc [Tag "feed"] = None ->
   parseXML xmlDoc
   = Throw "Failed to parse Green Button XML: Invalid Green Button file: No feed element found") /\
  (forall feed,
     docQuerySelector xmlDoc [Tag "parsererror"] = None ->
     docQuerySelector xmlDoc [Tag "feed"] = Some feed ->
     (forall m,
        parseXML xmlDoc = Throw m ->
        exists entry m',
          In entry (entriesOf xmlDoc) /\
          querySelector entry [Tag "content"] <> None /\
          extractLinks entry = Throw m' /\
          m = "Failed to parse Green Button XML: " ++ m') /\
     ((forall entry, In entry (entriesOf xmlDoc) ->
         querySelector entry [Tag "content"] <> None ->
         exists links, extractLinks entry = Ok links) ->
      exists pd,
        parseXML xmlDoc = Ok pd /\
        metadata pd =
          {| feedId := getTextContent feed "id";
             feedTitle := getTextContent feed "title";
             updated := getTextContent feed "updated";
             totalEntries := List.length (entriesOf xmlDoc) |})) /\
  (forall m,
     parseXML xmlDoc = Throw m ->
     startsWith m "Failed to parse Green Button XML: " = true).
Proof.
  unfold parseXML, entriesOf. split; [|split; [|split]].
  - intros e ->. reflexivity.
  - intros -> ->. reflexivity.
  - intros feed -> ->.
    match goal with
    | |- context [forOf ?es parseEntry ?p0] => set (p0' := p0)
    end.
    split.
    + intros m.
      destruct (forOf _ parseEntry p0') as [pd0|m0] eqn:E; simpl; [discriminate|].
      intro H. injection H as <-.
      apply forOf_parseEntry_throws in E.
      destruct E as (entry & Hin & (c & Hc) & Hl).
      exists entry, m0. repeat split; auto. now rewrite Hc.
    + intro Hall.
      destruct (forOf_parseEntry_ok _ p0' Hall) as (pd' & E).
      rewrite E. simpl. eexists. split; [reflexivity|].
      apply forOf_parseEntry_metadata in E.
      unfold buildRelationships, withRelationships. cbn [metadata].
      rewrite E. reflexivity.
  - apply parseXML_throws_prefix.
Qed.


(** *** What parseXML collects *)

Lemma length_set {V} (m : Map V) (k : key) (v : V) :
  (List.length (set m k v) <= S (List.length m))%nat.
Proof.
  induction m as [|[k0 v0] m IH]; simpl; [lia|].
  destruct (key_eqb k k0); simpl; lia.
Qed.

Lemma parseEntry_entities (entry : node) (pd pd' : ParsedData) :
  parseEntry entry pd = Ok pd' ->
  (entities pd' <= S (entities pd))%nat /\
  forall k, In k (identifiers pd') ->
    In k (identifiers pd) \/
    (querySelector entry [Tag "content"] <> None /\
     getTextContent entry "id" = k).
Proof.
  unfold parseEntry.
  destruct (querySelector entry [Tag "content"]) as [content|];
    [|intro H; injection H as <-; split; [lia|auto]].
  destruct (extractLinks entry) as [links|]; [|discriminate]. cbn [bind].
  assert (Hc : Some content <> None) by discriminate.
  generalize (getTextContent entry "id"). intro entryId.
  repeat match goal with
         | |- context [match querySelector ?c ?s with _ => _ end] =>
             destruct (querySelector c s)
         end;
    intro H; injection H as <-;
    (split;
     [ unfold entities; simpl;
       match goal with
       | |- context [set ?m ?k ?v] => pose proof (length_set m k v)
       | _ => idtac
       end; lia
     | unfold identifiers; simpl; intros k Hk;
       repeat rewrite in_app_iff in Hk; repeat rewrite in_app_iff;
       repeat match goal with
              | H : _ \/ _ |- _ => destruct H
              | H : In _ (keys (set _ _ _)) |- _ =>
                  apply In_keys_set in H
              end; subst; auto 10 ]).
Qed.

Lemma forOf_parseEntry_entities (entries : list node) (pd pd' : ParsedData) :
  forOf entries parseEntry pd = Ok pd' ->
  (entities pd' <= entities pd + List.length entries)%nat /\
  forall k, In k (identifiers pd') ->
    In k (identifiers pd) \/
    exists entry, In entry entries /\
      querySelector entry [Tag "content"] <> None /\
      getTextContent entry "id" = k.
Proof.
  revert pd. induction entries as [|e entries IH]; simpl; intros pd H.
  - injection H as <-. split; [lia|auto].
  - destruct (parseEntry e pd) as [pd1|] eqn:E; [|discriminate].
    simpl in H. destruct (IH _ H) as (Hn & Hk).
    destruct (parseEntry_entities _ _ _ E) as (Hn1 & Hk1).
    split; [lia|]. intros k Hin.
    destruct (Hk k Hin) as [H1|(x & Hx & Hx')].
    + destruct (Hk1 k H1) as [H0|(Hc & Hid)]; [now left|].
      right. exists e. auto.
    + right. exists x. auto.
Qed.

Lemma parseEntry_distinct (entry : node) (pd pd' : ParsedData) :
  parseEntry entry pd = Ok pd' ->
  NoDup (keys (usagePoints pd)) /\ NoDup (keys (meterReadings pd)) /\
  NoDup (keys (intervalBlocks pd)) /\ NoDup (keys (readingTypes pd)) /\
  NoDup (keys (localTimeParameters pd)) /\ NoDup (keys (usageSummaries pd)) ->
  NoDup (keys (usagePoints pd')) /\ NoDup (keys (meterReadings pd')) /\
  NoDup (keys (intervalBlocks pd')) /\ NoDup (keys (readingTypes pd')) /\
  NoDup (keys (localTimeParameters pd')) /\ NoDup (keys (usageSummaries pd')).
Proof.
  unfold parseEntry. intros H (H1 & H2 & H3 & H4 & H5 & H6). revert H.
  destruct (querySelector entry [Tag "content"]) as [content|];
    [|intro H; injection H as <-; auto 10].
  destruct (extractLinks entry) as [links|]; [|discriminate]. cbn [bind].
  repeat match goal with
         | |- context [match querySelector ?c ?s with _ => _ end] =>
             destruct (querySelector c s)
         end;
    intro H; injection H as <-; simpl; auto 10 using NoDup_set.
Qed.

Lemma forOf_parseEntry_distinct (entries : list node) (pd pd' : ParsedData) :
  forOf entries parseEntry pd = Ok pd' ->
  NoDup (keys (usagePoints pd)) /\ NoDup (keys (meterReadings pd)) /\
  NoDup (keys (intervalBlocks pd)) /\ NoDup (keys (readingTypes pd)) /\
  NoDup (keys (localTimeParameters pd)) /\ NoDup (keys (usageSummaries pd)) ->
  NoDup (keys (usagePoints pd')) /\ NoDup (keys (meterReadings pd')) /\
  NoDup (keys (intervalBlocks pd')) /\ NoDup (keys (readingTypes pd')) /\
  NoDup (keys (localTimeParameters pd')) /\ NoDup (keys (usageSummaries pd')).
Proof.
  revert pd. induction entries as [|e entries IH]; simpl; intros pd H Hd.
  - now injection H as <-.
  - destruct (parseEntry e pd) as [pd1|] eqn:E; [|discriminate].
    simpl in H. apply (IH _ H). exact (parseEntry_distinct _ _ _ E Hd).
Qed.

(** The document of [parseXML], as the result of the loop over the
    entries. *)
Lemma parseXML_loop (xmlDoc : node) (pd : ParsedData) :
  parseXML xmlDoc = Ok pd ->
  exists pd0 pd1,
    forOf (entriesOf xmlDoc) parseEntry pd0 = Ok pd1 /\
    pd = buildRelationships pd1 /\
    totalEntries (metadata pd0) = List.length (entriesOf xmlDoc) /\
    usagePoints pd0 = [] /\ meterReadings pd0 = [] /\
    intervalBlocks pd0 = [] /\ readingTypes pd0 = [] /\
    localTimeParameters pd0 = [] /\ usageSummaries pd0 = [] /\
    relationships pd0 = emptyRelationships.
Proof.
  unfold parseXML, entriesOf.
  destruct (docQuerySelector xmlDoc [Tag "parsererror"]); [discriminate|].
  destruct (docQuerySelector xmlDoc [Tag "feed"]) as [feed|]; [|discriminate].
  match goal with
  | |- context [forOf ?es parseEntry ?p0] =>
      destruct (forOf es parseEntry p0) as [pd1|] eqn:E
  end; [|discriminate].
  simpl. intro H. injection H as <-.
  eexists. exists pd1. split; [exact E|]. simpl. repeat split.
Qed.

(** No collection of the document of [parseXML] holds an identifier
    twice. *)
Lemma parseXML_distinct (xmlDoc : node) (pd : ParsedData) :
  parseXML xmlDoc = Ok pd ->
  NoDup (keys (usagePoints pd)) /\ NoDup (keys (meterReadings pd)) /\
  NoDup (keys (intervalBlocks pd)) /\ NoDup (keys (readingTypes pd)) /\
  NoDup (keys (localTimeParameters pd)) /\ NoDup (keys (usageSummaries pd)).
Proof.
  intro H. apply parseXML_loop in H.
  destruct H as (pd0 & pd1 & E & -> & Hn & U & M & I & R & L & S & _).
  apply (forOf_parseEntry_distinct _ _ _ E).
  rewrite U, M, I, R, L, S. repeat split; constructor.
Qed.

(** X2: in the document [parseXML] returns, the six collections together
    hold at most as many entities as the feed has entries (the count in
    the metadata), every identifier is the [id] text of an entry of the
    feed that has a [content] element, and no collection holds an
    identifier twice. *)
Theorem parseXML_collects_from_entries (xmlDoc : node) (pd : ParsedData) :
  parseXML xmlDoc = Ok pd ->
  (entities pd <= totalEntries (metadata pd))%nat /\
  (forall k, In k (identifiers pd) ->
     exists entry,
       In entry (entriesOf xmlDoc) /\
       querySelector entry [Tag "content"] <> None /\
       getTextContent entry "id" = k) /\
  NoDup (keys (usagePoints pd)) /\ NoDup (keys (meterReadings pd)) /\
  NoDup (keys (intervalBlocks pd)) /\ NoDup (keys (readingTypes pd)) /\
  NoDup (keys (localTimeParameters pd)) /\ NoDup (keys (usageSummaries pd)).
Proof.
  intro H. pose proof (parseXML_distinct _ _ H) as Hdistinct.
  apply parseXML_loop in H.
  destruct H as (pd0 & pd1 & E & -> & Hn & U & M & I & R & L & S & _).
  pose proof (forOf_parseEntry_metadata _ _ _ E) as Hmeta.
  destruct (forOf_parseEntry_entities _ _ _ E) as (Hcount & Hids).
  assert (H0 : entities pd0 = 0%nat) by (unfold entities; now rewrite U, M, I, R, L, S).
  assert (Hi0 : identifiers pd0 = []) by (unfold identifiers; now rewrite U, M, I, R, L, S).
  split; [|split].
  - change (entities (buildRelationships pd1)) with (entities pd1).
    change (metadata (buildRelationships pd1)) with (metadata pd1).
    rewrite Hmeta, Hn. lia.
  - change (identifiers (buildRelationships pd1)) with (identifiers pd1).
    intros k Hk. destruct (Hids k Hk) as [Hk0|Hk0]; [|exact Hk0].
    rewrite Hi0 in Hk0. contradiction.
  - exact Hdistinct.
Qed.

(** *** extractLinks *)

Lemma linksOf_pushLink (links : Links) (r h rel : string) :
  linksOf (pushLink links r h) rel =
  if String.eqb r rel then (linksOf links rel ++ [h])%list else linksOf links rel.
Proof.
  unfold linksOf, prop.
  induction links as [|[r0 hs] links IH]; simpl.
  - destruct (String.eqb r rel); reflexivity.
  - destruct (String.eqb r0 r) eqn:E0; simpl.
    + apply String.eqb_eq in E0. subst r0.
      destruct (String.eqb r rel); reflexivity.
    + destruct (String.eqb r0 rel) eqn:E1; simpl.
      * apply String.eqb_eq in E1. subst r0. now rewrite String.eqb_sym, E0.
      * exact IH.
Qed.

Lemma In_fst_pushLink (links : Links) (r h x : string) :
  In x (map fst (pushLink links r h)) -> x = r \/ In x (map fst links).
Proof.
  induction links as [|[r0 hs] links IH]; simpl.
  - intros [H|[]]. now left.
  - destruct (String.eqb r0 r); simpl; intros [H|H]; auto.
    destruct (IH H); auto.
Qed.

Lemma linksShape_pushLink (links : Links) (r h : string) :
  linksShape links -> linksShape (pushLink links r h).
Proof.
  unfold linksShape. induction links as [|[r0 hs] links IH]; simpl; intros (Hn & Hf).
  - split; [constructor; [intros []|constructor]|].
    constructor; [discriminate|constructor].
  - inversion Hn as [|? ? Hnotin Hn']; subst.
    inversion Hf as [|? ? Hhd Hf']; subst.
    destruct (String.eqb r0 r) eqn:E; simpl.
    + split; [now constructor|]. constructor; [|assumption].
      simpl. now destruct hs.
    + destruct (IH (conj Hn' Hf')) as (Hn1 & Hf1).
      split; [|now constructor].
      constructor; [|assumption].
      intro Hin. apply In_fst_pushLink in Hin. destruct Hin as [->|Hin].
      * now rewrite String.eqb_refl in E.
      * contradiction.
Qed.

Lemma prop_None_linksOf (links : Links) (rel : string) :
  linksShape links -> (prop links rel = None <-> linksOf links rel = []).
Proof.
  intros (_ & Hf). unfold linksOf, prop.
  destruct (find _ links) as [p|] eqn:E; simpl; [|tauto].
  apply find_some in E. destruct E as (Hin & _).
  rewrite Forall_forall in Hf. specialize (Hf p Hin).
  split; [discriminate|contradiction].
Qed.

Lemma extractLinksFrom_cons (l : node) (els : list node) (acc : Links) :
  extractLinksFrom (l :: els) acc =
  match recorded l with
  | Some (r, h) =>
      if isInherited r then Throw "links[rel].push is not a function"
      else extractLinksFrom els (pushLink acc r h)
  | None => extractLinksFrom els acc
  end.
Proof.
  unfold recorded. simpl.
  destruct (getAttribute l "rel") as [r|]; [|reflexivity].
  destruct (getAttribute l "href") as [h|]; [|reflexivity].
  now destruct (truthyStr r && truthyStr h).
Qed.

Lemma extractLinksFrom_groups (linkElements : list node) (acc links : Links) :
  extractLinksFrom linkElements acc = Ok links ->
  linksShape acc ->
  linksShape links /\
  forall rel, linksOf links rel = (linksOf acc rel ++ hrefsOf rel linkElements)%list.
Proof.
  revert acc. induction linkElements as [|l els IH]; intros acc H Hs.
  - injection H as <-. split; [assumption|]. intro. simpl. now rewrite app_nil_r.
  - rewrite extractLinksFrom_cons in H. unfold hrefsOf. cbn [flat_map].
    fold (hrefsOf).
    destruct (recorded l) as [[r h]|]; [|destruct (IH _ H Hs); auto].
    destruct (isInherited r); [discriminate|].
    destruct (IH _ H (linksShape_pushLink _ r h Hs)) as (Hs' & Hl).
    split; [assumption|]. intro rel. rewrite Hl, linksOf_pushLink.
    change (flat_map _ els) with (hrefsOf rel els).
    destruct (String.eqb r rel); simpl; [now rewrite <- app_assoc|reflexivity].
Qed.

Lemma extractLinksFrom_throws (linkElements : list node) (acc : Links) :
  (forall m, extractLinksFrom linkElements acc = Throw m ->
             m = "links[rel].push is not a function") /\
  ((exists m, extractLinksFrom linkElements acc = Throw m) <->
   exists l r h, In l linkElements /\ recorded l = Some (r, h) /\
                 isInherited r = true).
Proof.
  revert acc. induction linkElements as [|l els IH]; intros acc.
  - split; [discriminate|]. split.
    + intros (m & H). discriminate.
    + intros (l & r & h & [] & _).
  - rewrite extractLinksFrom_cons.
    destruct (recorded l) as [[r h]|] eqn:Hrec.
    + destruct (isInherited r) eqn:Ei.
      * split; [intros m H; now injection H as <-|].
        split; [|intros _; eexists; reflexivity].
        intros _. exists l, r, h. simpl. auto.
      * destruct (IH (pushLink acc r h)) as (Hm & Hiff). split; [exact Hm|].
        rewrite Hiff. split.
        -- intros (l0 & r0 & h0 & Hin & Hr). exists l0, r0, h0. simpl. auto.
        -- intros (l0 & r0 & h0 & [<-|Hin] & Hr & Hi).
           ++ rewrite Hrec in Hr. injection Hr as <- <-. congruence.
           ++ exists l0, r0, h0. auto.
    + destruct (IH acc) as (Hm & Hiff). split; [exact Hm|].
      rewrite Hiff. split.
      * intros (l0 & r & h & Hin & Hr). exists l0, r, h. simpl. auto.
      * intros (l0 & r & h & [<-|Hin] & Hr & Hi); [congruence|].
        exists l0, r, h. auto.
Qed.

(** X3: [extractLinks] groups the URIs of the [link] elements of an entry
    by relation: the list of a relation holds the URIs of the links of the
    relation that have both attributes, not empty, in document order;
    a relation with no such link is absent; each relation is one
    property.  It throws, always with the same message, exactly when such
    a link names a relation that every object inherits a member for. *)
Theorem extractLinks_groups_by_relation (entry : node) :
  (forall links,
     extractLinks entry = Ok links ->
     NoDup (map fst links) /\
     forall rel,
       linksOf links rel = hrefsOf rel (querySelectorAll entry [Tag "link"]) /\
       (prop links rel = None <->
        hrefsOf rel (querySelectorAll entry [Tag "link"]) = [])) /\
  ((exists m, extractLinks entry = Throw m) <->
   exists l r h,
     In l (querySelectorAll entry [Tag "link"]) /\
     recorded l = Some (r, h) /\ isInherited r = true) /\
  (forall m, extractLinks entry = Throw m ->
     m = "links[rel].push is not a function").
Proof.
  unfold extractLinks. split; [|split].
  - intros links H.
    assert (Hs0 : linksShape []) by (split; constructor).
    destruct (extractLinksFrom_groups _ _ _ H Hs0) as (Hs & Hl).
    split; [exact (proj1 Hs)|]. intro rel. split.
    + now rewrite Hl.
    + rewrite (prop_None_linksOf _ _ Hs), Hl. reflexivity.
  - apply extractLinksFrom_throws.
  - apply extractLinksFrom_throws.
Qed.

End ParserDocuments.

Section ParserNumbers.

Import JS Dom GreenButtonParser FeedSpec FeedFacts.

Variable otherToString : Q -> string.

Local Abbreviation toFlatData := (GreenButtonParser.toFlatData otherToString).
Local Abbreviation flatRow := (GreenButtonParser.flatRow otherToString).
Local Abbreviation rowOf := (FeedSpec.rowOf otherToString).

(** *** The numbers of a document *)

Lemma parseIntStr_integral (s : string) : integral (parseIntStr s).
Proof.
  unfold parseIntStr, integral. cbv zeta.
  match goal with
  | |- context [let '(sign, u) := ?p in _] => destruct p as [sign u]
  end.
  match goal with
  | |- context [match ?d with Some v => ofZ _ | None => NaN end] => destruct d
  end; [right; eauto|now left].
Qed.

Lemma parseInt_integral (t : option string) : integral (parseInt t).
Proof. destruct t; [apply parseIntStr_integral|now left]. Qed.

Lemma numOrNull_nonzero (n : number) :
  integral n -> optionally nonzeroIntegral (numOrNull n).
Proof.
  unfold numOrNull. intros [->|[z ->]]; [exact I|].
  rewrite truthyNum_ofZ. destruct (Z.eqb_spec z 0); simpl; [exact I|].
  now exists z.
Qed.

Lemma intOrNull_nonzero (e : node) (tag : string) :
  optionally nonzeroIntegral (intOrNull e tag).
Proof. apply numOrNull_nonzero, parseInt_integral. Qed.

Lemma parsePeriod_read (e : option node) : optionally periodRead (parsePeriod e).
Proof.
  destruct e; [|exact I]. split; apply intOrNull_nonzero.
Qed.

Lemma parseIntervalReading_read (reading : node) :
  readingRead (parseIntervalReading reading).
Proof.
  unfold parseIntervalReading, readingRead. cbn.
  repeat split.
  - destruct (truthyOptStr _); [apply parseInt_integral|exact I].
  - destruct (truthyOptStr _); [apply parseInt_integral|exact I].
  - apply parsePeriod_read.
Qed.

Lemma parseReadingType_read (element : node) (entryId : key) :
  readingTypeRead (parseReadingType element entryId).
Proof.
  unfold parseReadingType, readingTypeRead. cbn. split.
  - destruct (truthyOptStr _); [apply parseInt_integral|right; now exists 0].
  - apply intOrNull_nonzero.
Qed.

Lemma In_set {V} (m : Map V) (k k0 : key) (v v0 : V) :
  In (k, v) (set m k0 v0) -> v = v0 \/ In (k, v) m.
Proof.
  induction m as [|[k1 v1] m IH]; simpl.
  - intros [H|[]]. injection H as _ <-. now left.
  - destruct (key_eqb k0 k1); simpl; intros [H|H]; auto.
    + injection H as _ <-. now left.
    + destruct (IH H); auto.
Qed.


Lemma parseEntry_numbersRead (entry : node) (pd pd' : ParsedData) :
  parseEntry entry pd = Ok pd' -> numbersRead pd -> numbersRead pd'.
Proof.
  unfold parseEntry. intros H (Hib & Hrt). revert H.
  destruct (querySelector entry [Tag "content"]) as [content|];
    [|intro H; injection H as <-; now split].
  destruct (extractLinks entry) as [links|]; [|discriminate]. cbn [bind].
  destruct (querySelector content (espi "UsagePoint"));
    [intro H; injection H as <-; now split|].
  destruct (querySelector content (espi "MeterReading"));
    [intro H; injection H as <-; now split|].
  destruct (querySelector content (espi "IntervalBlock")) as [e|].
  { intro H. injection H as <-. split; [|exact Hrt]. simpl.
    intros k ib Hin reading Hr. apply In_set in Hin. destruct Hin as [->|Hin].
    - simpl in Hr. apply in_map_iff in Hr. destruct Hr as (n & <- & _).
      apply parseIntervalReading_read.
    - exact (Hib k ib Hin reading Hr). }
  destruct (querySelector content (espi "ReadingType")) as [e|].
  { intro H. injection H as <-. split; [exact Hib|]. simpl.
    intros k rt Hin. apply In_set in Hin. destruct Hin as [->|Hin].
    - apply parseReadingType_read.
    - exact (Hrt k rt Hin). }
  destruct (querySelector content (espi "LocalTimeParameters"));
    [intro H; injection H as <-; now split|].
  destruct (querySelector content usageSummarySelector);
    intro H; injection H as <-; now split.
Qed.

Lemma forOf_parseEntry_numbersRead (entries : list node) (pd pd' : ParsedData) :
  forOf entries parseEntry pd = Ok pd' -> numbersRead pd -> numbersRead pd'.
Proof.
  revert pd. induction entries as [|e entries IH]; simpl; intros pd H Hn.
  - now injection H as <-.
  - destruct (parseEntry e pd) as [pd1|] eqn:E; [|discriminate].
    simpl in H. apply (IH _ H). exact (parseEntry_numbersRead _ _ _ E Hn).
Qed.

Lemma parseXML_numbersRead (xmlDoc : node) (pd : ParsedData) :
  parseXML xmlDoc = Ok pd -> numbersRead pd.
Proof.
  intro H. apply parseXML_loop in H.
  destruct H as (pd0 & pd1 & E & -> & _ & _ & _ & I & R & _).
  apply (forOf_parseEntry_numbersRead _ _ _ E).
  split; [rewrite I|rewrite R]; intros ? ? [].
Qed.

(** The reading and the reading type of a reached reading of a document
    whose numbers are as read. *)
Lemma reached_numbersRead (pd : ParsedData) (it : Reached) :
  numbersRead pd -> In it (reachedReadings pd) ->
  readingRead (r_reading it) /\ optionally readingTypeRead (r_readingType it).
Proof.
  intros (Hib & Hrt) Hin. apply reached_inv in Hin.
  destruct Hin as (_ & _ & _ & _ & Ert & _ & ib & Eib & Hr).
  split.
  - apply get_Some_In in Eib. destruct Eib as (k & Hk). exact (Hib k ib Hk _ Hr).
  - rewrite Ert. destruct (r_relatedReadingTypes it) as [|rtId ?]; [exact I|].
    destruct (get (readingTypes pd) rtId) as [rt|] eqn:E; [|exact I].
    apply get_Some_In in E. destruct E as (k & Hk). exact (Hrt k rt Hk).
Qed.

(** The two time texts of a row, from the period of its reading. *)
Lemma flatRow_times upId usagePoint mrId rts rt ibId reading r :
  flatRow upId usagePoint mrId rts rt ibId reading = Ok r ->
  optionally periodRead (IntervalReading.timePeriod reading) ->
  wholeSeconds (start_time r) /\ wholeSeconds (end_time r) /\
  duration r =
    match IntervalReading.timePeriod reading with
    | Some tp => Period.duration tp
    | None => None
    end.
Proof.
  unfold GreenButtonParser.flatRow. intros H Hp.
  destruct (formatTimestamp _) as [st|] eqn:Est; simpl in H; [|discriminate].
  match type of H with bind ?e _ = _ => destruct e as [et|] eqn:Eet end;
    simpl in H; [|discriminate].
  injection H as <-. simpl.
  destruct (IntervalReading.timePeriod reading) as [tp|].
  - destruct Hp as (Hd & Hs).
    destruct (Period.start tp) as [s|].
    + destruct Hs as (zs & Hzs & ->).
      apply formatTimestamp_ofZ in Est; [|assumption]. subst st.
      split; [right; now exists zs|]. split; [|reflexivity].
      destruct (Period.duration tp) as [d|].
      * destruct Hd as (zd & Hzd & ->).
        cbn [truthyOptNum] in Eet. rewrite !truthyNum_ofZ in Eet.
        apply Z.eqb_neq in Hzs, Hzd. rewrite Hzs, Hzd in Eet.
        cbn [negb andb] in Eet. rewrite add_ofZ in Eet.
        destruct (Z.eq_dec (zs + zd) 0) as [E0|E0].
        -- rewrite E0 in Eet. injection Eet as <-. now left.
        -- apply formatTimestamp_ofZ in Eet; [|assumption].
           right. now exists (zs + zd).
      * simpl in Eet. rewrite andb_false_r in Eet. injection Eet as <-. now left.
    + simpl in Est, Eet. injection Est as <-. injection Eet as <-.
      repeat split; now left.
  - injection Est as <-. injection Eet as <-. repeat split; now left.
Qed.


End ParserNumbers.

Section ParserTimes.

Import JS Dom GreenButtonParser FeedSpec FeedFacts.

Variable otherToString : Q -> string.

Local Abbreviation toFlatData := (GreenButtonParser.toFlatData otherToString).
Local Abbreviation flatRow := (GreenButtonParser.flatRow otherToString).
Local Abbreviation rowOf := (FeedSpec.rowOf otherToString).

(** *** The error of toFlatData *)

Lemma formatTimestamp_cases (t : Z) :
  t <> 0 ->
  formatTimestamp (Some (ofZ t)) =
  if Z.abs t * 1000 <=? maxTime
  then Ok (Some (isoString (t * 1000)))
  else Throw "Invalid time value".
Proof.
  intros Ht. unfold formatTimestamp. rewrite truthyNum_ofZ.
  apply Z.eqb_neq in Ht. rewrite Ht. simpl negb. cbv iota.
  rewrite mul_ofZ. unfold dateToISOString, timeClip, ofZ.
  replace (Qle_bool (Qabs (inject_Z (t * 1000))) (inject_Z maxTime))
    with (Z.abs t * 1000 <=? maxTime).
  - destruct (_ <=? _); simpl; [|reflexivity]. now rewrite Z.quot_1_r.
  - unfold Qle_bool, Qabs, inject_Z. simpl Qnum. simpl Qden.
    rewrite !Z.mul_1_r, Z.abs_mul. reflexivity.
Qed.

Lemma not_outOfRange_0 : ~ outOfRange 0.
Proof. unfold outOfRange, maxTime. simpl. lia. Qed.

(** The undatable readings among those whose period is as read. *)
Lemma undatable_read (reading : IntervalReading.t) (tp : Period.t) (s : Z)
  (d : option number) :
  IntervalReading.timePeriod reading = Some tp ->
  Period.start tp = Some (ofZ s) -> Period.duration tp = d ->
  (undatable reading <->
   outOfRange s \/ exists z, d = Some (ofZ z) /\ outOfRange (s + z)).
Proof.
  intros Htp Hs Hd. unfold undatable. split.
  - intros (tp' & s' & Htp' & Hs' & Hor).
    rewrite Htp in Htp'. injection Htp' as <-.
    rewrite Hs in Hs'. injection Hs' as <-.
    now rewrite Hd in Hor.
  - intro Hor. exists tp, s. rewrite Hd. auto.
Qed.

Lemma flatRow_throws upId usagePoint mrId rts rt ibId reading :
  optionally periodRead (IntervalReading.timePeriod reading) ->
  ((exists m, flatRow upId usagePoint mrId rts rt ibId reading = Throw m) <->
   undatable reading) /\
  (forall m, flatRow upId usagePoint mrId rts rt ibId reading = Throw m ->
     m = "Invalid time value").
Proof.
  unfold GreenButtonParser.flatRow. intro Hp.
  assert (Hno : forall (r : FlatRow), ~ exists m, @Ok FlatRow r = Throw m)
    by (intros r (m & H); discriminate).
  destruct (IntervalReading.timePeriod reading) as [tp|] eqn:Etp.
  - destruct Hp as (Hd & Hs).
    destruct (Period.start tp) as [s|] eqn:Es.
    + destruct Hs as (zs & Hzs & ->).
      rewrite (formatTimestamp_cases zs Hzs).
      destruct (Z.leb_spec (Z.abs zs * 1000) maxTime) as [Hle|Hgt].
      * cbn [bind].
        destruct (Period.duration tp) as [d|] eqn:Ed.
        -- destruct Hd as (zd & Hzd & ->).
           rewrite (undatable_read reading tp zs _ Etp Es Ed).
           cbn [truthyOptNum]. rewrite !truthyNum_ofZ.
           pose proof Hzs as Hzs'. pose proof Hzd as Hzd'.
           apply Z.eqb_neq in Hzs', Hzd'. rewrite Hzs', Hzd'.
           cbn [negb andb]. rewrite add_ofZ.
           destruct (Z.eq_dec (zs + zd) 0) as [E0|E0].
           ++ rewrite E0. change (formatTimestamp (Some (ofZ 0))) with (@Ok (option string) None).
              cbn [bind]. split; [|discriminate]. split.
              ** intro H. now apply Hno in H.
              ** intros [Ho|(z & Hz & Ho)].
                 --- unfold outOfRange in Ho. lia.
                 --- injection Hz as <-.
                     rewrite E0 in Ho. now apply not_outOfRange_0 in Ho.
           ++ rewrite (formatTimestamp_cases _ E0).
              destruct (Z.leb_spec (Z.abs (zs + zd) * 1000) maxTime) as [Hle2|Hgt2].
              ** cbn [bind]. split; [|discriminate]. split.
                 --- intro H. now apply Hno in H.
                 --- intros [Ho|(z & Hz & Ho)].
                     +++ unfold outOfRange in Ho. lia.
                     +++ injection Hz as <-.
                         unfold outOfRange in Ho. lia.
              ** cbn [bind]. split; [|intros m H; now injection H as <-]. split.
                 --- intros _. right. exists zd. split; [reflexivity|exact Hgt2].
                 --- intros _. eexists. reflexivity.
        -- rewrite (undatable_read reading tp zs _ Etp Es Ed).
           cbn [truthyOptNum]. rewrite andb_false_r. cbn [bind].
           split; [|discriminate]. split.
           ++ intro H. now apply Hno in H.
           ++ intros [Ho|(z & Hz & Ho)]; [|discriminate].
              unfold outOfRange in Ho. lia.
      * rewrite (undatable_read reading tp zs _ Etp Es eq_refl).
        cbn [bind]. split; [|intros m H; now injection H as <-]. split.
        -- intros _. left. exact Hgt.
        -- intros _. eexists. reflexivity.
    + cbn [formatTimestamp truthyOptNum andb bind]. split; [|discriminate]. split.
      * intro H. now apply Hno in H.
      * intros (tp' & s' & Htp & Hs' & _). rewrite Etp in Htp.
        injection Htp as <-. rewrite Es in Hs'. discriminate.
  - cbn [formatTimestamp bind]. split; [|discriminate]. split.
    + intro H. now apply Hno in H.
    + intros (tp' & s' & Htp & _). rewrite Etp in Htp. discriminate.
Qed.

Lemma mapM_throws {A B} (f : A -> result B) (l : list A) (m : string) :
  mapM f l = Throw m -> exists x, In x l /\ f x = Throw m.
Proof.
  induction l as [|x l IH]; simpl; [discriminate|].
  destruct (f x) as [y|m1] eqn:E; simpl.
  - destruct (mapM f l); simpl; [discriminate|].
    intro H. injection H as <-. destruct (IH eq_refl) as (x' & Hin & Hx').
    exists x'. auto.
  - intro H. injection H as <-. exists x. auto.
Qed.

Lemma mapM_throws_at {A B} (f : A -> result B) (l : list A) (x : A) (m : string) :
  In x l -> f x = Throw m -> exists m', mapM f l = Throw m'.
Proof.
  induction l as [|y l IH]; simpl; [intros []|].
  intros [->|Hin] Hx.
  - rewrite Hx. simpl. eauto.
  - destruct (f y); simpl; [|eauto].
    destruct (IH Hin Hx) as (m' & ->). simpl. eauto.
Qed.

(** X5: for a document read by [parseXML], [toFlatData] throws exactly
    when a reading it reaches has a start, or a start plus duration, of
    more than 8 640 000 000 000 seconds in magnitude; the message is the
    one of [toISOString], and no row is returned. *)
Theorem toFlatData_throws_on_times_out_of_range (xmlDoc : node) (pd : ParsedData) :
  parseXML xmlDoc = Ok pd ->
  ((exists m, toFlatData pd = Throw m) <->
   exists it, In it (reachedReadings pd) /\ undatable (r_reading it)) /\
  (forall m, toFlatData pd = Throw m -> m = "Invalid time value").
Proof.
  intro Hparse. apply parseXML_numbersRead in Hparse.
  rewrite (toFlatData_traversal otherToString pd).
  assert (Hrow : forall it, In it (reachedReadings pd) ->
            ((exists m, rowOf it = Throw m) <-> undatable (r_reading it)) /\
            (forall m, rowOf it = Throw m -> m = "Invalid time value")).
  { intros it Hit. apply flatRow_throws.
    destruct (reached_numbersRead pd it Hparse Hit) as ((_ & _ & Hp) & _).
    exact Hp. }
  split; [split|].
  - intros (m & H). apply mapM_throws in H. destruct H as (it & Hit & Hm).
    exists it. split; [assumption|]. apply (Hrow it Hit). eauto.
  - intros (it & Hit & Hu). apply (Hrow it Hit) in Hu. destruct Hu as (m & Hm).
    exact (mapM_throws_at _ _ _ _ Hit Hm).
  - intros m H. apply mapM_throws in H. destruct H as (it & Hit & Hm).
    exact (proj2 (Hrow it Hit) m Hm).
Qed.

End ParserTimes.

(** The list of key [k] after a loop over the entries of a map, at the
    entry of [k]. *)
Ltac entry_of_loop k v Hin Hnd :=
  match goal with
  | |- context [JS.get (fold_left ?b ?es ?m0) k] =>
      let Hloop := fresh "Hloop" in
      let M := fresh "M" in
      assert (Hloop : JS.get (fold_left b es m0) k = JS.get (b m0 (k, v)) k);
      [ refine (loop_over_entries b es _ _ Hnd m0 k v Hin)
      | revert Hloop; generalize (fold_left b es m0); intros M Hloop;
        cbv beta iota in Hloop; rewrite filter_nonempty in Hloop ]
  end.

Section ParserRowCount.

Import JS Dom GreenButtonParser FeedSpec FeedFacts.

Variable otherToString : Q -> string.

Local Abbreviation toFlatData := (GreenButtonParser.toFlatData otherToString).
Local Abbreviation rowOf := (FeedSpec.rowOf otherToString).

(** *** The number of rows *)

(** The related entities of a usage point and of a meter reading of the
    collections, after [buildRelationships]: all of them, or none. *)
Lemma related_all_or_none (pd : ParsedData) :
  relationships pd = emptyRelationships ->
  NoDup (keys (usagePoints pd)) -> NoDup (keys (meterReadings pd)) ->
  (forall upId up, In (upId, up) (usagePoints pd) ->
     getOrEmpty
       (usagePointToMeterReadings (relationships (buildRelationships pd))) upId
     = if hasLinkTo (UsagePoint.links up) "MeterReading"
       then keys (meterReadings pd) else []) /\
  (forall mrId mr, In (mrId, mr) (meterReadings pd) ->
     getOrEmpty
       (meterReadingToIntervalBlocks (relationships (buildRelationships pd))) mrId
     = if hasLinkTo (MeterReading.links mr) "IntervalBlock"
       then keys (intervalBlocks pd) else []).
Proof.
  intros Hrel Hup Hmr. unfold buildRelationships, getOrEmpty. rewrite Hrel.
  cbv zeta.
  cbn [relationships withRelationships usagePointToMeterReadings
       meterReadingToIntervalBlocks meterReadingToReadingTypes
       emptyRelationships usagePoints meterReadings intervalBlocks readingTypes].
  split.
  - intros upId up Hin. entry_of_loop upId up Hin Hup.
    + intros m [k0 v0] k Hk. cbn [fst] in Hk. cbv beta iota.
      destruct (Nat.ltb _ _); [|reflexivity].
      rewrite fold_push_other by assumption. now apply get_set_other.
    + intros m m' [k0 v0] Hm. cbn [fst] in *. cbv beta iota.
      destruct (Nat.ltb _ _); [|exact Hm].
      rewrite !(fold_push_get _ _ _ []); try reflexivity; apply get_set_same.
    + fold (hasLinkTo (UsagePoint.links up) "MeterReading") in Hloop.
      rewrite Hloop.
      destruct (hasLinkTo _ _); [|reflexivity].
      now rewrite (fold_push_get _ _ _ []) by apply get_set_same.
  - intros mrId mr Hin. entry_of_loop mrId mr Hin Hmr.
    + intros m [k0 v0] k Hk. cbn [fst] in Hk. cbv beta iota.
      destruct (Nat.ltb _ _); [|reflexivity].
      rewrite fold_push_other by assumption. now apply get_set_other.
    + intros m m' [k0 v0] Hm. cbn [fst] in *. cbv beta iota.
      destruct (Nat.ltb _ _); [|exact Hm].
      rewrite !(fold_push_get _ _ _ []); try reflexivity; apply get_set_same.
    + fold (hasLinkTo (MeterReading.links mr) "IntervalBlock") in Hloop.
      rewrite Hloop.
      destruct (hasLinkTo _ _); [|reflexivity].
      now rewrite (fold_push_get _ _ _ []) by apply get_set_same.
Qed.

Lemma list_sum_filter {A} (p : A -> bool) (c : nat) (l : list A) :
  list_sum (map (fun x => if p x then c else 0%nat) l)
  = (List.length (filter p l) * c)%nat.
Proof.
  induction l as [|x l IH]; simpl; [reflexivity|].
  rewrite IH. destruct (p x); simpl; lia.
Qed.

Lemma length_flat_map_sum {A B} (f : A -> list B) (l : list A) :
  List.length (flat_map f l) = list_sum (map (fun x => List.length (f x)) l).
Proof.
  induction l as [|x l IH]; simpl; [reflexivity|].
  now rewrite length_app, IH.
Qed.

Lemma list_sum_keys {V} (m : Map V) (f : key -> nat) (g : key * V -> nat) :
  (forall e, In e m -> f (fst e) = g e) ->
  list_sum (map f (keys m)) = list_sum (map g m).
Proof.
  intro H. unfold keys. rewrite map_map. f_equal. now apply map_ext_in.
Qed.

(** The readings the traversal reaches, counted. *)
Lemma reached_count (pd : ParsedData) :
  relationships pd = emptyRelationships ->
  NoDup (keys (usagePoints pd)) -> NoDup (keys (meterReadings pd)) ->
  NoDup (keys (intervalBlocks pd)) ->
  List.length (reachedReadings (buildRelationships pd))
  = (linkedUsagePoints pd * (linkedMeterReadings pd * totalReadings pd))%nat.
Proof.
  intros Hrel Hup Hmr Hib.
  destruct (related_all_or_none pd Hrel Hup Hmr) as (Hu & Hm).
  unfold reachedReadings.
  change (usagePoints (buildRelationships pd)) with (usagePoints pd).
  change (meterReadings (buildRelationships pd)) with (meterReadings pd).
  change (intervalBlocks (buildRelationships pd)) with (intervalBlocks pd).
  change (readingTypes (buildRelationships pd)) with (readingTypes pd).
  cbv zeta.
  rewrite length_flat_map_sum.
  unfold linkedUsagePoints. rewrite <- list_sum_filter.
  f_equal. apply map_ext_in. intros [upId up] Hin. cbn [fst snd].
  rewrite (Hu upId up Hin).
  destruct (hasLinkTo (UsagePoint.links up) "MeterReading"); [|reflexivity].
  rewrite length_flat_map_sum.
  unfold linkedMeterReadings. rewrite <- list_sum_filter.
  apply list_sum_keys. intros [mrId mr] Hinm. cbn [fst snd].
  rewrite (get_In _ _ _ Hmr Hinm).
  rewrite (Hm mrId mr Hinm).
  destruct (hasLinkTo (MeterReading.links mr) "IntervalBlock"); [|reflexivity].
  rewrite length_flat_map_sum. unfold totalReadings.
  apply list_sum_keys. intros [ibId ib] Hini. cbn [fst snd].
  rewrite (get_In _ _ _ Hib Hini). now rewrite length_map.
Qed.

(** X6: the rows of a document read by [parseXML] number the product of
    its usage points with a link to meter readings, its meter readings
    with a link to interval blocks, and all interval readings of all its
    interval blocks: every such usage point gets a row for every reading of
    every block under every such meter reading, whatever the links point
    to. *)
Theorem rows_are_the_product_of_the_linked (xmlDoc : node) (pd : ParsedData)
  (rows : list FlatRow) :
  parseXML xmlDoc = Ok pd -> toFlatData pd = Ok rows ->
  List.length rows
  = (linkedUsagePoints pd * linkedMeterReadings pd * totalReadings pd)%nat.
Proof.
  intros Hparse Hflat.
  destruct (parseXML_distinct _ _ Hparse) as (_ & _ & Hib & _).
  destruct (parseXML_collected _ _ Hparse) as (pd0 & -> & Hrel & Hup & Hmr).
  rewrite (toFlatData_traversal otherToString) in Hflat.
  apply mapM_Forall2, Forall2_length in Hflat. rewrite <- Hflat.
  rewrite reached_count by assumption.
  change (linkedUsagePoints (buildRelationships pd0)) with (linkedUsagePoints pd0).
  change (linkedMeterReadings (buildRelationships pd0)) with (linkedMeterReadings pd0).
  change (totalReadings (buildRelationships pd0)) with (totalReadings pd0).
  lia.
Qed.

End ParserRowCount.

Section ParserLabels.

Import JS Dom GreenButtonParser FeedSpec FeedFacts.

Variable otherToString : Q -> string.

Local Abbreviation toFlatData := (GreenButtonParser.toFlatData otherToString).
Local Abbreviation flatRow := (GreenButtonParser.flatRow otherToString).
Local Abbreviation rowOf := (FeedSpec.rowOf otherToString).

(** *** The labels of a row *)

(** What holds of every usage point and of every reading type that
    [parseEntry] stores holds of those of the document. *)
Lemma parseXML_entities (Pup : UsagePoint.t -> Prop) (Prt : ReadingType.t -> Prop)
  (xmlDoc : node) (pd : ParsedData) :
  (forall e entryId links, Pup (parseUsagePoint e entryId links)) ->
  (forall e entryId, Prt (parseReadingType e entryId)) ->
  parseXML xmlDoc = Ok pd ->
  (forall k up, In (k, up) (usagePoints pd) -> Pup up) /\
  (forall k rt, In (k, rt) (readingTypes pd) -> Prt rt).
Proof.
  intros Hup Hrt H. apply parseXML_loop in H.
  destruct H as (pd0 & pd1 & E & -> & _ & U & _ & _ & R & _).
  change (usagePoints (buildRelationships pd1)) with (usagePoints pd1).
  change (readingTypes (buildRelationships pd1)) with (readingTypes pd1).
  assert (H0 : (forall k up, In (k, up) (usagePoints pd0) -> Pup up) /\
               (forall k rt, In (k, rt) (readingTypes pd0) -> Prt rt))
    by (rewrite U, R; split; intros ? ? []).
  clear U R. revert E H0. generalize (entriesOf xmlDoc). intro entries. revert pd0.
  induction entries as [|entry entries IH]; simpl; intros pd0 E H0.
  - now injection E as <-.
  - destruct (parseEntry entry pd0) as [pd2|] eqn:E2; [|discriminate].
    simpl in E. apply (IH pd2 E). clear IH E.
    destruct H0 as (Hu & Hr). revert E2. unfold parseEntry.
    destruct (querySelector entry [Tag "content"]) as [content|];
      [|intro H; injection H as <-; now split].
    destruct (extractLinks entry) as [links|]; [|discriminate]. cbn [bind].
    destruct (querySelector content (espi "UsagePoint")) as [e|].
    { intro H. injection H as <-. split; [|exact Hr]. simpl.
      intros k up Hin. apply In_set in Hin. destruct Hin as [->|Hin]; eauto. }
    destruct (querySelector content (espi "MeterReading"));
      [intro H; injection H as <-; now split|].
    destruct (querySelector content (espi "IntervalBlock"));
      [intro H; injection H as <-; now split|].
    destruct (querySelector content (espi "ReadingType")) as [e|].
    { intro H. injection H as <-. split; [exact Hu|]. simpl.
      intros k rt Hin. apply In_set in Hin. destruct Hin as [->|Hin]; eauto. }
    destruct (querySelector content (espi "LocalTimeParameters"));
      [intro H; injection H as <-; now split|].
    destruct (querySelector content usageSummarySelector);
      intro H; injection H as <-; now split.
Qed.

Lemma describe_label (table : list (Z * string)) (n : number) :
  labelOf table (describe table n).
Proof.
  unfold describe, labelOf. destruct n as [|q]; [now left|].
  destruct (isInteger q); [|now left].
  destruct (find _ table) as [e|] eqn:E; [|now left].
  right. apply find_some in E. apply in_map. tauto.
Qed.

Lemma coded_label (table : list (Z * string)) (text : option string) :
  optionally (fun c => labelOf table (Coded.description c)) (coded table text).
Proof.
  unfold coded. destruct (truthyOptStr text); [apply describe_label|exact I].
Qed.

(** The service category of a row. *)
Lemma flatRow_service_category upId usagePoint mrId rts rt ibId reading r :
  flatRow upId usagePoint mrId rts rt ibId reading = Ok r ->
  service_category r
  = option_map ServiceCategory.description (UsagePoint.serviceCategory usagePoint).
Proof.
  unfold GreenButtonParser.flatRow. intro H.
  destruct (formatTimestamp _) as [st|]; simpl in H; [|discriminate].
  match type of H with bind ?e _ = _ => destruct e as [et|] end;
    simpl in H; [|discriminate].
  now injection H as <-.
Qed.

(** X18: the three label columns of a row read from a document hold
    labels of the tables of the parser only: [service_category],
    [commodity] and [uom] are [null], a label of their table, or Unknown
    for a code the table does not have; the code itself never shows. *)
Theorem rows_hold_labels_of_the_tables (xmlDoc : node) (pd : ParsedData)
  (rows : list FlatRow) (r : FlatRow) :
  parseXML xmlDoc = Ok pd -> toFlatData pd = Ok rows -> In r rows ->
  optionally (labelOf SERVICE_CATEGORIES) (service_category r) /\
  optionally (labelOf COMMODITY_TYPES) (commodity r) /\
  optionally (labelOf UOM_TYPES) (uom r).
Proof.
  intros Hparse Hflat Hin.
  destruct (parseXML_entities
              (fun up => optionally
                           (fun sc => labelOf SERVICE_CATEGORIES
                                        (ServiceCategory.description sc))
                           (UsagePoint.serviceCategory up))
              (fun rt => optionally
                           (fun c => labelOf COMMODITY_TYPES (Coded.description c))
                           (ReadingType.commodity rt) /\
                         optionally
                           (fun c => labelOf UOM_TYPES (Coded.description c))
                           (ReadingType.uom rt))
              xmlDoc pd) as (Hup & Hrt); [| |assumption|].
  - intros e entryId links. unfold parseUsagePoint. cbn.
    destruct (truthyOptStr _); [apply describe_label|exact I].
  - intros e entryId. unfold parseReadingType. cbn. split; apply coded_label.
  - destruct (row_of_reached otherToString pd rows r Hflat Hin) as (it & Hit & Hrow).
    unfold FeedSpec.rowOf in Hrow.
    destruct (flatRow_fields otherToString _ _ _ _ _ _ _ _ Hrow)
      as (_ & _ & _ & _ & Hc & Hu & _).
    rewrite (flatRow_service_category _ _ _ _ _ _ _ _ Hrow), Hc, Hu.
    apply reached_inv in Hit.
    destruct Hit as (Hinup & _ & _ & _ & Ert & _).
    specialize (Hup _ _ Hinup).
    split.
    + destruct (UsagePoint.serviceCategory (r_usagePoint it)); [exact Hup|exact I].
    + rewrite Ert. destruct (r_relatedReadingTypes it) as [|rtId ?];
        [split; exact I|].
      destruct (get (readingTypes pd) rtId) as [rt|] eqn:E; [|split; exact I].
      apply get_Some_In in E. destruct E as (k & Hk).
      destruct (Hrt k rt Hk) as (H1 & H2).
      split; [destruct (ReadingType.commodity rt)|destruct (ReadingType.uom rt)];
        assumption || exact I.
Qed.

(** *** The reading type of a row *)

Lemma get_In_key {V} (m : Map V) (k : key) (v : V) :
  get m k = Some v -> In (k, v) m.
Proof.
  induction m as [|[k0 v0] m IH]; simpl; [discriminate|].
  destruct (key_eqb k k0) eqn:E.
  - intro H. injection H as ->. apply key_eqb_eq in E. subst. now left.
  - intro H. right. now apply IH.
Qed.

(** The related reading types of a meter reading of the collections,
    after [buildRelationships]: all of them, or none. *)
Lemma related_reading_types (pd : ParsedData) :
  relationships pd = emptyRelationships ->
  NoDup (keys (meterReadings pd)) ->
  forall mrId mr, In (mrId, mr) (meterReadings pd) ->
    getOrEmpty
      (meterReadingToReadingTypes (relationships (buildRelationships pd))) mrId
    = if hasLinkTo (MeterReading.links mr) "ReadingType"
      then keys (readingTypes pd) else [].
Proof.
  intros Hrel Hmr. unfold buildRelationships. rewrite Hrel.
  cbv zeta.
  cbn [relationships withRelationships usagePointToMeterReadings
       meterReadingToIntervalBlocks meterReadingToReadingTypes
       emptyRelationships usagePoints meterReadings intervalBlocks readingTypes].
  intros mrId mr Hin. unfold getOrEmpty at 1. entry_of_loop mrId mr Hin Hmr.
  - intros m [k0 v0] k Hk. cbn [fst] in Hk. cbv beta iota.
    destruct (Nat.ltb _ _); [|reflexivity].
    now rewrite fold_pushOrCreate_other.
  - intros m m' [k0 v0] Hm. cbn [fst] in *. cbv beta iota.
    destruct (Nat.ltb _ _); [|exact Hm].
    rewrite !fold_pushOrCreate_get. unfold getOrEmpty. now rewrite Hm.
  - fold (hasLinkTo (MeterReading.links mr) "ReadingType") in Hloop.
    rewrite Hloop.
    destruct (hasLinkTo _ _); [|reflexivity].
    rewrite fold_pushOrCreate_get.
    destruct (keys (readingTypes pd)); reflexivity.
Qed.

(** X19: all rows of a document that show a reading type show the same
    one, the first reading type of the document: a row has either no
    reading type (its meter reading has no link to reading types, or the
    document has none) or the identifier, commodity, unit, multiplier and
    interval length of the first reading type, whatever reading type the
    links of its meter reading name. *)
Theorem rows_share_the_first_reading_type (xmlDoc : node) (pd : ParsedData)
  (rows : list FlatRow) (r : FlatRow) :
  parseXML xmlDoc = Ok pd -> toFlatData pd = Ok rows -> In r rows ->
  (reading_type_id r = None /\ commodity r = None /\ uom r = None /\
   power_multiplier r = None /\ interval_length r = None) \/
  (reading_type_id r = firstReadingType pd /\
   exists rt,
     firstReadingTypeEntity pd = Some rt /\
     commodity r = option_map Coded.description (ReadingType.commodity rt) /\
     uom r = option_map Coded.description (ReadingType.uom rt) /\
     power_multiplier r = Some (ReadingType.powerOfTenMultiplier rt) /\
     interval_length r = ReadingType.intervalLength rt).
Proof.
  intros Hparse Hflat Hin.
  destruct (parseXML_collected _ _ Hparse) as (pd1 & -> & Hrel & _ & Hmr).
  destruct (row_of_reached otherToString _ rows r Hflat Hin) as (it & Hit & Hrow).
  unfold FeedSpec.rowOf in Hrow.
  destruct (flatRow_fields otherToString _ _ _ _ _ _ _ _ Hrow)
    as (_ & _ & _ & Hid & Hc & Hu & Hil & Hpm & _).
  apply reached_inv in Hit.
  destruct Hit as (_ & _ & (mr & Emr) & Erts & Ert & _).
  change (meterReadings (buildRelationships pd1)) with (meterReadings pd1) in Emr.
  change (readingTypes (buildRelationships pd1)) with (readingTypes pd1) in Ert.
  apply get_In_key in Emr.
  rewrite (related_reading_types pd1 Hrel Hmr _ _ Emr) in Erts.
  unfold firstReadingType, firstReadingTypeEntity.
  change (readingTypes (buildRelationships pd1)) with (readingTypes pd1).
  rewrite Hid, Hc, Hu, Hil, Hpm, Ert, Erts.
  destruct (hasLinkTo (MeterReading.links mr) "ReadingType"); [|left; repeat split].
  destruct (keys (readingTypes pd1)) as [|k ks] eqn:Ek; [left; repeat split|].
  destruct (get (readingTypes pd1) k) as [rt|] eqn:Eg.
  - right. split; [reflexivity|]. exists rt. repeat split.
  - exfalso. assert (Hk : In k (keys (readingTypes pd1))) by (rewrite Ek; now left).
    unfold keys in Hk. apply in_map_iff in Hk. destruct Hk as ((k' & v) & <- & Hv).
    clear - Eg Hv. simpl in Eg.
    induction (readingTypes pd1) as [|[k0 v0] m IH]; [contradiction|].
    simpl in Eg. destruct (key_eqb k' k0) eqn:Ee; [discriminate|].
    destruct Hv as [Hv|Hv]; [|now apply IH].
    injection Hv as -> ->. now rewrite key_eqb_refl in Ee.
Qed.

End ParserLabels.

(* ================================================================= *)
(** ** More on the exporter *)

Section ValidationCounters.

Import JS CSVExporter CsvSpec TableSpec.

Variable otherToString : Q -> string.

Local Abbreviation validateData := (CSVExporter.validateData otherToString).
Local Abbreviation countValue := (CSVExporter.countValue otherToString).
Local Abbreviation scanRow := (CSVExporter.scanRow otherToString).
Local Abbreviation scanFrom := (CSVExporter.scanFrom otherToString).
Local Abbreviation nullCells := TableSpec.nullCells.
Local Abbreviation blankCells := (TableSpec.blankCells otherToString).
Local Abbreviation blank := (TableSpec.blank otherToString).
Local Abbreviation shareWarning := (TableSpec.shareWarning otherToString).

(** *** The counters of validateData *)

Lemma countValue_counts (r : row) (s : Scan) (header : string) :
  nullCount (countValue r s header)
  = (nullCount s + if nullish (lookup r header) then 1 else 0)%nat /\
  emptyCount (countValue r s header)
  = (emptyCount s + if blank (lookup r header) then 1 else 0)%nat.
Proof.
  unfold CSVExporter.countValue, TableSpec.blank.
  destruct (lookup r header); simpl; try (split; lia);
    match goal with
    | |- context [String.eqb ?a ?b] => destruct (String.eqb a b)
    end; simpl; split; lia.
Qed.

Lemma fold_countValue_counts (r : row) (headers : list string) (s : Scan) :
  nullCount (fold_left (countValue r) headers s)
  = (nullCount s + List.length (filter (fun h => nullish (lookup r h)) headers))%nat /\
  emptyCount (fold_left (countValue r) headers s)
  = (emptyCount s + List.length (filter (fun h => blank (lookup r h)) headers))%nat.
Proof.
  revert s. induction headers as [|h headers IH]; intro s; simpl.
  - split; lia.
  - destruct (IH (countValue r s h)) as (-> & ->).
    destruct (countValue_counts r s h) as (-> & ->).
    destruct (nullish (lookup r h)), (blank (lookup r h)); simpl; split; lia.
Qed.

Lemma scanRow_counts (headers : list string) (s : Scan) (i : nat) (it : item) :
  nullCount (scanRow headers s i it) = (nullCount s + nullCells headers it)%nat /\
  emptyCount (scanRow headers s i it) = (emptyCount s + blankCells headers it)%nat.
Proof.
  destruct it as [v|r]; cbn [CSVExporter.scanRow TableSpec.nullCells
                              TableSpec.blankCells nullCount emptyCount];
    [split; lia|].
  match goal with
  | |- context [fold_left _ _ ?s1] =>
      destruct (fold_countValue_counts r headers s1) as (-> & ->)
  end.
  now destruct (negb _).
Qed.

Lemma scanFrom_counts (headers : list string) (items : list item) (i : nat)
  (s : Scan) :
  nullCount (scanFrom headers i items s)
  = (nullCount s + list_sum (map (nullCells headers) items))%nat /\
  emptyCount (scanFrom headers i items s)
  = (emptyCount s + list_sum (map (blankCells headers) items))%nat.
Proof.
  revert i s. induction items as [|it items IH]; intros i s; simpl.
  - split; lia.
  - destruct (IH (S i) (scanRow headers s i it)) as (-> & ->).
    destruct (scanRow_counts headers s i it) as (-> & ->). split; lia.
Qed.

Lemma cells_bound (headers : list string) (it : item) :
  (nullCells headers it + blankCells headers it <= List.length headers)%nat.
Proof.
  destruct it as [v|r]; simpl; [lia|].
  induction headers as [|h headers IH]; simpl; [lia|].
  unfold TableSpec.blank at 1.
  destruct (nullish (lookup r h)); simpl; [lia|].
  destruct (String.eqb _ _); simpl; lia.
Qed.

Lemma cells_bound_sum (headers : list string) (items : list item) :
  (list_sum (map (nullCells headers) items)
   + list_sum (map (blankCells headers) items)
   <= List.length items * List.length headers)%nat.
Proof.
  induction items as [|it items IH]; simpl; [lia|].
  pose proof (cells_bound headers it). lia.
Qed.


(** *** The warnings of validateData *)

Lemma fold_countValue_warnings (r : row) (headers : list string) (s : Scan) :
  scan_warnings (fold_left (countValue r) headers s) = scan_warnings s.
Proof.
  revert s. induction headers as [|h headers IH]; intro s; [reflexivity|].
  cbn [fold_left]. rewrite IH. unfold CSVExporter.countValue.
  destruct (lookup r h); try reflexivity;
    match goal with
    | |- context [String.eqb ?a ?b] => destruct (String.eqb a b)
    end; reflexivity.
Qed.

Lemma scanRow_warnings (headers : list string) (s : Scan) (i : nat) (it : item) :
  scan_warnings (scanRow headers s i it)
  = (scan_warnings s ++ rowWarning headers i it)%list.
Proof.
  destruct it as [v|r]; cbn [CSVExporter.scanRow TableSpec.rowWarning scan_warnings];
    [reflexivity|].
  rewrite fold_countValue_warnings.
  destruct (Nat.eqb _ _); cbn [negb scan_warnings];
    [now rewrite app_nil_r|reflexivity].
Qed.

Lemma scanFrom_warnings (headers : list string) (items : list item) (i : nat)
  (s : Scan) :
  scan_warnings (scanFrom headers i items s)
  = (scan_warnings s ++ rowWarnings headers i items)%list.
Proof.
  revert i s. induction items as [|it items IH]; intros i s;
    cbn [CSVExporter.scanFrom rowWarnings].
  - now rewrite app_nil_r.
  - now rewrite IH, scanRow_warnings, app_assoc.
Qed.

(** A share of more than ten per cent is more than a tenth. *)
Lemma share_above_ten (count cells : nat) :
  (count <= cells)%nat ->
  gt (percentage count cells) (ofZ 10) = Nat.ltb cells (10 * count).
Proof.
  intro Hle. unfold percentage, div, mul, gt, ofZ.
  destruct cells as [|k].
  - assert (count = 0%nat) by lia. subst count. reflexivity.
  - change (Qnum (inject_Z (Z.of_nat (S k))) =? 0) with false. cbv iota.
    match goal with
    | |- negb (Qle_bool ?x ?y) = _ => destruct (Qle_bool x y) eqn:E
    end; cbn [negb]; symmetry.
    + apply Nat.ltb_ge. apply Qle_bool_iff in E.
      rewrite !Qred_correct in E.
      unfold Qle, Qmult, Qdiv, Qinv, inject_Z in E. simpl in E. lia.
    + apply Nat.ltb_lt.
      assert (H : ~ (Qred (Qred (inject_Z (Z.of_nat count) / inject_Z (Z.of_nat (S k)))
                           * inject_Z 100) <= inject_Z 10)%Q).
      { intro H. apply Qle_bool_iff in H. congruence. }
      rewrite !Qred_correct in H.
      unfold Qle, Qmult, Qdiv, Qinv, inject_Z in H. simpl in H. lia.
Qed.


End ValidationCounters.

Section TableReader.

Import JS CSVExporter CsvSpec TableSpec.

Variable otherToString : Q -> string.

Local Abbreviation convertToCSV := (CSVExporter.convertToCSV otherToString).
Local Abbreviation field := (CSVExporter.field otherToString).
Local Abbreviation cellText := (TableSpec.cellText otherToString).
Local Abbreviation tableOf := (TableSpec.tableOf otherToString).

(** *** Reading a table back *)

(** The line of a record: its fields, quoted where needed, between
    commas. *)
Local Abbreviation lineOf fs := (join "," (map quoted fs)).

Lemma field_cellText (v : value) : field v = quoted (cellText v).
Proof. now destruct v. Qed.

Lemma lineOf_cons (f g : string) (fs : list string) (tail : string) :
  lineOf (f :: g :: fs) ++ tail
  = quoted f ++ String comma (lineOf (g :: fs) ++ tail).
Proof.
  unfold join. cbn [map String.concat].
  rewrite append_assoc. reflexivity.
Qed.

Lemma readRecords_last (fs : list string) :
  fs <> [] -> readRecords (List.length fs) (lineOf fs) = Some [fs].
Proof.
  induction fs as [|f fs IH]; [intro H; now contradiction H|]. intros _.
  destruct fs as [|g fs].
  - unfold join. cbn [map String.concat List.length readRecords].
    rewrite <- (append_empty_r (quoted f)), readField_quoted by now left.
    reflexivity.
  - rewrite <- (append_empty_r (lineOf (f :: g :: fs))), lineOf_cons.
    rewrite append_empty_r.
    change (List.length (f :: g :: fs)) with (S (List.length (g :: fs))).
    cbn [readRecords]. rewrite readField_quoted.
    + rewrite Ascii.eqb_refl, IH by discriminate. reflexivity.
    + right. exists comma. eexists. split; reflexivity.
Qed.

Lemma readRecords_more (fs : list string) (t : string) (n : nat)
  (recs : list (list string)) :
  fs <> [] -> readRecords n t = Some recs ->
  readRecords (List.length fs + n) (lineOf fs ++ String LF t) = Some (fs :: recs).
Proof.
  intros Hfs Ht. induction fs as [|f fs IH]; [now contradiction Hfs|].
  destruct fs as [|g fs].
  - unfold join. cbn [map String.concat List.length Nat.add readRecords].
    rewrite readField_quoted.
    + change (Ascii.eqb LF comma) with false. cbv iota.
      rewrite Ascii.eqb_refl, Ht. reflexivity.
    + right. exists LF. eexists. split; reflexivity.
  - rewrite lineOf_cons.
    change (List.length (f :: g :: fs) + n)%nat
      with (S (List.length (g :: fs) + n)).
    cbn [readRecords]. rewrite readField_quoted.
    + rewrite Ascii.eqb_refl, IH by discriminate. reflexivity.
    + right. exists comma. eexists. split; reflexivity.
Qed.

Lemma readRecords_lines (recs : list (list string)) :
  recs <> [] -> Forall (fun fs => fs <> []) recs ->
  readRecords (fieldCount recs)
    (join (char1 LF) (map (fun fs => lineOf fs) recs)) = Some recs.
Proof.
  induction recs as [|fs recs IH]; [intro H; now contradiction H|].
  intros _ Hall. inversion Hall as [|? ? Hfs Hrest]; subst.
  destruct recs as [|fs2 recs].
  - replace (fieldCount [fs]) with (List.length fs)
      by (unfold fieldCount; simpl; lia).
    now apply readRecords_last.
  - change (join (char1 LF) (map (fun fs0 => lineOf fs0) (fs :: fs2 :: recs)))
      with (lineOf fs
            ++ String LF (join (char1 LF) (map (fun fs0 => lineOf fs0) (fs2 :: recs)))).
    change (fieldCount (fs :: fs2 :: recs))
      with (List.length fs + fieldCount (fs2 :: recs))%nat.
    apply readRecords_more; [assumption|].
    apply IH; [discriminate|assumption].
Qed.

(** The text of [convertToCSV]: the lines of the table of the rows. *)
Lemma convertToCSV_lines (first : row) (rest : list row)
  (headers : option (list string)) :
  convertToCSV (Some (first :: rest)) headers
  = Ok (join (char1 LF)
          (map (fun fs => lineOf fs)
             (tableOf (csvHeaders headers first) (first :: rest)))).
Proof.
  unfold CSVExporter.convertToCSV. fold (csvHeaders headers first).
  generalize (csvHeaders headers first). intro hs.
  unfold CSVExporter.formatCSVRow. do 2 f_equal.
  unfold TableSpec.tableOf. rewrite (map_cons _ hs). f_equal.
  rewrite map_map. apply map_ext. intro r. rewrite map_map. f_equal.
  apply map_ext. intro h. apply field_cellText.
Qed.

Lemma tableOf_fields (hs : list string) (rows : list row) :
  hs <> [] -> Forall (fun fs => fs <> []) (tableOf hs rows).
Proof.
  intro Hhs. unfold TableSpec.tableOf. constructor; [assumption|].
  apply Forall_forall. intros fs Hin. apply in_map_iff in Hin.
  destruct Hin as (r & <- & _). destruct hs; [now contradiction Hhs|discriminate].
Qed.


Lemma join_empty_lines (k : nat) :
  join (char1 LF) ("" :: repeat "" k) = str (repeat LF k).
Proof.
  induction k as [|k IH]; [reflexivity|].
  change (join (char1 LF) ("" :: repeat "" (S k)))
    with (String LF (join (char1 LF) ("" :: repeat "" k))).
  now rewrite IH.
Qed.

(** X20: for rows whose first has no property, [convertToCSV] without
    headers writes no column at all, not the default columns of the
    constructor: the text is one line feed for every row, whatever the
    other rows hold. *)
Theorem convertToCSV_without_columns (rest : list row) :
  convertToCSV (Some ([] :: rest)) None
  = Ok (str (repeat LF (S (List.length rest)))).
Proof.
  unfold CSVExporter.convertToCSV, CSVExporter.formatCSVRow, Object_keys.
  cbn [map]. change (join "," []) with "".
  rewrite <- join_empty_lines. do 2 f_equal.
  change (repeat "" (S (List.length rest)))
    with ("" :: repeat "" (List.length rest)).
  f_equal. induction rest as [|r rest IH]; [reflexivity|].
  cbn [map List.length repeat]. now rewrite IH.
Qed.

End TableReader.

Section PreviewNotice.

Import JS CSVExporter CsvSpec GreenButtonApp.

(** *** The preview and its notice *)

Lemma length_slice0 (l : list row) (e : Z) :
  Z.of_nat (List.length (slice0 l e))
  = if e <? 0 then Z.max (Z.of_nat (List.length l) + e) 0
    else Z.min e (Z.of_nat (List.length l)).
Proof.
  unfold slice0. rewrite length_firstn.
  destruct (Z.ltb_spec e 0); lia.
Qed.

(** The preview of an array with at least one row. *)
Lemma generatePreview_rows (h : heap) (d : nat) (maxRows : Z) :
  deref h d <> [] ->
  let h' := fst (generatePreview h (Some d) maxRows) in
  let p := snd (generatePreview h (Some d) maxRows) in
  deref h' (rows p) = slice0 (deref h d) maxRows /\
  totalRows p = List.length (deref h d) /\
  isPreview p = (Z.of_nat (List.length (deref h d)) >? maxRows) /\
  headers p = Object_keys (hd [] (deref h d)).
Proof.
  intro Hne. unfold generatePreview.
  destruct (deref h d) as [|first rest] eqn:E; [now contradiction Hne|].
  unfold alloc. cbn [fst snd rows totalRows isPreview headers hd].
  rewrite deref_alloc_new. repeat split.
Qed.

(** X9: the flag [isPreview] of [generatePreview] is exact for every
    [maxRows], also a negative one: it is set exactly when the preview
    holds fewer rows than the data.  So the notice of the preview table,
    which a preview with headers gets when it is flagged, appears only
    when rows are left out, and the number it states is the number of
    rows left out, which is not 0; without a notice, the preview shows
    all rows or has no headers. *)
Theorem preview_flag_is_exact (h : heap) (data : option nat) (maxRows : Z) :
  let h' := fst (generatePreview h data maxRows) in
  let p := snd (generatePreview h data maxRows) in
  let shown := List.length (deref h' (rows p)) in
  (isPreview p = true <-> (shown < totalRows p)%nat) /\
  (forall d, data = Some d -> totalRows p = List.length (deref h d)) /\
  (forall text,
     previewNotice (headers p) (isPreview p) (totalRows p) shown = Some text ->
     exists k, (0 < k)%nat /\ (shown + k = totalRows p)%nat /\
       text = "... and " ++ ZtoString (Z.of_nat k) ++ " more rows") /\
  (previewNotice (headers p) (isPreview p) (totalRows p) shown = None ->
   shown = totalRows p \/ headers p = []).
Proof.
  intros h' p shown.
  assert (Hflag : isPreview p = true <-> (shown < totalRows p)%nat).
  { unfold shown, h', p.
    assert (Hempty : forall hh pp,
              (hh, pp) = (let '(h1, a) := alloc h [] in
                          (h1, {| headers := []; rows := a; totalRows := 0;
                                  isPreview := false |})) ->
              isPreview pp = true <->
              (List.length (deref hh (rows pp)) < totalRows pp)%nat).
    { intros hh pp H. unfold alloc in H. injection H as -> ->. simpl.
      split; [discriminate|lia]. }
    destruct data as [d|]; [|now apply Hempty; unfold generatePreview;
                               destruct (alloc h [])].
    destruct (deref h d) as [|first rest] eqn:E.
    - apply Hempty. unfold generatePreview. rewrite E. now destruct (alloc h []).
    - assert (Hne : deref h d <> []) by (rewrite E; discriminate).
      destruct (generatePreview_rows h d maxRows Hne) as (-> & -> & -> & _).
      pose proof (length_slice0 (deref h d) maxRows) as Hlen. revert Hlen.
      assert (Hpos : (0 < List.length (deref h d))%nat)
        by (rewrite E; simpl; lia).
      destruct (Z.ltb_spec maxRows 0); rewrite Z.gtb_ltb, Z.ltb_lt; lia. }
  assert (Hle : (shown <= totalRows p)%nat).
  { unfold shown, h', p.
    destruct data as [d|]; [|simpl; rewrite deref_alloc_new; simpl; lia].
    destruct (deref h d) as [|first rest] eqn:E.
    + unfold generatePreview. rewrite E. simpl. rewrite deref_alloc_new. simpl. lia.
    + assert (Hne : deref h d <> []) by (rewrite E; discriminate).
      destruct (generatePreview_rows h d maxRows Hne) as (-> & -> & _).
      pose proof (length_slice0 (deref h d) maxRows) as Hlen. revert Hlen.
      destruct (Z.ltb_spec maxRows 0); lia. }
  split; [exact Hflag|]. split; [|split].
  - intros d ->. unfold p, generatePreview.
    destruct (deref h d) as [|first rest] eqn:E; reflexivity.
  - unfold previewNotice. intro text.
    destruct (headers p) as [|h0 hs]; [discriminate|].
    destruct (isPreview p) eqn:Ep; [|discriminate].
    intro H. injection H as <-.
    assert (Hlt : (shown < totalRows p)%nat) by now apply Hflag.
    exists (totalRows p - shown)%nat. repeat split; try lia.
    replace (Z.of_nat (totalRows p - shown))
      with (Z.of_nat (totalRows p) - Z.of_nat shown) by lia.
    reflexivity.
  - unfold previewNotice.
    destruct (headers p) as [|h0 hs]; [now right|].
    destruct (isPreview p) eqn:Ep; [discriminate|].
    intros _. left.
    assert (Hge : ~ (shown < totalRows p)%nat)
      by (intro Hlt; apply Hflag in Hlt; congruence).
    lia.
Qed.

End PreviewNotice.

Section ExportOutcomes.

Import JS GreenButtonParser CSVExporter CsvSpec TableSpec CSVExport.

Variable otherToString : Q -> string.
Variable now : Z.
Variable browserDownload : string -> string -> result unit.

Local Abbreviation toFlatData := (GreenButtonParser.toFlatData otherToString).
Local Abbreviation convertToCSV := (CSVExporter.convertToCSV otherToString).
Local Abbreviation validateData := (CSVExporter.validateData otherToString).
Local Abbreviation tableOf := (TableSpec.tableOf otherToString).
Local Abbreviation exportGreenButtonData :=
  (CSVExport.exportGreenButtonData otherToString now browserDownload).
Local Abbreviation downloadCSV := (CSVExport.downloadCSV browserDownload).
Local Abbreviation metadataComments := (CSVExport.metadataComments now).

(** *** exportGreenButtonData *)

(** The three options with their defaults. *)
Local Abbreviation filenameOf options :=
  (match Options.filename options with
   | Some f => f
   | None => "green_button_data.csv"
   end).
Local Abbreviation downloadFileOf options :=
  (match Options.downloadFile options with
   | Some b => b
   | None => true
   end).
Local Abbreviation includeMetadataOf options :=
  (match Options.includeMetadata options with
   | Some b => b
   | None => false
   end).

Lemma Object_keys_toObject (r : FlatRow) : Object_keys (toObject r) = defaultHeaders.
Proof. reflexivity. Qed.

(** The rows of [toFlatData] pass [validateData] and [convertToCSV]. *)
Lemma flat_rows_are_valid (r : FlatRow) (rows : list FlatRow) :
  isValid (validateData (Array (map Object (map toObject (r :: rows))))) = true /\
  errors (validateData (Array (map Object (map toObject (r :: rows))))) = [] /\
  exists csv,
    convertToCSV (Some (map toObject (r :: rows))) None = Ok csv /\
    readRecords
      (fieldCount (tableOf defaultHeaders (map toObject (r :: rows)))) csv
    = Some (tableOf defaultHeaders (map toObject (r :: rows))).
Proof.
  split; [reflexivity|]. split; [reflexivity|].
  cbn [map]. eexists.
  split; [apply (convertToCSV_lines otherToString _ _ None)|].
  apply readRecords_lines; [discriminate|].
  apply tableOf_fields. discriminate.
Qed.

(** The export of a document, by the outcome of [toFlatData] and of the
    download. *)
Lemma export_cases (pd : ParsedData) (options : Options.t) :
  match toFlatData pd with
  | Throw m => exportGreenButtonData pd options = failure m
  | Ok [] =>
      exportGreenButtonData pd options
      = failure "Data validation failed: Data array is empty"
  | Ok ((r :: _) as rows) =>
      exists csv,
        convertToCSV (Some (map toObject rows)) None = Ok csv /\
        readRecords (fieldCount (tableOf defaultHeaders (map toObject rows))) csv
        = Some (tableOf defaultHeaders (map toObject rows)) /\
        let content :=
          if includeMetadataOf options
          then join (char1 LF)
                 (metadataComments (metadata pd) (List.length rows))
               ++ char1 LF ++ csv
          else csv in
        match (if downloadFileOf options
               then browserDownload content (filenameOf options)
               else Ok tt) with
        | Ok _ =>
            exportGreenButtonData pd options =
            {| ExportResult.success := true;
               ExportResult.error := None;
               ExportResult.csvContent := Some content;
               ExportResult.filename := Some (filenameOf options);
               ExportResult.stats :=
                 Some {| ExportStats.totalRows := List.length rows;
                         ExportStats.totalColumns := 17;
                         ExportStats.fileSize := blobSize content |};
               ExportResult.validation :=
                 Some (validateData (Array (map Object (map toObject rows)))) |}
        | Throw m =>
            exportGreenButtonData pd options
            = failure ("Failed to download CSV file: " ++ m)
        end
  end.
Proof.
  unfold CSVExport.exportGreenButtonData.
  destruct (toFlatData pd) as [[|r rows]|m]; [reflexivity| |reflexivity].
  destruct (flat_rows_are_valid r rows) as (Hv & _ & csv & Hcsv & Hread).
  exists csv. split; [exact Hcsv|]. split; [exact Hread|].
  cbv zeta. cbn [bind]. rewrite Hv. cbn [negb bind]. rewrite Hcsv. cbn [bind].
  rewrite !length_map.
  destruct (downloadFileOf options).
  - unfold CSVExport.downloadCSV. cbv beta iota zeta.
    destruct (browserDownload _ _) as [u|m]; reflexivity.
  - reflexivity.
Qed.

(** X10: when [exportGreenButtonData] reports success, the document gave
    at least one row, the validation it returns accepted the rows, and
    the content is the CSV text of the rows, after the comment lines when
    metadata was asked for; the text reads back as the seventeen column
    names, in the order of the object literal, followed by one record for
    every row; the statistics count these rows and seventeen columns. *)
Theorem export_success (pd : ParsedData) (options : Options.t) :
  ExportResult.success (exportGreenButtonData pd options) = true ->
  exists rows csv content v,
    toFlatData pd = Ok rows /\ rows <> [] /\
    convertToCSV (Some (map toObject rows)) None = Ok csv /\
    readRecords (fieldCount (tableOf defaultHeaders (map toObject rows))) csv
    = Some (tableOf defaultHeaders (map toObject rows)) /\
    content =
      (if includeMetadataOf options
       then join (char1 LF) (metadataComments (metadata pd) (List.length rows))
            ++ char1 LF ++ csv
       else csv) /\
    ExportResult.csvContent (exportGreenButtonData pd options) = Some content /\
    ExportResult.filename (exportGreenButtonData pd options)
    = Some (filenameOf options) /\
    ExportResult.error (exportGreenButtonData pd options) = None /\
    ExportResult.stats (exportGreenButtonData pd options)
    = Some {| ExportStats.totalRows := List.length rows;
              ExportStats.totalColumns := 17;
              ExportStats.fileSize := blobSize content |} /\
    ExportResult.validation (exportGreenButtonData pd options) = Some v /\
    isValid v = true /\ errors v = [] /\
    stats_totalRows (stats v) = List.length rows /\
    totalColumns (stats v) = 17%nat.
Proof.
  pose proof (export_cases pd options) as H.
  destruct (toFlatData pd) as [[|r rows]|m].
  - rewrite H. discriminate.
  - destruct H as (csv & Hcsv & Hread & H). cbv zeta in H.
    match type of H with
    | match ?d with _ => _ end => destruct d as [u|m]
    end; rewrite H; [|discriminate].
    intros _.
    exists (r :: rows), csv,
      (if includeMetadataOf options
       then join (char1 LF)
              (metadataComments (metadata pd) (List.length (r :: rows)))
            ++ char1 LF ++ csv
       else csv),
      (validateData (Array (map Object (map toObject (r :: rows))))).
    cbn [ExportResult.csvContent ExportResult.filename
      ExportResult.error ExportResult.stats ExportResult.validation].
    split; [reflexivity|]. split; [discriminate|].
    split; [exact Hcsv|]. split; [exact Hread|].
    repeat (split; [reflexivity|]).
    split; simpl; rewrite ?length_map; reflexivity.
  - rewrite H. discriminate.
Qed.

(** X11: [exportGreenButtonData] never throws; it reports a failure in
    three cases only: [toFlatData] threw (the message is passed on), the
    document gave no row (the only validation error that can occur), or
    the download of the content threw.  The error of [convertToCSV] cannot
    occur.  A failure carries no content, file name, statistics or
    validation. *)
Theorem export_failure (pd : ParsedData) (options : Options.t) :
  ExportResult.success (exportGreenButtonData pd options) = false ->
  ExportResult.csvContent (exportGreenButtonData pd options) = None /\
  ExportResult.filename (exportGreenButtonData pd options) = None /\
  ExportResult.stats (exportGreenButtonData pd options) = None /\
  ExportResult.validation (exportGreenButtonData pd options) = None /\
  exists message,
    ExportResult.error (exportGreenButtonData pd options) = Some message /\
    (toFlatData pd = Throw message \/
     (toFlatData pd = Ok [] /\
      message = "Data validation failed: Data array is empty") \/
     (exists rows csv m,
        toFlatData pd = Ok rows /\ rows <> [] /\
        convertToCSV (Some (map toObject rows)) None = Ok csv /\
        downloadFileOf options = true /\
        browserDownload
          (if includeMetadataOf options
           then join (char1 LF)
                  (metadataComments (metadata pd) (List.length rows))
                ++ char1 LF ++ csv
           else csv)
          (filenameOf options) = Throw m /\
        message = "Failed to download CSV file: " ++ m)).
Proof.
  pose proof (export_cases pd options) as H.
  destruct (toFlatData pd) as [[|r rows]|m].
  - rewrite H. intros _. repeat split. eexists. split; [reflexivity|]. auto.
  - destruct H as (csv & Hcsv & Hread & H). cbv zeta in H.
    destruct (downloadFileOf options) eqn:Ed.
    + match type of H with
      | match ?d with _ => _ end => destruct d as [u|m] eqn:Eb
      end; rewrite H; [discriminate|].
      intros _. repeat split. eexists. split; [reflexivity|].
      right. right. exists (r :: rows), csv, m.
      split; [reflexivity|]. split; [discriminate|].
      split; [exact Hcsv|]. split; [reflexivity|]. split; [exact Eb|reflexivity].
    + rewrite H. discriminate.
  - rewrite H. intros _. repeat split. eexists. split; [reflexivity|]. auto.
Qed.

End ExportOutcomes.

Section SummaryStatistics.

Import JS CSVExporter CSVExport SummarySpec.

Variable Date_parse : string -> option Z.

Local Abbreviation generateSummaryStats := (CSVExport.generateSummaryStats Date_parse).
Local Abbreviation tally := (CSVExport.tally Date_parse).
Local Abbreviation newDate := (CSVExport.newDate Date_parse).
Local Abbreviation datesOf := (SummarySpec.datesOf Date_parse).

(** *** generateSummaryStats *)

(** The fields of the loop, one at a time. *)
Lemma tally_sets (rows : list row) (st : Totals) :
  usagePointSet (fold_left tally rows st)
  = fold_left addTruthy (column "usage_point_id" rows) (usagePointSet st) /\
  meterReadingSet (fold_left tally rows st)
  = fold_left addTruthy (column "meter_reading_id" rows) (meterReadingSet st) /\
  commoditySet (fold_left tally rows st)
  = fold_left addTruthy (column "commodity" rows) (commoditySet st).
Proof.
  revert st. induction rows as [|r rows IH]; intro st; [repeat split|].
  cbn [fold_left column map]. destruct (IH (tally st r)) as (-> & -> & ->).
  repeat split.
Qed.

Lemma tally_totals (rows : list row) (st : Totals) :
  energy (fold_left tally rows st)
  = fold_left add (numbersOf (column "value" rows)) (energy st) /\
  spent (fold_left tally rows st)
  = fold_left add (numbersOf (column "cost" rows)) (spent st).
Proof.
  revert st. induction rows as [|r rows IH]; intro st; [repeat split|].
  cbn [fold_left column map]. destruct (IH (tally st r)) as (-> & ->).
  unfold numbersOf. cbn [flat_map]. rewrite !fold_left_app.
  cbn [CSVExport.tally energy spent]. unfold plusNumber.
  split; [destruct (lookup r "value")|destruct (lookup r "cost")]; reflexivity.
Qed.

Lemma tally_range (rows : list row) (st : Totals) :
  rangeMin (fold_left tally rows st)
  = fold_left minStep (datesOf (column "start_time" rows)) (rangeMin st) /\
  rangeMax (fold_left tally rows st)
  = fold_left maxStep (datesOf (column "start_time" rows)) (rangeMax st).
Proof.
  revert st. induction rows as [|r rows IH]; intro st; [repeat split|].
  cbn [fold_left column map]. destruct (IH (tally st r)) as (-> & ->).
  unfold SummarySpec.datesOf. cbn [filter].
  cbn [CSVExport.tally rangeMin rangeMax].
  destruct (truthy (lookup r "start_time")); [|split; reflexivity].
  cbn [map fold_left]. unfold minStep, maxStep.
  split; [destruct (rangeMin st) as [m|]|destruct (rangeMax st) as [m|]];
    try reflexivity; now destruct (Date_lt _ _).
Qed.

Lemma minStep_invalid (ds : list Date) :
  fold_left minStep ds (Some None) = Some None.
Proof.
  induction ds as [|d ds IH]; [reflexivity|]. cbn [fold_left minStep].
  now destruct d.
Qed.

Lemma minStep_valid (ds : list Date) (t0 : Z) :
  fold_left minStep ds (Some (Some t0))
  = Some (Some (fold_left Z.min (validTimes ds) t0)).
Proof.
  revert t0. induction ds as [|d ds IH]; intro t0; [reflexivity|].
  cbn [fold_left minStep]. destruct d as [t|]; cbn [Date_lt validTimes flat_map].
  - destruct (Z.ltb_spec t t0); rewrite IH; cbn [app fold_left]; do 3 f_equal; lia.
  - apply IH.
Qed.

Lemma maxStep_valid (ds : list Date) (t0 : Z) :
  fold_left maxStep ds (Some (Some t0))
  = Some (Some (fold_left Z.max (validTimes ds) t0)).
Proof.
  revert t0. induction ds as [|d ds IH]; intro t0; [reflexivity|].
  cbn [fold_left maxStep]. destruct d as [t|]; cbn [Date_lt validTimes flat_map].
  - destruct (Z.ltb_spec t0 t); rewrite IH; cbn [app fold_left]; do 3 f_equal; lia.
  - apply IH.
Qed.

(** The date range, by the dates of the truthy start times. *)
Lemma summary_range_cases (first : row) (rest : list row) :
  match datesOf (column "start_time" (first :: rest)) with
  | [] =>
      exists s, generateSummaryStats (Some (first :: rest)) = Ok s /\
                Summary.dateRange s = None
  | None :: _ =>
      generateSummaryStats (Some (first :: rest)) = Throw "Invalid time value"
  | Some t0 :: later =>
      exists s, generateSummaryStats (Some (first :: rest)) = Ok s /\
        Summary.dateRange s =
          Some {| DateRange.min := isoString (fold_left Z.min (validTimes later) t0);
                  DateRange.max := isoString (fold_left Z.max (validTimes later) t0) |}
  end.
Proof.
  unfold CSVExport.generateSummaryStats. cbv zeta.
  destruct (tally_range (first :: rest) noTotals) as (-> & ->).
  cbn [rangeMin rangeMax noTotals].
  destruct (datesOf (column "start_time" (first :: rest))) as [|[t0|] later].
  - cbn [fold_left bind]. eexists. split; reflexivity.
  - cbn [fold_left minStep maxStep]. rewrite minStep_valid, maxStep_valid.
    cbn [Date_toISOString bind]. eexists. split; reflexivity.
  - cbn [fold_left minStep maxStep]. rewrite minStep_invalid. reflexivity.
Qed.

(** The only error of [generateSummaryStats]. *)
Lemma summary_throws (data : option (list row)) (m : string) :
  generateSummaryStats data = Throw m -> m = "Invalid time value".
Proof.
  destruct data as [[|first rest]|]; try discriminate.
  pose proof (summary_range_cases first rest) as H.
  destruct (datesOf (column "start_time" (first :: rest))) as [|[t0|] later].
  - destruct H as (s & -> & _). discriminate.
  - destruct H as (s & -> & _). discriminate.
  - rewrite H. intro E. now injection E as <-.
Qed.

(** X14: the date range of the summary.  Without a row that has a start
    time there is no range.  Otherwise the first such row decides: when
    its start time is not a date, [generateSummaryStats] throws; when it
    is one, the range runs from the earliest to the latest of the valid
    start times, and the later start times that are not dates are passed
    over.  No data gives the summary of zeros. *)
Theorem summary_date_range (first : row) (rest : list row) :
  generateSummaryStats None = Ok emptySummary /\
  generateSummaryStats (Some []) = Ok emptySummary /\
  match datesOf (column "start_time" (first :: rest)) with
  | [] =>
      exists s, generateSummaryStats (Some (first :: rest)) = Ok s /\
                Summary.dateRange s = None
  | None :: _ =>
      generateSummaryStats (Some (first :: rest)) = Throw "Invalid time value"
  | Some t0 :: later =>
      exists s, generateSummaryStats (Some (first :: rest)) = Ok s /\
        Summary.dateRange s =
          Some {| DateRange.min := isoString (fold_left Z.min (validTimes later) t0);
                  DateRange.max := isoString (fold_left Z.max (validTimes later) t0) |}
  end.
Proof.
  split; [reflexivity|]. split; [reflexivity|].
  apply summary_range_cases.
Qed.

(** The sets. *)
Lemma sameValueZero_refl (v : value) : sameValueZero v v = true.
Proof.
  destruct v as [| |b|[|q]|s]; simpl; try reflexivity.
  - now destruct b.
  - apply Qeq_bool_iff. reflexivity.
  - apply String.eqb_refl.
Qed.

Lemma sameValueZero_sym (a b : value) : sameValueZero a b = sameValueZero b a.
Proof.
  destruct a as [| |x|[|x]|x], b as [| |y|[|y]|y]; simpl; try reflexivity.
  - now destruct x, y.
  - destruct (Qeq_bool x y) eqn:E, (Qeq_bool y x) eqn:E'; try reflexivity.
    + apply Qeq_bool_iff in E. symmetry in E. apply Qeq_bool_iff in E. congruence.
    + apply Qeq_bool_iff in E'. symmetry in E'. apply Qeq_bool_iff in E'. congruence.
  - apply String.eqb_sym.
Qed.

Lemma Set_has_app (s : list value) (x v : value) :
  Set_has s v = true -> Set_has (s ++ [x]) v = true.
Proof.
  unfold Set_has. rewrite existsb_app. intros ->. reflexivity.
Qed.

Lemma distinct_app (s : list value) (v : value) :
  distinct s = true -> Set_has s v = false -> distinct (s ++ [v]) = true.
Proof.
  unfold Set_has. induction s as [|x s IH]; simpl; [reflexivity|].
  intros Hd Hh. apply andb_true_iff in Hd. destruct Hd as (Hx & Hd).
  apply orb_false_iff in Hh. destruct Hh as (Hvx & Hh).
  rewrite existsb_app. simpl. rewrite orb_false_r.
  rewrite (sameValueZero_sym x v), Hvx, orb_false_r, Hx. simpl.
  now apply IH.
Qed.

Lemma addTruthy_isSetOf (cells done set : list value) :
  isSetOf done set ->
  isSetOf (done ++ cells) (fold_left addTruthy cells set).
Proof.
  revert done set. induction cells as [|v cells IH]; intros done set H.
  - now rewrite app_nil_r.
  - cbn [fold_left].
    replace (done ++ v :: cells)%list with ((done ++ [v]) ++ cells)%list
      by (rewrite <- app_assoc; reflexivity).
    apply IH. destruct H as (Ha & Hb & Hc).
    unfold addTruthy, Set_add.
    destruct (truthy v) eqn:Et; [destruct (Set_has set v) eqn:Eh|].
    + split; [|split; [|assumption]].
      * intros x Hx. destruct (Ha x Hx). split; [assumption|].
        apply in_or_app. now left.
      * intros x Hx Htx. apply in_app_or in Hx. destruct Hx as [Hx|[<-|[]]]; auto.
    + split; [|split].
      * intros x Hx. apply in_app_or in Hx. destruct Hx as [Hx|[<-|[]]].
        -- destruct (Ha x Hx). split; [assumption|]. apply in_or_app. now left.
        -- split; [assumption|]. apply in_or_app. right. now left.
      * intros x Hx Htx. apply in_app_or in Hx. destruct Hx as [Hx|[<-|[]]].
        -- apply Set_has_app. auto.
        -- unfold Set_has. rewrite existsb_app. simpl.
           rewrite sameValueZero_refl. apply orb_true_r.
      * now apply distinct_app.
    + split; [|split; [|assumption]].
      * intros x Hx. destruct (Ha x Hx). split; [assumption|].
        apply in_or_app. now left.
      * intros x Hx Htx. apply in_app_or in Hx.
        destruct Hx as [Hx|[<-|[]]]; [auto|congruence].
Qed.

Lemma isSetOf_length (cells set : list value) :
  isSetOf cells set -> (List.length set <= List.length cells)%nat.
Proof.
  intros (Ha & _ & Hd).
  assert (Hnd : NoDup set).
  { clear Ha. induction set as [|x set IH]; [constructor|].
    simpl in Hd. apply andb_true_iff in Hd. destruct Hd as (Hx & Hd).
    constructor; [|now apply IH].
    intro Hin. apply negb_true_iff in Hx.
    assert (existsb (sameValueZero x) set = true); [|congruence].
    apply existsb_exists. exists x. split; [assumption|apply sameValueZero_refl]. }
  apply NoDup_incl_length; [assumption|].
  intros x Hx. now destruct (Ha x Hx).
Qed.

(** The result of [generateSummaryStats] on rows, when it returns. *)
Lemma summary_fields (first : row) (rest : list row) (s : Summary.t) :
  generateSummaryStats (Some (first :: rest)) = Ok s ->
  Summary.totalIntervals s = List.length (first :: rest) /\
  Summary.usagePoints s
  = List.length (fold_left addTruthy (column "usage_point_id" (first :: rest)) []) /\
  Summary.meterReadings s
  = List.length (fold_left addTruthy (column "meter_reading_id" (first :: rest)) []) /\
  Summary.commodities s
  = fold_left addTruthy (column "commodity" (first :: rest)) [] /\
  Summary.totalEnergyValue s
  = fold_left add (numbersOf (column "value" (first :: rest))) (ofZ 0) /\
  Summary.totalCost s
  = fold_left add (numbersOf (column "cost" (first :: rest))) (ofZ 0).
Proof.
  unfold CSVExport.generateSummaryStats. cbv zeta.
  destruct (tally_sets (first :: rest) noTotals) as (Hu & Hm & Hc).
  destruct (tally_totals (first :: rest) noTotals) as (He & Hs).
  match goal with
  | |- bind ?e _ = _ -> _ => destruct e as [range|]
  end; [|discriminate].
  cbn [bind]. intro H. injection H as <-.
  cbn [Summary.totalIntervals Summary.usagePoints Summary.meterReadings
       Summary.commodities Summary.totalEnergyValue Summary.totalCost].
  change (fold_left tally rest (tally noTotals first))
    with (fold_left tally (first :: rest) noTotals).
  rewrite Hu, Hm, Hc, He, Hs. repeat split.
Qed.

(** X12: the counts of the summary.  [usagePoints] and [meterReadings]
    are the sizes of sets that hold every truthy cell of the column once,
    and nothing else; [commodities] is such a set of the column of
    commodities; [totalIntervals] is the number of rows, which bounds the
    two counts. *)
Theorem summary_counts_distinct_values (first : row) (rest : list row)
  (s : Summary.t) :
  generateSummaryStats (Some (first :: rest)) = Ok s ->
  Summary.totalIntervals s = List.length (first :: rest) /\
  (exists set,
     isSetOf (column "usage_point_id" (first :: rest)) set /\
     Summary.usagePoints s = List.length set) /\
  (exists set,
     isSetOf (column "meter_reading_id" (first :: rest)) set /\
     Summary.meterReadings s = List.length set) /\
  isSetOf (column "commodity" (first :: rest)) (Summary.commodities s) /\
  (Summary.usagePoints s <= Summary.totalIntervals s)%nat /\
  (Summary.meterReadings s <= Summary.totalIntervals s)%nat.
Proof.
  intro H. apply summary_fields in H.
  destruct H as (Hn & Hu & Hm & Hc & _).
  assert (Hset : forall cells, isSetOf cells (fold_left addTruthy cells [])).
  { intro cells. apply (addTruthy_isSetOf cells [] []).
    split; [intros ? []|]. split; [intros ? []|reflexivity]. }
  split; [exact Hn|]. split; [|split; [|split; [|split]]].
  - eexists. split; [apply Hset|exact Hu].
  - eexists. split; [apply Hset|exact Hm].
  - rewrite Hc. apply Hset.
  - rewrite Hu, Hn. etransitivity; [apply isSetOf_length, Hset|].
    unfold column. now rewrite length_map.
  - rewrite Hm, Hn. etransitivity; [apply isSetOf_length, Hset|].
    unfold column. now rewrite length_map.
Qed.

(** The totals. *)
Lemma add_NaN_l (l : list number) : fold_left add l NaN = NaN.
Proof. induction l as [|x l IH]; [reflexivity|exact IH]. Qed.

Lemma add_fold_NaN (l : list number) (a : number) :
  In NaN l -> fold_left add l a = NaN.
Proof.
  revert a. induction l as [|x l IH]; intros a; [intros []|].
  intros [->|Hin]; cbn [fold_left].
  - destruct a; apply add_NaN_l.
  - now apply IH.
Qed.

Lemma add_fold_ofZ (zs : list Z) (a : Z) :
  fold_left add (map ofZ zs) (ofZ a) = ofZ (a + sumZ zs).
Proof.
  revert a. induction zs as [|z zs IH]; intro a; cbn [map fold_left sumZ fold_right].
  - now rewrite Z.add_0_r.
  - rewrite add_ofZ, IH. fold (sumZ zs). f_equal. lia.
Qed.


End SummaryStatistics.

(* ================================================================= *)
(** ** The application *)

Section PageTexts.

Import JS CSVExporter GreenButtonApp PageSpec.

Variable otherToString : Q -> string.

Local Abbreviation formatCellValue := (GreenButtonApp.formatCellValue otherToString).

(** *** The texts of the result page *)

Ltac each_ascii c :=
  destruct c as [[] [] [] [] [] [] [] []]; reflexivity.

Lemma isWordChar_toUpperCase (c : ascii) :
  isWordChar (toUpperCase c) = isWordChar c.
Proof. each_ascii c. Qed.

Lemma toUpperCase_idem (c : ascii) : toUpperCase (toUpperCase c) = toUpperCase c.
Proof. each_ascii c. Qed.

Lemma toUpperCase_underscore (c : ascii) :
  Nat.eqb (nat_of_ascii (toUpperCase c)) 95 = Nat.eqb (nat_of_ascii c) 95.
Proof. each_ascii c. Qed.

Lemma length_underscoresToSpaces (s : string) :
  String.length (underscoresToSpaces s) = String.length s.
Proof. induction s as [|c s IH]; simpl; congruence. Qed.

Lemma length_capitalizeWords (b : bool) (s : string) :
  String.length (capitalizeWords b s) = String.length s.
Proof. revert b. induction s as [|c s IH]; intro b; simpl; congruence. Qed.

Lemma noUnderscore_underscoresToSpaces (s : string) :
  noUnderscore (underscoresToSpaces s) = true.
Proof.
  unfold noUnderscore. induction s as [|c s IH]; [reflexivity|].
  cbn [underscoresToSpaces]. change (chars (String ?a ?r)) with (a :: chars r).
  cbn [forallb]. rewrite IH, andb_true_r.
  destruct (Nat.eqb (nat_of_ascii c) 95) eqn:E; [reflexivity|now rewrite E].
Qed.

Lemma noUnderscore_capitalizeWords (b : bool) (s : string) :
  noUnderscore s = true -> noUnderscore (capitalizeWords b s) = true.
Proof.
  unfold noUnderscore. revert b. induction s as [|c s IH]; intros b; [reflexivity|].
  cbn [capitalizeWords]. change (chars (String ?a ?r)) with (a :: chars r).
  cbn [forallb]. intro H. apply andb_true_iff in H. destruct H as (Hc & Hs).
  rewrite (IH _ Hs), andb_true_r.
  destruct (isWordChar c && negb b); [|exact Hc].
  now rewrite toUpperCase_underscore.
Qed.

Lemma underscoresToSpaces_id (s : string) :
  noUnderscore s = true -> underscoresToSpaces s = s.
Proof.
  unfold noUnderscore. induction s as [|c s IH]; [reflexivity|].
  change (chars (String c s)) with (c :: chars s). cbn [forallb underscoresToSpaces].
  intro H. apply andb_true_iff in H. destruct H as (Hc & Hs).
  rewrite (IH Hs). apply negb_true_iff in Hc. now rewrite Hc.
Qed.

Lemma capitalizeWords_idem (b : bool) (s : string) :
  capitalizeWords b (capitalizeWords b s) = capitalizeWords b s.
Proof.
  revert b. induction s as [|c s IH]; intro b; [reflexivity|].
  cbn [capitalizeWords].
  assert (Hw : isWordChar (if isWordChar c && negb b then toUpperCase c else c)
               = isWordChar c).
  { destruct (isWordChar c && negb b); [apply isWordChar_toUpperCase|reflexivity]. }
  rewrite Hw, IH. f_equal.
  destruct (isWordChar c && negb b); [apply toUpperCase_idem|reflexivity].
Qed.

(** X15: [formatHeaderName] keeps the length of a column name, leaves no
    underscore in it, and changes nothing when applied again; the
    seventeen column names of the export become their labels. *)
Theorem formatHeaderName_labels :
  (forall header,
     String.length (formatHeaderName header) = String.length header /\
     noUnderscore (formatHeaderName header) = true /\
     formatHeaderName (formatHeaderName header) = formatHeaderName header) /\
  map formatHeaderName defaultHeaders
  = [ "Usage Point Id"; "Meter Reading Id"; "Interval Block Id";
      "Reading Type Id"; "Service Category"; "Commodity"; "Uom";
      "Power Multiplier"; "Start Time"; "Duration"; "End Time"; "Value";
      "Cost"; "Quality Flags"; "Interval Length"; "Calculated Value";
      "Calculated Cost" ].
Proof.
  split; [|reflexivity]. intro header. unfold formatHeaderName.
  split; [|split].
  - now rewrite length_capitalizeWords, length_underscoresToSpaces.
  - apply noUnderscore_capitalizeWords, noUnderscore_underscoresToSpaces.
  - rewrite (underscoresToSpaces_id (capitalizeWords false _)).
    + apply capitalizeWords_idem.
    + apply noUnderscore_capitalizeWords, noUnderscore_underscoresToSpaces.
Qed.

Lemma length_substring0 (s : string) (n : nat) :
  String.length (String.substring 0 n s) = Nat.min n (String.length s).
Proof.
  revert n. induction s as [|c s IH]; intros [|n]; simpl; try reflexivity.
  now rewrite IH.
Qed.

Lemma substring0_all (s : string) (n : nat) :
  (String.length s <= n)%nat -> String.substring 0 n s = s.
Proof.
  revert n. induction s as [|c s IH]; intros [|n]; simpl; intro H;
    try reflexivity; try lia.
  f_equal. apply IH. lia.
Qed.

Lemma substring0_append (s t : string) (n : nat) :
  (n <= String.length s)%nat ->
  String.substring 0 n (s ++ t) = String.substring 0 n s.
Proof.
  revert n. induction s as [|c s IH]; intros [|n]; simpl; intro H;
    try reflexivity; try lia.
  - now destruct t.
  - f_equal. apply IH. lia.
Qed.

Lemma substring0_idem (s : string) (n : nat) :
  String.substring 0 n (String.substring 0 n s) = String.substring 0 n s.
Proof.
  revert n. induction s as [|c s IH]; intros [|n]; simpl; try reflexivity.
  now rewrite IH.
Qed.

(** X16: the texts cut for display.  [truncateText] gives N/A for no
    text and for the empty text, the text itself when it has at most
    [maxLength] characters, and otherwise its first [maxLength] characters
    followed by three dots: never more than [maxLength] + 3 characters,
    and exactly as many for a longer text, so that a text one or two
    characters too long is shown longer than it is.  [formatCellValue]
    cuts a string after 50 characters in the same way and gives the empty
    text for [null] and [undefined]. *)
Theorem display_texts_are_cut :
  (forall maxLength,
     truncateText None maxLength = "N/A" /\
     truncateText (Some "") maxLength = "N/A") /\
  (forall t maxLength,
     0 <= maxLength ->
     let shown := truncateText (Some t) maxLength in
     Z.of_nat (String.length shown) <= maxLength + 3 /\
     (t <> "" -> sameStart (Z.to_nat maxLength) shown t) /\
     (t <> "" -> Z.of_nat (String.length t) <= maxLength -> shown = t) /\
     (maxLength < Z.of_nat (String.length t) ->
      Z.of_nat (String.length shown) = maxLength + 3)) /\
  (forall s,
     (String.length (formatCellValue (Str s)) <= 53)%nat /\
     sameStart 50 (formatCellValue (Str s)) s /\
     ((String.length s <= 50)%nat -> formatCellValue (Str s) = s) /\
     ((50 < String.length s)%nat ->
      String.length (formatCellValue (Str s)) = 53%nat)) /\
  formatCellValue Null = "" /\ formatCellValue Undefined = "".
Proof.
  split; [intro; split; reflexivity|]. split; [|split; [|split; reflexivity]].
  - intros t maxLength Hm shown. unfold shown, truncateText, substring0, sameStart.
    destruct t as [|c t]; [simpl; repeat split; try lia; now intros []|].
    cbn [truthyStr].
    destruct (Z.leb_spec (Z.of_nat (String.length (String c t))) maxLength) as [Hle|Hgt].
    + split; [lia|]. split; [reflexivity|]. split; [reflexivity|lia].
    + split; [|split; [|split]].
      * rewrite length_append, length_substring0. simpl String.length in *. lia.
      * intros _. rewrite substring0_append, substring0_idem; [reflexivity|].
        rewrite length_substring0. lia.
      * lia.
      * intros _. rewrite length_append, length_substring0.
        simpl String.length in *. lia.
  - intro s. unfold GreenButtonApp.formatCellValue, substring0, sameStart.
    rewrite Z.gtb_ltb.
    destruct (Z.ltb_spec 50 (Z.of_nat (String.length s))) as [Hgt|Hle].
    + change (Z.to_nat 50) with 50%nat. split; [|split; [|split]].
      * rewrite length_append, length_substring0. simpl String.length. lia.
      * rewrite substring0_append, substring0_idem; [reflexivity|].
        rewrite length_substring0. lia.
      * lia.
      * intros _. rewrite length_append, length_substring0.
        simpl String.length. lia.
    + cbn [String_]. split; [lia|]. split; [reflexivity|]. split; [reflexivity|lia].
Qed.

Lemma noColon_append (s t : string) :
  noColon (s ++ t) = noColon s && noColon t.
Proof.
  unfold noColon. induction s as [|c s IH]; [reflexivity|].
  change (chars (String c s ++ t)) with (c :: chars (s ++ t)).
  change (chars (String c s)) with (c :: chars s).
  cbn [forallb]. now rewrite IH, andb_assoc.
Qed.

Lemma noColon_colonsToHyphens (s : string) : noColon (colonsToHyphens s) = true.
Proof.
  unfold noColon. induction s as [|c s IH]; [reflexivity|].
  cbn [colonsToHyphens]. change (chars (String ?a ?r)) with (a :: chars r).
  cbn [forallb]. rewrite IH, andb_true_r.
  destruct (Nat.eqb (nat_of_ascii c) 58) eqn:E; [reflexivity|now rewrite E].
Qed.

Lemma prefix_append (p s : string) : String.prefix p (p ++ s) = true.
Proof.
  induction p as [|c p IH]; simpl; [now destruct s|].
  destruct (ascii_dec c c); [exact IH|contradiction].
Qed.

(** X17: the file name [handleExport] gives an export holds no colon,
    whatever the time of the clock; it is made of the fixed prefix, at
    most nineteen characters of the time and the extension; at the epoch
    it is the name of the first second of 1970. *)
Theorem exportFilename_has_no_colon :
  (forall now,
     noColon (exportFilename now) = true /\
     startsWith (exportFilename now) "green_button_data_" = true /\
     endsWith (exportFilename now) ".csv" = true /\
     (String.length (exportFilename now) <= 41)%nat) /\
  exportFilename 0 = "green_button_data_1970-01-01T00-00-00.csv" /\
  exportFilename 1609459200123 = "green_button_data_2021-01-01T00-00-00.csv".
Proof.
  split; [|split; reflexivity]. intro now. unfold exportFilename.
  split; [|split; [|split]].
  - rewrite !noColon_append, noColon_colonsToHyphens. reflexivity.
  - apply prefix_append.
  - unfold endsWith. rewrite !chars_append, !rev_app_distr.
    rewrite <- app_assoc, str_app. apply prefix_append.
  - rewrite !length_append.
    assert (H : (String.length (colonsToHyphens (substring0 (isoString now) 19)) <= 19)%nat).
    { generalize (isoString now). intro s. unfold substring0.
      change (Z.to_nat 19) with 19%nat.
      assert (Hc : forall u, String.length (colonsToHyphens u) = String.length u)
        by (induction u; simpl; congruence).
      rewrite Hc, length_substring0. lia. }
    simpl String.length in *. lia.
Qed.

End PageTexts.

Section Application.

Import JS Dom GreenButtonParser CSVExporter FeedSpec FeedFacts CSVExport.
Import SummarySpec GreenButtonApp PageSpec.

Variable otherToString : Q -> string.
Variable now : Z.
Variable browserDownload : string -> string -> result unit.
Variable Date_parse : string -> option Z.

Local Abbreviation toFlatData := (GreenButtonParser.toFlatData otherToString).
Local Abbreviation generateSummaryStats := (CSVExport.generateSummaryStats Date_parse).
Local Abbreviation processFile := (GreenButtonApp.processFile otherToString Date_parse).
Local Abbreviation handleExport :=
  (GreenButtonApp.handleExport otherToString now browserDownload).
Local Abbreviation consistent := (PageSpec.consistent otherToString).

(** *** Processing a file, then exporting *)

Lemma summary_totalIntervals (rows : list row) (s : Summary.t) :
  generateSummaryStats (Some rows) = Ok s ->
  Summary.totalIntervals s = List.length rows.
Proof.
  destruct rows as [|first rest].
  - intro H. injection H as <-. reflexivity.
  - intro H. now apply (summary_fields Date_parse) in H.
Qed.

(** What [processFile] went through when it hands over statistics. *)
Lemma processFile_success (app app' : App) (file : File) (stats : Summary.t) :
  processFile app file = (app', Ok stats) ->
  endsWith (toLowerCase (name file)) ".xml" = true /\
  exists xmlDoc pd rows,
    document file = Some xmlDoc /\ parseXML xmlDoc = Ok pd /\
    toFlatData pd = Ok rows /\
    app' = {| currentData := Some pd; currentFlatData := Some rows |} /\
    generateSummaryStats (Some (map toObject rows)) = Ok stats.
Proof.
  unfold GreenButtonApp.processFile.
  destruct (endsWith (toLowerCase (name file)) ".xml"); cbn [negb];
    [|discriminate].
  destruct (document file) as [xmlDoc|] eqn:Ed; [|discriminate].
  destruct (parseXML xmlDoc) as [pd|m] eqn:Ep; [|discriminate].
  cbv zeta. destruct (toFlatData pd) as [rows|m] eqn:Ef; [|discriminate].
  intro H. apply pair_equal_spec in H. destruct H as [<- Hs].
  split; [reflexivity|]. exists xmlDoc, pd, rows.
  split; [reflexivity|]. split; [exact Ep|]. split; [exact Ef|].
  split; [reflexivity|exact Hs].
Qed.

(** X22: [processFile] hands statistics to the result page only for a
    file whose name ends in .xml, in any case of the letters, that can be
    read, parsed and flattened; it then holds the document and its rows,
    and [totalIntervals] is the number of these rows, the product of the
    linked usage points, the linked meter readings and all interval
    readings.  Otherwise it hands over one message: for the name, for the
    reader, a message of [parseXML], or the message on a time out of
    range; in the last case it holds the new document, with the rows of
    the file before when it was [toFlatData] that threw. *)
Theorem processFile_outcomes (app : App) (file : File) :
  match processFile app file with
  | (app', Ok stats) =>
      endsWith (toLowerCase (name file)) ".xml" = true /\
      exists xmlDoc pd rows,
        document file = Some xmlDoc /\ parseXML xmlDoc = Ok pd /\
        toFlatData pd = Ok rows /\
        app' = {| currentData := Some pd; currentFlatData := Some rows |} /\
        consistent app' /\
        Summary.totalIntervals stats = List.length rows /\
        List.length rows
        = (linkedUsagePoints pd * linkedMeterReadings pd * totalReadings pd)%nat
  | (app', Throw message) =>
      (endsWith (toLowerCase (name file)) ".xml" = false /\
       message = "Please select an XML file" /\ app' = app) \/
      (document file = None /\ message = "Failed to read file" /\ app' = app) \/
      (startsWith message "Failed to parse Green Button XML: " = true /\
       app' = app) \/
      (message = "Invalid time value" /\
       exists xmlDoc pd,
         document file = Some xmlDoc /\ parseXML xmlDoc = Ok pd /\
         currentData app' = Some pd /\
         match toFlatData pd with
         | Ok rows => currentFlatData app' = Some rows
         | Throw _ => currentFlatData app' = currentFlatData app
         end)
  end.
Proof.
  unfold GreenButtonApp.processFile.
  destruct (endsWith (toLowerCase (name file)) ".xml") eqn:En; cbn [negb];
    [|left; auto].
  destruct (document file) as [xmlDoc|] eqn:Ed; [|right; left; auto].
  destruct (parseXML xmlDoc) as [pd|m] eqn:Ep.
  - cbv zeta.
    destruct (toFlatData pd) as [rows|m] eqn:Ef.
    + destruct (generateSummaryStats (Some (map toObject rows))) as [stats|m] eqn:Es.
      * split; [reflexivity|]. exists xmlDoc, pd, rows.
        split; [reflexivity|]. split; [exact Ep|]. split; [exact Ef|].
        split; [reflexivity|]. split; [exact Ef|]. split.
        -- rewrite (summary_totalIntervals _ _ Es). apply length_map.
        -- destruct (parseXML_distinct _ _ Ep) as (_ & _ & Hib & _).
           destruct (parseXML_collected _ _ Ep) as (pd0 & -> & Hrel & Hup & Hmr).
           rewrite (toFlatData_traversal otherToString) in Ef.
           apply mapM_Forall2, Forall2_length in Ef. rewrite <- Ef.
           rewrite reached_count by assumption.
           change (linkedUsagePoints (buildRelationships pd0))
             with (linkedUsagePoints pd0).
           change (linkedMeterReadings (buildRelationships pd0))
             with (linkedMeterReadings pd0).
           change (totalReadings (buildRelationships pd0)) with (totalReadings pd0).
           lia.
      * right. right. right. split; [exact (summary_throws Date_parse _ _ Es)|].
        exists xmlDoc, pd. split; [reflexivity|]. split; [exact Ep|].
        split; [reflexivity|]. rewrite Ef. reflexivity.
    + right. right. right. split.
      * rewrite (toFlatData_traversal otherToString) in Ef.
        apply mapM_throws in Ef. destruct Ef as (it & Hit & Hm).
        pose proof (parseXML_numbersRead _ _ Ep) as Hn.
        destruct (reached_numbersRead pd it Hn Hit) as ((_ & _ & Hp) & _).
        exact (proj2 (flatRow_throws otherToString _ _ _ _ _ _ _ Hp) m Hm).
      * exists xmlDoc, pd. split; [reflexivity|]. split; [exact Ep|].
        split; [reflexivity|]. rewrite Ef. reflexivity.
  - right. right. left. split; [|reflexivity].
    exact (parseXML_throws_prefix _ _ Ep).
Qed.

(** X23: after [processFile] has handed over statistics, [handleExport]
    cannot fail on the document: it reports no error, or the empty data
    when the statistics count no row, or the failure of the download
    when they count rows.  Before any file, and after [handleReset], it
    reports that there is no data. *)
Theorem export_after_processing (app app' : App) (file : File)
  (stats : Summary.t) :
  processFile app file = (app', Ok stats) ->
  match handleExport app' with
  | None => Summary.totalIntervals stats <> 0%nat
  | Some message =>
      (Summary.totalIntervals stats = 0%nat /\
       message = "Export failed: Data validation failed: Data array is empty") \/
      (Summary.totalIntervals stats <> 0%nat /\
       exists m, message = "Export failed: Failed to download CSV file: " ++ m)
  end /\
  handleExport initial = Some "No data available to export" /\
  handleExport (handleReset app') = Some "No data available to export".
Proof.
  intro H. split; [|split; reflexivity].
  apply processFile_success in H.
  destruct H as (_ & xmlDoc & pd & rows & _ & _ & Hf & -> & Hs).
  apply summary_totalIntervals in Hs. rewrite length_map in Hs.
  rename Hs into Hn.
  unfold GreenButtonApp.handleExport. cbn [currentData currentFlatData].
  cbv zeta.
  match goal with
  | |- context [exportGreenButtonData ?o ?n ?b ?p ?opts] =>
      pose proof (export_cases o n b p opts) as He;
      set (result := exportGreenButtonData o n b p opts) in *
  end.
  rewrite Hf in He. rewrite Hn. destruct rows as [|r rows].
  - rewrite He. cbn. left. split; reflexivity.
  - destruct He as (csv & _ & _ & He). cbv zeta in He.
    cbn [Options.downloadFile Options.includeMetadata Options.filename] in He.
    destruct (browserDownload csv (exportFilename now)) as [u|m];
      rewrite He; cbn [ExportResult.success ExportResult.error failure].
    + discriminate.
    + right. split; [discriminate|]. exists m. reflexivity.
Qed.

End Application.

(* ================================================================= *)
(** ** Instances of the properties that have hypotheses *)

Section MoreInstances.

Import JS Dom GreenButtonParser CSVExporter FeedSpec CsvSpec FeedFacts.
Import TableSpec CSVExport SummarySpec GreenButtonApp Samples.

Lemma parseXML_collects_from_entries_instance :
  parseXML zeroValueFeed = Ok (parsed zeroValueFeed) /\
  (entities (parsed zeroValueFeed)
   <= totalEntries (metadata (parsed zeroValueFeed)))%nat /\
  NoDup (keys (usagePoints (parsed zeroValueFeed))).
Proof.
  assert (H : parseXML zeroValueFeed = Ok (parsed zeroValueFeed))
    by (vm_compute; reflexivity).
  split; [exact H|].
  pose proof (parseXML_collects_from_entries _ _ H) as (Hn & _ & Hd & _).
  split; [exact Hn|exact Hd].
Defined.


Lemma toFlatData_throws_on_times_out_of_range_instance :
  parseXML farFutureFeed = Ok (parsed farFutureFeed) /\
  exists m,
    GreenButtonParser.toFlatData noExponentText (parsed farFutureFeed) = Throw m.
Proof.
  assert (H : parseXML farFutureFeed = Ok (parsed farFutureFeed))
    by (vm_compute; reflexivity).
  split; [exact H|].
  apply (proj1 (toFlatData_throws_on_times_out_of_range noExponentText _ _ H)).
  exists (firstReached farFutureFeed). split.
  - vm_compute. left. reflexivity.
  - exists farFuturePeriod, 9000000000000.
    split; [vm_compute; reflexivity|]. split; [reflexivity|].
    left. unfold outOfRange, maxTime. simpl. lia.
Defined.

Lemma rows_are_the_product_of_the_linked_instance :
  parseXML noReadingTypeFeed = Ok (parsed noReadingTypeFeed) /\
  GreenButtonParser.toFlatData noExponentText (parsed noReadingTypeFeed)
  = Ok (rowsOf noReadingTypeFeed) /\
  List.length (rowsOf noReadingTypeFeed)
  = (linkedUsagePoints (parsed noReadingTypeFeed)
     * linkedMeterReadings (parsed noReadingTypeFeed)
     * totalReadings (parsed noReadingTypeFeed))%nat.
Proof.
  assert (H1 : parseXML noReadingTypeFeed = Ok (parsed noReadingTypeFeed))
    by (vm_compute; reflexivity).
  assert (H2 : GreenButtonParser.toFlatData noExponentText (parsed noReadingTypeFeed)
               = Ok (rowsOf noReadingTypeFeed)) by (vm_compute; reflexivity).
  split; [exact H1|]. split; [exact H2|].
  exact (rows_are_the_product_of_the_linked noExponentText _ _ _ H1 H2).
Defined.


Lemma export_success_instance :
  ExportResult.success
    (exportGreenButtonData noExponentText 0 noDownload (parsed zeroValueFeed)
       quietOptions) = true /\
  exists rows,
    GreenButtonParser.toFlatData noExponentText (parsed zeroValueFeed) = Ok rows /\
    rows <> [].
Proof.
  assert (H : ExportResult.success
                (exportGreenButtonData noExponentText 0 noDownload
                   (parsed zeroValueFeed) quietOptions) = true)
    by (vm_compute; reflexivity).
  split; [exact H|].
  destruct (export_success noExponentText 0 noDownload _ _ H)
    as (rows & _ & _ & _ & Hrows & Hne & _).
  exists rows. split; [exact Hrows|exact Hne].
Defined.

Lemma export_failure_instance :
  ExportResult.success
    (exportGreenButtonData noExponentText 0 noDownload emptyData quietOptions)
  = false /\
  ExportResult.csvContent
    (exportGreenButtonData noExponentText 0 noDownload emptyData quietOptions)
  = None.
Proof.
  assert (H : ExportResult.success
                (exportGreenButtonData noExponentText 0 noDownload emptyData
                   quietOptions) = false)
    by (vm_compute; reflexivity).
  split; [exact H|].
  exact (proj1 (export_failure noExponentText 0 noDownload _ _ H)).
Defined.

Lemma summary_counts_distinct_values_instance :
  generateSummaryStats sampleParse (Some [sampleObject]) = Ok sampleSummary /\
  Summary.totalIntervals sampleSummary = 1%nat /\
  (Summary.usagePoints sampleSummary <= Summary.totalIntervals sampleSummary)%nat.
Proof.
  assert (H : generateSummaryStats sampleParse (Some [sampleObject])
              = Ok sampleSummary) by (vm_compute; reflexivity).
  split; [exact H|].
  pose proof (summary_counts_distinct_values sampleParse _ _ _ H)
    as (Hn & _ & _ & _ & Hu & _).
  split; [exact Hn|exact Hu].
Defined.


Lemma rows_hold_labels_of_the_tables_instance :
  parseXML zeroValueFeed = Ok (parsed zeroValueFeed) /\
  GreenButtonParser.toFlatData noExponentText (parsed zeroValueFeed)
  = Ok (rowsOf zeroValueFeed) /\
  In (firstRow zeroValueFeed) (rowsOf zeroValueFeed) /\
  optionally (labelOf COMMODITY_TYPES) (commodity (firstRow zeroValueFeed)).
Proof.
  assert (H1 : parseXML zeroValueFeed = Ok (parsed zeroValueFeed))
    by (vm_compute; reflexivity).
  assert (H2 : GreenButtonParser.toFlatData noExponentText (parsed zeroValueFeed)
               = Ok (rowsOf zeroValueFeed)) by (vm_compute; reflexivity).
  assert (H3 : In (firstRow zeroValueFeed) (rowsOf zeroValueFeed))
    by (vm_compute; left; reflexivity).
  split; [exact H1|]. split; [exact H2|]. split; [exact H3|].
  exact (proj1 (proj2 (rows_hold_labels_of_the_tables noExponentText
                         _ _ _ _ H1 H2 H3))).
Defined.

Lemma rows_share_the_first_reading_type_instance :
  parseXML zeroValueFeed = Ok (parsed zeroValueFeed) /\
  GreenButtonParser.toFlatData noExponentText (parsed zeroValueFeed)
  = Ok (rowsOf zeroValueFeed) /\
  In (firstRow zeroValueFeed) (rowsOf zeroValueFeed) /\
  (reading_type_id (firstRow zeroValueFeed) = None \/
   reading_type_id (firstRow zeroValueFeed)
   = firstReadingType (parsed zeroValueFeed)).
Proof.
  assert (H1 : parseXML zeroValueFeed = Ok (parsed zeroValueFeed))
    by (vm_compute; reflexivity).
  assert (H2 : GreenButtonParser.toFlatData noExponentText (parsed zeroValueFeed)
               = Ok (rowsOf zeroValueFeed)) by (vm_compute; reflexivity).
  assert (H3 : In (firstRow zeroValueFeed) (rowsOf zeroValueFeed))
    by (vm_compute; left; reflexivity).
  split; [exact H1|]. split; [exact H2|]. split; [exact H3|].
  destruct (rows_share_the_first_reading_type noExponentText _ _ _ _ H1 H2 H3)
    as [(Hn & _)|(Hf & _)]; [left; exact Hn|right; exact Hf].
Defined.

Lemma export_after_processing_instance :
  processFile noExponentText sampleParse initial sampleFile
  = (sampleProcessed, Ok sampleStatistics) /\
  handleExport noExponentText 0 noDownload (handleReset sampleProcessed)
  = Some "No data available to export".
Proof.
  assert (H : processFile noExponentText sampleParse initial sampleFile
              = (sampleProcessed, Ok sampleStatistics))
    by (vm_compute; reflexivity).
  split; [exact H|].
  exact (proj2 (proj2 (export_after_processing noExponentText 0 noDownload
                         sampleParse _ _ _ _ H))).
Defined.

End MoreInstances.
